(** * Redmine-to-Jira migration scripts: a shallow embedding in Rocq

    This development models the Python sources of the Redmine-to-Jira
    migration tool:
    - [src/utils/_ratelimiter.py]   (class [RateLimiter]),
    - [src/utils/_exporter.py]      (class [RedmineExporter]: pagination,
                                     checkpoint store, export loop),
    - [src/main.py]                 (the older stand-alone exporter),
    - [src/utils/_importer.py]      (class [JiraImporter]: payload building,
                                     attachments, comments, status
                                     transition, import loop).

    Python values read from JSON are modelled by [json]; Python exceptions
    by [exc]; effectful methods by a small state/exception monad whose state
    records the outbound HTTP requests and log lines, in program order.
    Everything the scripts obtain from the outside world (HTTP replies,
    file-system facts, clock readings) is an explicit parameter. *)

From Stdlib Require Import ZArith Lia List String Ascii Bool DecimalZ Sorted.
From stdpp Require Import base gmap strings.
Import ListNotations.
Open Scope Z_scope.

(* ------------------------------------------------------------------ *)
(** ** Python values and exceptions *)

#[local] Set Warnings "-register-all".

(** JSON values as returned by [json.loads] / [response.json()]. *)
Inductive json : Type :=
| JNull
| JBool (b : bool)
| JInt (z : Z)
| JStr (s : string)
| JList (l : list json)
| JObj (kvs : list (string * json)).

(** The exception classes the scripts raise or catch. *)
Inductive exc : Type :=
| KeyboardInterrupt
| SystemExit
| ValueError
| TypeError
| KeyError
| IndexError
| AttributeError
| UnboundLocalError
| JSONDecodeError        (* json / requests decoding failure *)
| ConnectionError        (* transport failure inside [requests] *)
| HTTPError (code : Z)   (* [response.raise_for_status()] *)
| IOError
| RedmineExportError
| RedmineAuthenticationError
| RedminePermissionError
| RedmineNotFoundError
| JiraExportError
| JiraBadRequestError
| JiraAuthenticationError
| JiraPermissionError
| JiraNotFoundError
| JiraRequestTimeoutError
| JiraTooManyRequestsError
| JiraServerError
| JiraAttachmentError.

(** [except Exception] catches every class above except the two
    [BaseException]-only ones. *)
Definition is_Exception (e : exc) : bool :=
  match e with KeyboardInterrupt | SystemExit => false | _ => true end.

(** [except requests.HTTPError]. *)
Definition is_HTTPError (e : exc) : bool :=
  match e with HTTPError _ => true | _ => false end.

(** [except requests.exceptions.RequestException]: [HTTPError],
    [ConnectionError] and the decoding error raised by [response.json()]
    (requests' [JSONDecodeError] derives from [RequestException]). *)
Definition is_RequestException (e : exc) : bool :=
  match e with HTTPError _ | ConnectionError | JSONDecodeError => true | _ => false end.

(** An HTTP exchange as seen by [requests]: a reply with a status code and a
    body that may or may not decode as JSON, or a transport failure. *)
Inductive reply : Type :=
| Reply (code : Z) (body : option json)
| NetFail.

(** [response.raise_for_status()]. *)
Definition raise_for_status (code : Z) : option exc :=
  if (400 <=? code) && (code <? 600) then Some (HTTPError code) else None.

(** Python truthiness of a JSON value. *)
Definition truthy (v : json) : bool :=
  match v with
  | JNull => false
  | JBool b => b
  | JInt z => negb (z =? 0)
  | JStr s => negb (String.eqb s EmptyString)
  | JList l => negb (Nat.eqb (List.length l) 0)
  | JObj kvs => negb (Nat.eqb (List.length kvs) 0)
  end.

(** Dictionary lookup in insertion order. *)
Fixpoint assoc (k : string) (kvs : list (string * json)) : option json :=
  match kvs with
  | [] => None
  | (k', v) :: r => if String.eqb k k' then Some v else assoc k r
  end.

(** [d[k] = v]: overwrite in place, or append a new key. *)
Fixpoint assoc_set (k : string) (v : json) (kvs : list (string * json))
  : list (string * json) :=
  match kvs with
  | [] => [(k, v)]
  | (k', v') :: r =>
      if String.eqb k k' then (k', v) :: r else (k', v') :: assoc_set k v r
  end.

(* ------------------------------------------------------------------ *)
(** ** Decimal text of integers: [str(i)] and [int(s)] *)

Fixpoint uint_str (u : Decimal.uint) : string :=
  match u with
  | Decimal.Nil => EmptyString
  | Decimal.D0 r => String "0" (uint_str r)
  | Decimal.D1 r => String "1" (uint_str r)
  | Decimal.D2 r => String "2" (uint_str r)
  | Decimal.D3 r => String "3" (uint_str r)
  | Decimal.D4 r => String "4" (uint_str r)
  | Decimal.D5 r => String "5" (uint_str r)
  | Decimal.D6 r => String "6" (uint_str r)
  | Decimal.D7 r => String "7" (uint_str r)
  | Decimal.D8 r => String "8" (uint_str r)
  | Decimal.D9 r => String "9" (uint_str r)
  end.

(** Python [str(i)] for an [int]. *)
Definition py_str_int (i : Z) : string :=
  match Z.to_int i with
  | Decimal.Pos u => uint_str u
  | Decimal.Neg u => String "-" (uint_str u)
  end.

Definition digit_of (c : ascii) : option (Decimal.uint -> Decimal.uint) :=
  match c with
  | "0"%char => Some Decimal.D0 | "1"%char => Some Decimal.D1
  | "2"%char => Some Decimal.D2 | "3"%char => Some Decimal.D3
  | "4"%char => Some Decimal.D4 | "5"%char => Some Decimal.D5
  | "6"%char => Some Decimal.D6 | "7"%char => Some Decimal.D7
  | "8"%char => Some Decimal.D8 | "9"%char => Some Decimal.D9
  | _ => None
  end.

Definition is_digit (c : ascii) : bool :=
  match digit_of c with Some _ => true | None => false end.

(** The digits of a decimal literal, where a single [_] may separate two
    digits (as Python's [int] accepts). *)
Fixpoint parse_uint (s : string) : option Decimal.uint :=
  match s with
  | EmptyString => Some Decimal.Nil
  | String c r =>
      match digit_of c with
      | Some d => option_map d (parse_uint r)
      | None =>
          if Ascii.eqb c "_" then
            match r with
            | String c' _ => if is_digit c' then parse_uint r else None
            | EmptyString => None
            end
          else None
      end
  end.

(** Whitespace that [int] strips (ASCII part of [str.isspace]). *)
Definition is_space (c : ascii) : bool :=
  let n := nat_of_ascii c in
  ((9 <=? n) && (n <=? 13))%nat || ((28 <=? n) && (n <=? 32))%nat.

Fixpoint lstrip (s : string) : string :=
  match s with
  | String c r => if is_space c then lstrip r else s
  | EmptyString => EmptyString
  end.

Fixpoint srev_app (s acc : string) : string :=
  match s with
  | String c r => srev_app r (String c acc)
  | EmptyString => acc
  end.

(** [str.strip()]: [lstrip], then [lstrip] of the reversed text. *)
Definition strip (s : string) : string :=
  srev_app (lstrip (srev_app (lstrip s) EmptyString)) EmptyString.

(** The unsigned body of a literal: non-empty, starting with a digit. *)
Definition parse_body (s : string) : option Decimal.uint :=
  match s with
  | String c _ => if is_digit c then parse_uint s else None
  | EmptyString => None
  end.

(** Python [int(s)] on a [str]: surrounding whitespace, an optional sign,
    then a decimal literal; anything else raises [ValueError]. *)
Definition py_int (s : string) : exc + Z :=
  let t := strip s in
  let r :=
    match t with
    | String "-" b => option_map (fun u => Z.of_int (Decimal.Neg u)) (parse_body b)
    | String "+" b => option_map (fun u => Z.of_int (Decimal.Pos u)) (parse_body b)
    | _ => option_map (fun u => Z.of_int (Decimal.Pos u)) (parse_body t)
    end in
  match r with Some z => inr z | None => inl ValueError end.

(* ------------------------------------------------------------------ *)
(** ** Checkpoint store ([RedmineExporter.save_progress] / [load_progress],
    identical in [src/utils/_exporter.py] and [src/main.py]) *)

Module Checkpoint.

(** The file system, as far as these methods see it: path to contents. *)
Abbreviation files := (gmap string string).

(** [with open(progress_file, "w") as file: file.write(str(i))] *)
Definition save_progress (current_issue_index : Z) (progress_file : string)
    (fs : files) : files :=
  <[progress_file := py_str_int current_issue_index]> fs.

(** [if not os.path.exists(progress_file): return 0];
    otherwise [int(file.read())], which may raise [ValueError]. *)
Definition load_progress (progress_file : string) (fs : files) : exc + Z :=
  match fs !! progress_file with
  | None => inr 0
  | Some contents => py_int contents
  end.

End Checkpoint.

(* ------------------------------------------------------------------ *)
(** ** Rate limiter ([src/utils/_ratelimiter.py]; [src/main.py] has the same
    [wait] without the lock) *)

Module RateLimiter.

Record limiter := mk_limiter { delay : Z; last_request_time : Z }.

(** One call of [wait()].  The clock readings are inputs: [now] is the
    value of [time.perf_counter()] at line 19, [oversleep >= 0] is how much
    longer than requested [time.sleep] slept, [after >= 0] is the time
    between the end of the sleep (or line 19) and the reading at line 23. *)
Definition wait (rl : limiter) (now oversleep after : Z) : limiter :=
  let elapsed_time := now - last_request_time rl in
  let t := if elapsed_time <? delay rl
           then now + (delay rl - elapsed_time) + oversleep
           else now in
  mk_limiter (delay rl) (t + after).

(** Clock readings for one call, as [(now, oversleep, after)]. *)
Definition reading := (Z * Z * Z)%type.

Definition reading_ok (r : reading) : Prop :=
  let '(_, o, a) := r in 0 <= o /\ 0 <= a.

(** A sequence of acquisitions on one limiter: the recorded window starts
    ([last_request_time] after each [wait]). *)
Fixpoint acquisitions (rl : limiter) (rs : list reading) : list Z :=
  match rs with
  | [] => []
  | (n, o, a) :: rs' =>
      let rl' := wait rl n o a in
      last_request_time rl' :: acquisitions rl' rs'
  end.

(** Consecutive window starts are at least [d] apart. *)
Fixpoint spaced (d : Z) (ts : list Z) : Prop :=
  match ts with
  | t1 :: ((t2 :: _) as r) => t1 + d <= t2 /\ spaced d r
  | _ => True
  end.

(** [__exit__]: [True] (suppress) for any exception other than
    [KeyboardInterrupt]; [None] (falsy) when there is no exception. *)
Definition exit_suppresses (exc_type : option exc) : bool :=
  match exc_type with
  | None => false
  | Some KeyboardInterrupt => false
  | Some _ => true
  end.

End RateLimiter.

(* ------------------------------------------------------------------ *)
(** ** A state and exception monad for the methods that raise *)

Definition M (S A : Type) : Type := S -> (exc + A) * S.

Definition ret {S A} (a : A) : M S A := fun s => (inr a, s).
Definition raise {S A} (e : exc) : M S A := fun s => (inl e, s).
Definition bind {S A B} (m : M S A) (k : A -> M S B) : M S B :=
  fun s => match m s with
           | (inl e, s') => (inl e, s')
           | (inr a, s') => k a s'
           end.

Notation "'let*' x := m 'in' k" := (bind m (fun x => k))
  (at level 200, x name, m at level 100, k at level 200).
Notation "m ;; k" := (bind m (fun _ => k)) (at level 100, right associativity).

(** [try: m except <catches>: handler]: an exception [e] with [catches e]
    runs [handler e]; others propagate. *)
Definition try_except {S A} (m : M S A) (catches : exc -> bool)
    (handler : exc -> M S A) : M S A :=
  fun s => match m s with
           | (inl e, s') => if catches e then handler e s' else (inl e, s')
           | r => r
           end.

(** [with cm: body] where [cm.__enter__] is [enter] and [cm.__exit__] returns
    [exit (Some e)] for an exception [e] escaping the body. *)
Definition with_stmt {S} (enter : M S unit) (exit : option exc -> bool)
    (body : M S unit) : M S unit :=
  fun s => match enter s with
           | (inl e, s1) => (inl e, s1)
           | (inr _, s1) =>
               match body s1 with
               | (inr _, s2) => (inr tt, s2)
               | (inl e, s2) => if exit (Some e) then (inr tt, s2) else (inl e, s2)
               end
           end.

(** [with rate_limiter: body]. *)
Definition with_rate_limiter {S} (enter : M S unit) (body : M S unit) : M S unit :=
  with_stmt enter RateLimiter.exit_suppresses body.

(* ------------------------------------------------------------------ *)
(** ** Python helpers on JSON values *)

(** [isinstance(v, t)] for the types the field tables mention
    ([bool] is a subclass of [int]). *)
Inductive pytype := TStr | TDict | TInt | TList.

Definition validate_input (v : json) (t : pytype) : bool :=
  match t, v with
  | TStr, JStr _ | TDict, JObj _ | TInt, JInt _ | TInt, JBool _
  | TList, JList _ => true
  | _, _ => false
  end.

(** [html.escape(s)] (with its default [quote=True]). *)
Fixpoint html_escape (s : string) : string :=
  match s with
  | EmptyString => EmptyString
  | String c r =>
      let e := html_escape r in
      if Ascii.eqb c "&" then ("&amp;" ++ e)%string
      else if Ascii.eqb c "<" then ("&lt;" ++ e)%string
      else if Ascii.eqb c ">" then ("&gt;" ++ e)%string
      else if Ascii.eqb c "034"%char then ("&quot;" ++ e)%string
      else if Ascii.eqb c "'" then ("&#x27;" ++ e)%string
      else String c e
  end.

(** [sanitize_input]: escape strings, leave everything else alone. *)
Definition sanitize_input (v : json) : json :=
  match v with JStr s => JStr (html_escape s) | _ => v end.

(** [str.lower()] on ASCII letters. *)
Definition lower_char (c : ascii) : ascii :=
  let n := nat_of_ascii c in
  if ((65 <=? n) && (n <=? 90))%nat then ascii_of_nat (n + 32) else c.

Fixpoint lower (s : string) : string :=
  match s with
  | EmptyString => EmptyString
  | String c r => String (lower_char c) (lower r)
  end.

(** [s.replace(" ", "_")]. *)
Fixpoint replace_spaces (s : string) : string :=
  match s with
  | EmptyString => EmptyString
  | String c r => String (if Ascii.eqb c " " then "_"%char else c) (replace_spaces r)
  end.

Fixpoint chars_of (s : string) : list json :=
  match s with
  | EmptyString => []
  | String c r => JStr (String c EmptyString) :: chars_of r
  end.

(** The items a [for] loop or [list.extend] takes from a value. *)
Definition py_iter_items (v : json) : exc + list json :=
  match v with
  | JList l => inr l
  | JObj kvs => inr (map (fun kv => JStr (fst kv)) kvs)
  | JStr s => inr (chars_of s)
  | _ => inl TypeError
  end.

(** [v[k]] for a string key. *)
Definition getitem_v (v : json) (k : string) : exc + json :=
  match v with
  | JObj kvs => match assoc k kvs with Some x => inr x | None => inl KeyError end
  | _ => inl TypeError
  end.

(** [v.get(k, default)]: only dictionaries have [.get]. *)
Definition dict_get_v (v : json) (k : string) (default : json) : exc + json :=
  match v with
  | JObj kvs => inr (match assoc k kvs with Some x => x | None => default end)
  | _ => inl AttributeError
  end.

(** [k in v] for a string [k]. *)
Definition py_contains_v (k : string) (v : json) : exc + bool :=
  match v with
  | JObj kvs => inr (match assoc k kvs with Some _ => true | None => false end)
  | JStr s => inr (match String.index 0 k s with Some _ => true | None => false end)
  | JList l => inr (existsb (fun x => match x with JStr s => String.eqb s k | _ => false end) l)
  | _ => inl TypeError
  end.

(** [v[0]] on a truthy value. *)
Definition index0_v (v : json) : exc + json :=
  match v with
  | JList (x :: _) => inr x
  | JStr (String c _) => inr (JStr (String c EmptyString))
  | JObj _ => inl KeyError
  | _ => inl TypeError
  end.

Definition lift {S A} (r : exc + A) : M S A :=
  match r with inl e => raise e | inr a => ret a end.

Fixpoint for_each {S A} (l : list A) (f : A -> M S unit) : M S unit :=
  match l with
  | [] => ret tt
  | x :: r => f x ;; for_each r f
  end.

(* ------------------------------------------------------------------ *)
(** ** The Jira importer ([src/utils/_importer.py]) *)

Module Importer.

Inductive level := LInfo | LWarn | LError.

(** What the importer does that can be observed from outside: outbound
    HTTP requests to Jira, rate-limiter waits, log lines and checkpoint
    writes. *)
Inductive event :=
| EGetUser (query : string)
| ECreate (payload : json)
| EUpload (issue_key : json) (filename : string)
| EComment (issue_key : json) (body : json)
| EGetTransitions (issue_key : json)
| ETransition (issue_key : json) (transition_id : json)
| ERateWait
| ELog (l : level) (msg : string)
| ECheckpoint (contents : string).

(** The interpreter state: the event trace, the [fields] dictionary of the
    [jira_issue] under construction, the local [jira_issue_key] of
    [issues_setup] (unbound until line 487 assigns it) and the contents of
    the checkpoint file [issue_progress.log]. *)
Record st := mk_st {
  trace : list event;
  fields : list (string * json);
  jira_issue_key : option json;
  checkpoint_file : option string }.

Abbreviation IM := (M st).

Definition emit (e : event) : IM unit :=
  fun s => (inr tt, mk_st (trace s ++ [e]) (fields s) (jira_issue_key s) (checkpoint_file s)).
Definition log (l : level) (msg : string) : IM unit := emit (ELog l msg).
Definition set_fields (fs : list (string * json)) : IM unit :=
  fun s => (inr tt, mk_st (trace s) fs (jira_issue_key s) (checkpoint_file s)).
Definition set_key (k : option json) : IM unit :=
  fun s => (inr tt, mk_st (trace s) (fields s) k (checkpoint_file s)).
Definition write_checkpoint (contents : string) : IM unit :=
  fun s => (inr tt, mk_st (trace s ++ [ECheckpoint contents]) (fields s)
                         (jira_issue_key s) (Some contents)).
Definition get_fields : IM (list (string * json)) := fun s => (inr (fields s), s).
Definition get_key : IM (option json) := fun s => (inr (jira_issue_key s), s).
Definition set_field (k : string) (v : json) : IM unit :=
  let* fs := get_fields in set_fields (assoc_set k v fs).

Definition getitem (v : json) (k : string) : IM json := lift (getitem_v v k).
Definition dict_get (v : json) (k : string) : IM json := lift (dict_get_v v k JNull).

(** One entry of a field table: [{"mapping": ..., "type": ..., "sanitize": ...}]. *)
Record fmap := mk_fmap { mapping : string; ftype : pytype; sanitize : bool }.

(** [self.fields_mappings]. *)
Definition fields_mappings : list (string * fmap) :=
  [("subject", mk_fmap "summary" TStr true);
   ("description", mk_fmap "description" TStr true);
   ("author", mk_fmap "reporter" TDict true);
   ("assigned_to", mk_fmap "assignee" TDict true);
   ("project", mk_fmap "project" TDict true);
   ("priority", mk_fmap "priority" TDict true);
   ("start_date", mk_fmap "customfield_10015" TStr false);
   ("due_date", mk_fmap "duedate" TStr false);
   ("created_on", mk_fmap "customfield_10075" TStr false);
   ("updated_on", mk_fmap "customfield_10076" TStr false);
   ("closed_on", mk_fmap "customfield_10077" TStr false);
   ("estimated_hours", mk_fmap "customfield_10078" TInt false);
   ("labels", mk_fmap "labels" TList true);
   ("fix_versions", mk_fmap "fixVersions" TList true);
   ("attachments", mk_fmap "attachments" TList true);
   ("journals", mk_fmap "journals" TList true)].

(** [self.priority_mappings]. ([self.status_mappings] is never read.) *)
Definition priority_mappings : list (string * fmap) :=
  [("(1) Immediate", mk_fmap "Highest" TStr false);
   ("(2) Urgent", mk_fmap "High" TStr false);
   ("(3) High", mk_fmap "Medium" TStr false);
   ("(4) Normal", mk_fmap "Low" TStr false);
   ("(5) Low", mk_fmap "Lowest" TStr false)].

Fixpoint lookup_fmap (k : string) (t : list (string * fmap)) : option fmap :=
  match t with
  | [] => None
  | (k', m) :: r => if String.eqb k k' then Some m else lookup_fmap k r
  end.

(** [set_field_value(jira_issue, field_name, value, field_mapping_dict)]. *)
Definition set_field_value (field_name : string) (value : json)
    (field_mapping_dict : list (string * fmap)) : IM unit :=
  match lookup_fmap field_name field_mapping_dict with
  | Some m =>
      if negb (validate_input value (ftype m))
      then log LError ("Invalid type for " ++ field_name)
      else let value' := if sanitize m then sanitize_input value else value in
           set_field (mapping m) value'
  | None => log LError ("Field mapping not found for field name: " ++ field_name)
  end.

(** [handle_http_error]: always raises. *)
Definition handle_http_error {A} (code : Z) : IM A :=
  if code =? 400 then raise JiraBadRequestError
  else if code =? 401 then raise JiraAuthenticationError
  else if code =? 403 then raise JiraPermissionError
  else if code =? 404 then raise JiraNotFoundError
  else if code =? 408 then raise JiraRequestTimeoutError
  else if code =? 429 then raise JiraTooManyRequestsError
  else if (500 <=? code) && (code <? 600) then raise JiraServerError
  else log LError "Jira import error" ;; log LError "Response content" ;;
       raise JiraExportError.

(** [try: ... except requests.HTTPError as e: h1(e) except Exception as e: h2(e)]. *)
Definition try_http_or_exception {A} (m : IM A) (h1 : Z -> IM A) (h2 : exc -> IM A) : IM A :=
  try_except m is_Exception
    (fun e => match e with HTTPError c => h1 c | _ => h2 e end).

(** The HTTP status check after a request: [response.raise_for_status()]. *)
Definition check_status (code : Z) : IM unit :=
  match raise_for_status code with Some e => raise e | None => ret tt end.

(** The importer's configuration and the file-system facts it consults. *)
Record config := mk_config {
  jira_project_key : string;
  maximum_file_size : string;            (* read as text, [int(...)] at use *)
  allowed_file_types : list string;      (* [value.split(',')] *)
  (** [os.path.isfile] / [os.path.getsize] of
      [attachments_dir/str(issue id)/filename]: [None] if no such file. *)
  attachment_file_size : json -> string -> option Z;
  (** subtype of [mimetypes.guess_type(path)] (text after the [/]). *)
  guess_mime_subtype : string -> option string }.

(** The Jira REST endpoints the importer calls. *)
Record jira_api := mk_api {
  user_search : string -> reply;               (* GET user/search?query= *)
  create_issue : json -> reply;                (* POST issue/ *)
  upload_attachment : json -> string -> reply; (* POST issue/{key}/attachments *)
  add_comment : json -> json -> reply;         (* POST issue/{key}/comment *)
  get_transitions : json -> reply;             (* GET issue/{key}/transitions *)
  post_transition : json -> json -> reply }.   (* POST issue/{key}/transitions *)

Section Importer.

Variable cfg : config.
Variable jira : jira_api.

(** The f-string argument [issue_data['issue']['id']] of a log message. *)
Definition fmt_issue_id (issue_data : json) : IM unit :=
  let* issue := getitem issue_data "issue" in
  getitem issue "id" ;; ret tt.

Definition log_id (issue_data : json) (l : level) (msg : string) : IM unit :=
  fmt_issue_id issue_data ;; log l msg.

(** [get_user(username)]. *)
Definition get_user (username : json) : IM json :=
  match username with
  | JStr u =>
      let q := html_escape u in
      emit (EGetUser q) ;;
      match user_search jira q with
      | NetFail => raise ConnectionError
      | Reply code body =>
          if code =? 200 then
            match body with
            | None => raise JSONDecodeError
            | Some user_data =>
                if truthy user_data then lift (index0_v user_data) else ret JNull
            end
          else log LError "Failed to fetch user data" ;; ret JNull
      end
  | _ => raise ValueError
  end.

(** [handle_reporter] and [handle_assignee] share their shape; they differ in
    the source key, the target field, the fall-back value and messages. *)
Definition handle_user_field (src dst : string) (fallback : json)
    (issue_data : json) : IM unit :=
  let* issue := getitem issue_data "issue" in
  let* info := dict_get issue src in
  if negb (truthy info) then log_id issue_data LWarn ("No " ++ dst ++ " found")
  else
  let* old_name := dict_get info "name" in
  if negb (truthy old_name) then log_id issue_data LWarn ("No " ++ dst ++ " name found")
  else
  try_except
    (let* new_user := get_user old_name in
     if negb (truthy new_user) then
       log_id issue_data LWarn ("Could not find " ++ dst) ;;
       set_field dst fallback ;;
       log_id issue_data LWarn ("Setting " ++ dst ++ " to default")
     else
       let* account := dict_get new_user "accountId" in
       if negb (truthy account) then
         log_id issue_data LWarn ("Could not find account ID for " ++ dst)
       else
         set_field dst (JObj [("id", account)]) ;;
         log_id issue_data LInfo ("Setting of " ++ dst ++ " completed"))
    is_Exception
    (fun _ => log_id issue_data LError ("Could not set " ++ dst ++ " due to error")).

Definition handle_reporter (issue_data : json) : IM unit :=
  handle_user_field "author" "reporter"
    (JObj [("name", JStr "Anonymous"); ("id", JStr "63776502489de2f7f46267eb")])
    issue_data.

Definition handle_assignee (issue_data : json) : IM unit :=
  handle_user_field "assigned_to" "assignee" JNull issue_data.

(** [old_priority_name in self.priority_mappings]: a dict membership test
    (unhashable keys raise [TypeError]). *)
Definition priority_lookup (name : json) : IM (option fmap) :=
  match name with
  | JStr s => ret (lookup_fmap s priority_mappings)
  | JList _ | JObj _ => raise TypeError
  | _ => ret None
  end.

(** [handle_priority]. *)
Definition handle_priority (issue_data : json) : IM unit :=
  let* issue := getitem issue_data "issue" in
  let* old_priority := dict_get issue "priority" in
  if negb (truthy old_priority) then ret tt else
  let* nm := dict_get old_priority "name" in
  if negb (truthy nm) then ret tt else
  let* old_priority_name := getitem old_priority "name" in
  let* found := priority_lookup old_priority_name in
  match found with
  | None => ret tt
  | Some m =>
      let new_priority_name := JStr (mapping m) in
      let new_priority_name := if sanitize m then sanitize_input new_priority_name
                               else new_priority_name in
      set_field_value "priority" (JObj [("name", new_priority_name)]) fields_mappings
  end.

(** [handle_category]. *)
Definition handle_category (issue_data : json) : IM unit :=
  let* issue := getitem issue_data "issue" in
  let* category := dict_get issue "category" in
  let* has_name := (if truthy category then lift (py_contains_v "name" category)
                    else ret false) in
  if has_name then
    let* nm := getitem category "name" in
    match nm with
    | JStr s =>
        set_field_value "labels" (JList [JStr (replace_spaces (strip s))]) fields_mappings
    | _ => raise AttributeError
    end
  else set_field_value "labels" (JList []) fields_mappings.

(** [handle_start_date], [handle_duedate], ..., [handle_estimated_hours]. *)
Definition handle_plain_field (field_name : string) (issue_data : json) : IM unit :=
  let* issue := getitem issue_data "issue" in
  let* v := dict_get issue field_name in
  if truthy v then
    let* field_value := getitem issue field_name in
    set_field_value field_name field_value fields_mappings
  else ret tt.

Definition handle_dates (issue_data : json) : IM unit :=
  handle_plain_field "start_date" issue_data ;;
  handle_plain_field "due_date" issue_data ;;
  handle_plain_field "created_on" issue_data ;;
  handle_plain_field "updated_on" issue_data ;;
  handle_plain_field "closed_on" issue_data.

Definition handle_estimated_hours (issue_data : json) : IM unit :=
  handle_plain_field "estimated_hours" issue_data.

(** [is_allowed_file_type(filepath)]. *)
Definition is_allowed_file_type (filename : string) : bool :=
  match guess_mime_subtype cfg filename with
  | Some file_type => existsb (String.eqb file_type) (allowed_file_types cfg)
  | None => false
  end.

(** One iteration of the loop of [handle_attachments]; [ret tt] is
    [continue]. *)
Definition attachment_step (issue_key issue_data attachment : json) : IM unit :=
  let* issue := getitem issue_data "issue" in
  let* iid := getitem issue "id" in
  match attachment with
  | JStr name =>
      match attachment_file_size cfg iid name with
      | None => log LWarn "Attachment file not found"
      | Some size =>
          let* max_size := lift (py_int (maximum_file_size cfg)) in
          if max_size <? size then log LError "Attachment file is too large"
          else if negb (is_allowed_file_type name) then
            log LError "Disallowed file type in attachment"
          else
            let sanitized_filename := html_escape name in
            try_http_or_exception
              (emit (EUpload issue_key sanitized_filename) ;;
               match upload_attachment jira issue_key sanitized_filename with
               | NetFail => raise ConnectionError
               | Reply code _ => check_status code
               end)
              (fun code => handle_http_error code)
              (fun _ => log LError "Error occurred while uploading attachment" ;;
                        fmt_issue_id issue_data ;;
                        raise JiraAttachmentError)
      end
  | _ => raise TypeError   (* [os.path.join] needs a [str] *)
  end.

(** [handle_attachments(issue_key, issue_data)]. *)
Definition handle_attachments (issue_key issue_data : json) : IM unit :=
  let* attachments := getitem issue_data "attachments" in
  match attachments with
  | JList l => for_each l (attachment_step issue_key issue_data)
  | _ => log LError "Invalid type for attachments"
  end.

(** [handle_journals(journal, issue_key)]. *)
Definition handle_journals (journal issue_key : json) : IM unit :=
  match journal with
  | JObj _ =>
      let* comment_body := getitem journal "notes" in
      if negb (truthy comment_body) then ret tt else
      let comment_body := sanitize_input comment_body in
      try_http_or_exception
        (emit (EComment issue_key comment_body) ;;
         match add_comment jira issue_key comment_body with
         | NetFail => raise ConnectionError
         | Reply code _ =>
             check_status code ;;
             log LInfo "Successfully uploaded journal comment"
         end)
        (fun code => handle_http_error code)
        (fun _ => log LError "Failed to add comment" ;; raise JiraExportError)
  | _ => log LError "Invalid type for journal"
  end.

(** The loop of [get_transition_id]:
    [transition['to']['name'].lower() == target_status.lower()]. *)
Fixpoint find_transition (target_status : json) (ts : list json) : IM (option json) :=
  match ts with
  | [] => ret None
  | t :: r =>
      let* to_ := getitem t "to" in
      let* nm := getitem to_ "name" in
      match nm, target_status with
      | JStr n, JStr target =>
          if String.eqb (lower n) (lower target) then
            let* tid := getitem t "id" in ret (Some tid)
          else find_transition target_status r
      | _, _ => raise AttributeError
      end
  end.

(** [get_transition_id(issue_key, target_status)]. *)
Definition get_transition_id (issue_key target_status : json) : IM (option json) :=
  emit (EGetTransitions issue_key) ;;
  match get_transitions jira issue_key with
  | NetFail => raise ConnectionError
  | Reply code body =>
      check_status code ;;
      match body with
      | None => raise JSONDecodeError
      | Some j =>
          let* transitions := lift (dict_get_v j "transitions" (JList [])) in
          let* items := lift (py_iter_items transitions) in
          find_transition target_status items
      end
  end.

(** Lines 499-516: the status transition after the issue is created. *)
Definition transition_status (issue_data issue_key : json) : IM unit :=
  let* issue := getitem issue_data "issue" in
  let* status := getitem issue "status" in
  let* status_name := getitem status "name" in
  let* transition_id := get_transition_id issue_key status_name in
  match transition_id with
  | None => log_id issue_data LError "No transition found to status"
  | Some tid =>
      emit (ETransition issue_key tid) ;;
      match post_transition jira issue_key tid with
      | NetFail => raise ConnectionError
      | Reply code _ =>
          try_except (check_status code ;;
                      log_id issue_data LInfo "Status transformed successfully")
            is_HTTPError
            (fun e => match e with
                      | HTTPError c => fmt_issue_id issue_data ;; handle_http_error c
                      | _ => raise e
                      end)
      end
  end.

(** Lines 492-519 of [issues_setup], once the issue exists under [key]:
    attachments, journal comments, status transition. *)
Definition process_created (issue_data key : json) : IM unit :=
  let* atts := dict_get issue_data "attachments" in
  (if truthy atts then handle_attachments key issue_data else ret tt) ;;
  let* js := dict_get issue_data "journals" in
  (if truthy js then
     let* journals := getitem issue_data "journals" in
     let* items := lift (py_iter_items journals) in
     for_each items (fun journal => handle_journals journal key)
   else ret tt) ;;
  transition_status issue_data key ;;
  log_id issue_data LInfo "Successfully created issue" ;;
  log LInfo "--------------------------------------------------".

(** [issues_setup(issue_data)]. *)
Definition issues_setup (issue_data : json) : IM unit :=
  with_rate_limiter (emit ERateWait) (
    set_key None ;;
    match issue_data with
    | JObj _ =>
        (* [sanitized_issue_data]: a sanitized deep copy (lines 458-460) *)
        let* issue := getitem issue_data "issue" in
        let* subject := getitem issue "subject" in
        let* description := getitem issue "description" in
        let _sanitized_subject := sanitize_input subject in
        let _sanitized_description := sanitize_input description in
        (* [jira_issue] (lines 462-473) *)
        let* summary := getitem issue "subject" in
        let* descr := getitem issue "description" in
        let* tracker := getitem issue "tracker" in
        let* tracker_name := getitem tracker "name" in
        set_fields [("project", JObj [("key", JStr (jira_project_key cfg))]);
                    ("summary", summary);
                    ("description", descr);
                    ("issuetype", JObj [("name", tracker_name)])] ;;
        handle_reporter issue_data ;;
        handle_assignee issue_data ;;
        handle_dates issue_data ;;
        handle_priority issue_data ;;
        handle_category issue_data ;;
        handle_estimated_hours issue_data ;;
        try_http_or_exception
          (let* fs := get_fields in
           let jira_issue := JObj [("fields", JObj fs)] in
           emit (ECreate jira_issue) ;;
           match create_issue jira jira_issue with
           | NetFail => raise ConnectionError
           | Reply code body =>
               check_status code ;;
               match body with
               | None => log LError "Could not decode JSON response"   (* return *)
               | Some j =>
                   let* key := getitem j "key" in
                   set_key (Some key) ;;
                   process_created issue_data key
               end
           end)
          (fun code =>
             (* the f-string of line 522 reads [jira_issue_key] *)
             fmt_issue_id issue_data ;;
             let* k := get_key in
             match k with
             | None => raise UnboundLocalError
             | Some _ => handle_http_error code
             end)
          (fun _ => log LError "An error occurred during Jira import" ;;
                    raise JiraExportError)
    | _ => raise ValueError
    end).

(** The [for line_num, line in enumerate(f, 1)] loop of [import_issues];
    a line is [None] when [json.loads] rejects it. *)
Fixpoint import_lines (start_from_checkpoint : bool) (checkpoint_id : Z)
    (line_num : Z) (lines : list (option json)) : IM unit :=
  match lines with
  | [] => ret tt
  | line :: rest =>
      if start_from_checkpoint && (line_num <=? checkpoint_id) then
        import_lines start_from_checkpoint checkpoint_id (line_num + 1) rest
      else
        try_except
          (match line with
           | None => raise JSONDecodeError
           | Some issue_data => issues_setup issue_data
           end)
          is_Exception
          (fun _ => log LError "An error occurred during issue import" ;;
                    log LError "Skipping issue data") ;;
        write_checkpoint (py_str_int line_num) ;;
        import_lines start_from_checkpoint line_num (line_num + 1) rest
  end.

(** The operator's answer to the prompt of [import_issues]. *)
Inductive choice := Choice1 | Choice2 | Choice3 | ChoiceOther.

Definition get_checkpoint_file : IM (option string) :=
  fun s => (inr (checkpoint_file s), s).
Definition delete_checkpoint_file : IM unit :=
  fun s => (inr tt, mk_st (trace s) (fields s) (jira_issue_key s) None).

Definition run_lines (start_from_checkpoint : bool) (checkpoint_id : Z)
    (lines : list (option json)) : IM unit :=
  try_except (import_lines start_from_checkpoint checkpoint_id 1 lines)
    (fun e => match e with KeyboardInterrupt => true | _ => false end)
    (fun _ => log LInfo "Script interrupted by user." ;; raise SystemExit).

(** [import_issues(filename)], the file's lines given as [lines]. *)
Definition import_issues (user_choice : choice) (lines : list (option json)) : IM unit :=
  let* cf := get_checkpoint_file in
  match cf with
  | None => run_lines false 0 lines
  | Some contents =>
      match user_choice with
      | Choice1 => delete_checkpoint_file ;; log LInfo "Deleted checkpoint file" ;;
                   run_lines false 0 lines
      | Choice2 => let* checkpoint_id := lift (py_int contents) in
                   log LInfo "Resuming from issue index" ;;
                   run_lines true checkpoint_id lines
      | Choice3 => log LInfo "Exiting..."
      | ChoiceOther => log LInfo "Invalid choice. Exiting..."
      end
  end.

End Importer.

(** The event trace only grows. *)
Definition trace_ext (s s' : st) : Prop := exists evs, trace s' = (trace s ++ evs)%list.

End Importer.

(* ------------------------------------------------------------------ *)
(** ** Paginated issue fetch *)

Module Pagination.

(** The issue-list endpoint, as a function of the [offset] parameter (the
    other query parameters are fixed for one fetch). *)
Abbreviation server := (Z -> reply).

(** [RedmineExporter.fetch_data] ([src/utils/_exporter.py]): [None] when
    [requests] raises a [RequestException] (transport error, HTTP error
    status, undecodable body), after logging it. *)
Definition fetch_data (r : reply) : option json :=
  match r with
  | NetFail => None
  | Reply code body =>
      match raise_for_status code with
      | Some _ => None
      | None => body
      end
  end.

(** [RedmineExporter.fetch_data_with_pagination]: the [while True] loop,
    run for at most [fuel] iterations ([None]: still running).  The second
    component lists the offsets requested, in order. *)
Fixpoint fetch_data_with_pagination (srv : server) (fuel : nat) (offset : Z)
    (data : list json) : option (exc + list json) * list Z :=
  match fuel with
  | O => (None, [])
  | S fuel' =>
      match fetch_data (srv offset) with
      | None | Some JNull => (Some (inr data), [offset])   (* [response_data is None] *)
      | Some response_data =>
          match py_contains_v "issues" response_data with
          | inl e => (Some (inl e), [offset])
          | inr false => (Some (inr data), [offset])
          | inr true =>
              match getitem_v response_data "issues" with
              | inl e => (Some (inl e), [offset])
              | inr current_data =>
                  match py_iter_items current_data with
                  | inl e => (Some (inl e), [offset])
                  | inr items =>
                      let data' := data ++ items in
                      if Nat.eqb (List.length items) 0 then (Some (inr data'), [offset])
                      else
                        let '(r, offs) := fetch_data_with_pagination srv fuel'
                                            (offset + Z.of_nat (List.length items)) data' in
                        (r, offset :: offs)
                  end
              end
          end
      end
  end.

(** [RedmineExporter.fetch_issues] of [src/main.py], lines 65-85: the offset
    advances by [params["limit"] = 100]; the loop stops once the collected
    count reaches [total_count]; a [RequestException] ends the process
    ([sys.exit(1)], i.e. [SystemExit]). *)
Fixpoint main_fetch_issues (srv : server) (fuel : nat) (offset : Z)
    (issues : list json) : option (exc + list json) * list Z :=
  match fuel with
  | O => (None, [])
  | S fuel' =>
      let fail := (Some (inl SystemExit), [offset]) in
      match srv offset with
      | NetFail => fail
      | Reply code body =>
          match raise_for_status code, body with
          | Some _, _ | None, None => fail
          | None, Some data =>
              match getitem_v data "issues" with
              | inl e => (Some (inl e), [offset])
              | inr current_issues =>
                  match py_iter_items current_issues with
                  | inl e => (Some (inl e), [offset])
                  | inr items =>
                      let issues' := issues ++ items in
                      match getitem_v data "total_count" with
                      | inl e => (Some (inl e), [offset])
                      | inr (JInt total_count) =>
                          if total_count <=? Z.of_nat (List.length issues')
                          then (Some (inr issues'), [offset])
                          else
                            let '(r, offs) := main_fetch_issues srv fuel' (offset + 100) issues' in
                            (r, offset :: offs)
                      | inr (JBool b) =>
                          if Z.b2z b <=? Z.of_nat (List.length issues')
                          then (Some (inr issues'), [offset])
                          else
                            let '(r, offs) := main_fetch_issues srv fuel' (offset + 100) issues' in
                            (r, offset :: offs)
                      | inr _ => (Some (inl TypeError), [offset])
                      end
                  end
              end
          end
      end
  end.

(** The endpoint answers a request at [offset] with a successful page whose
    ["issues"] entry is the list [items]; the other keys of the reply, among
    them ["total_count"], are arbitrary. *)
Definition serves (srv : server) (offset : Z) (items : list json) : Prop :=
  exists code kvs,
    srv offset = Reply code (Some (JObj kvs)) /\ raise_for_status code = None /\
    assoc "issues" kvs = Some (JList items).

(** The replies to successive requests of the exporter's loop, starting at
    [offset]: the non-empty pages [ps], then an empty page. *)
Inductive pages_then_empty (srv : server) : Z -> list (list json) -> Prop :=
| pte_last offset :
    serves srv offset [] -> pages_then_empty srv offset []
| pte_cons offset p ps :
    p <> [] -> serves srv offset p ->
    pages_then_empty srv (offset + Z.of_nat (List.length p)) ps ->
    pages_then_empty srv offset (p :: ps).

(** The same, ending with a request that fails in [fetch_data]. *)
Inductive pages_then_failure (srv : server) : Z -> list (list json) -> Prop :=
| ptf_last offset :
    fetch_data (srv offset) = None -> pages_then_failure srv offset []
| ptf_cons offset p ps :
    p <> [] -> serves srv offset p ->
    pages_then_failure srv (offset + Z.of_nat (List.length p)) ps ->
    pages_then_failure srv offset (p :: ps).

End Pagination.

(* ------------------------------------------------------------------ *)
(** ** The export loop of [src/main.py] ([RedmineExporter.main], lines 210-227) *)

Module MainScript.

Import Importer (level, LInfo, LWarn, LError).

(** What the loop consults outside: whether the output file can be
    written, whether [attachments_dir/<id>] exists, and the comments
    endpoint [issues/<id>/comments.json]. *)
Record env := mk_env {
  write_ok : bool;
  attachment_dir_exists : json -> bool;
  comments_endpoint : json -> reply }.

Inductive mevent :=
| MLog (l : level) (msg : string)
| MDownload (content_url : json)
| MGetComments (issue_id : json)
| MWait.

(** Output file lines, contents of the progress file, event trace. *)
Record mst := mk_mst { out : list json; progress : option string; mtrace : list mevent }.

Abbreviation MM := (M mst).

Definition memit (e : mevent) : MM unit :=
  fun s => (inr tt, mk_mst (out s) (progress s) (mtrace s ++ [e])).
Definition mlog (l : level) (msg : string) : MM unit := memit (MLog l msg).
Definition mgetitem (v : json) (k : string) : MM json := lift (getitem_v v k).

Section Loop.

Variable E : env.

(** [export_data(data, output_file)]: append one JSON line. *)
Definition export_data (data : json) : MM unit :=
  if write_ok E then fun s => (inr tt, mk_mst (out s ++ [data]) (progress s) (mtrace s))
  else raise IOError.

(** [save_progress(i, progress_file)]. *)
Definition save_progress (i : Z) : MM unit :=
  fun s => (inr tt, mk_mst (out s) (Some (py_str_int i)) (mtrace s)).

(** [fetch_attachments(issue_data)]; each download sits in a
    [try ... except Exception] that only logs, so it is one event here;
    the path of the file is joined before that [try]. *)
Definition fetch_attachments (issue_data : json) : MM unit :=
  let* issue_id := mgetitem issue_data "id" in
  let* attachments := mgetitem issue_data "attachments" in
  if truthy attachments && negb (attachment_dir_exists E issue_id) then
    mlog LInfo "Downloading attachments" ;;
    let* items := lift (py_iter_items attachments) in
    for_each items (fun attachment =>
      let* content_url := mgetitem attachment "content_url" in
      let* attachment_filename := mgetitem attachment "filename" in
      (* [os.path.join(attachment_path, attachment_filename)], before the [try] *)
      match attachment_filename with
      | JStr _ => memit (MDownload content_url)
      | _ => raise TypeError
      end)
  else ret tt.

(** [fetch_comments(issue_id)]. *)
Definition fetch_comments (issue_id : json) : MM json :=
  memit (MGetComments issue_id) ;;
  let exit_on_request_exception :=
    mlog LError "Error connecting to the server" ;; raise SystemExit in
  match comments_endpoint E issue_id with
  | NetFail => exit_on_request_exception
  | Reply code body =>
      match raise_for_status code with
      | Some _ => exit_on_request_exception
      | None =>
          if code =? 200 then
            match body with
            | None => exit_on_request_exception
            | Some j => mgetitem j "comments"
            end
          else if code =? 401 then raise RedmineAuthenticationError
          else if code =? 403 then raise RedminePermissionError
          else if code =? 404 then raise RedmineNotFoundError
          else raise RedmineExportError
      end
  end.

(** One iteration of the loop, for the [i]-th issue (1-based). *)
Definition process_item (i : Z) (issue : json) : MM unit :=
  mgetitem issue "id" ;;
  mlog LInfo "Processing issue" ;;
  try_except
    (let* has_attachments := lift (py_contains_v "attachments" issue) in
     (if has_attachments then fetch_attachments issue else ret tt) ;;
     export_data issue ;;
     let* has_comments := lift (py_contains_v "comments" issue) in
     (if has_comments then
        let* issue_id := mgetitem issue "id" in
        let* comments := fetch_comments issue_id in
        let* items := lift (py_iter_items comments) in
        mlog LInfo "Total comments found" ;;
        for_each items export_data
      else ret tt) ;;
     memit MWait ;;
     save_progress i)
    is_Exception
    (fun e => match e with
              | RedmineAuthenticationError | RedminePermissionError
              | RedmineNotFoundError => mlog LWarn "Redmine error"
              | _ => mlog LError "Error processing issue"
              end).

Fixpoint process_from (i : Z) (issues : list json) : MM unit :=
  match issues with
  | [] => ret tt
  | issue :: rest => process_item i issue ;; process_from (i + 1) rest
  end.

(** [for i, issue in enumerate(issues[current_issue_index:], current_issue_index + 1)]. *)
Definition export_loop (current_issue_index : nat) (issues : list json) : MM unit :=
  process_from (Z.of_nat current_issue_index + 1) (skipn current_issue_index issues) ;;
  mlog LInfo "Issue export completed.".

End Loop.

(** An issue the loop handles with no request: a dictionary with an ["id"]
    and neither an ["attachments"] nor a ["comments"] key. *)
Definition plain_issue (issue : json) : Prop :=
  exists kvs id, issue = JObj kvs /\ assoc "id" kvs = Some id
    /\ assoc "attachments" kvs = None /\ assoc "comments" kvs = None.

End MainScript.

(* ------------------------------------------------------------------ *)
(** ** Helpers for the proofs *)

Fixpoint all_chars (p : ascii -> bool) (s : string) : bool :=
  match s with
  | EmptyString => true
  | String c r => p c && all_chars p r
  end.

Definition not_space (c : ascii) : bool := negb (is_space c).

(** The characters [html.escape] rewrites, and those it leaves nowhere in
    its output. *)
Definition html_special (c : ascii) : bool :=
  Ascii.eqb c "&" || Ascii.eqb c "<" || Ascii.eqb c ">" || Ascii.eqb c "034"%char
  || Ascii.eqb c "'".

Definition markup_char (c : ascii) : bool :=
  Ascii.eqb c "<" || Ascii.eqb c ">" || Ascii.eqb c "034"%char || Ascii.eqb c "'".

(** [m] relates every start state to its end state by [R]. *)
Definition keeps {S A} (R : S -> S -> Prop) (m : M S A) : Prop :=
  forall s r s', m s = (r, s') -> R s s'.

(** Every exception [m] raises satisfies [P]. *)
Definition raises_only {S A} (P : exc -> bool) (m : M S A) : Prop :=
  forall s e s', m s = (inl e, s') -> P e = true.
Definition returns {S A} (P : A -> Prop) (m : M S A) : Prop :=
  forall s a s', m s = (inr a, s') -> P a.

Definition nokbi {S A} (m : M S A) : Prop :=
  forall s e s', m s = (inl e, s') -> e <> KeyboardInterrupt.


(* ------------------------------------------------------------------ *)
(** ** The exporter's filter parameters ([src/utils/_exporter.py],
    [fetch_issues], lines 154-160) *)

Module ExporterParams.

(** [self.status_map] and [self.priority_map]. *)
Definition status_map : list (Z * string) :=
  [(1, "1"); (2, "2"); (3, "3"); (4, "4"); (5, "5"); (6, "6");
   (7, "7"); (8, "8"); (9, "9"); (10, "10"); (11, "11"); (12, "12")].

Definition priority_map : list (Z * string) :=
  [(1, "1"); (2, "2"); (3, "3"); (4, "4"); (5, "5")].

Fixpoint map_get (m : list (Z * string)) (k : Z) (default : string) : string :=
  match m with
  | [] => default
  | (k', v) :: r => if k =? k' then v else map_get r k default
  end.

(** [params["status_id"] = self.status_map.get(status, str(status))]. *)
Definition status_param (status : Z) : string :=
  map_get status_map status (py_str_int status).

(** [params["priority_id"] = self.priority_map.get(priority, str(priority))]. *)
Definition priority_param (priority : Z) : string :=
  map_get priority_map priority (py_str_int priority).

End ExporterParams.

(* ------------------------------------------------------------------ *)
(** ** More Python helpers: [len], [str.split("\r\n")], [str.replace] *)

(** [len(v)]. *)
Definition py_len (v : json) : exc + nat :=
  match v with
  | JList l => inr (List.length l)
  | JObj kvs => inr (List.length kvs)
  | JStr s => inr (String.length s)
  | _ => inl TypeError
  end.

(** Sequencing of computations that may raise but touch no state. *)
Definition sbind {A B} (r : exc + A) (k : A -> exc + B) : exc + B :=
  match r with inl e => inl e | inr a => k a end.

Notation "'let+' x := r 'in' k" := (sbind r (fun x => k))
  (at level 200, x name, r at level 100, k at level 200).

Definition CR : ascii := "013"%char.
Definition LF : ascii := "010"%char.

(** Prepend a character to the first piece of a split. *)
Definition cons_head (c : ascii) (l : list string) : list string :=
  match l with
  | [] => [String c EmptyString]
  | x :: r => String c x :: r
  end.

(** [s.split("\r\n")]: the pieces between the non-overlapping occurrences
    of CR LF, found from the left. *)
Fixpoint split_crlf (s : string) : list string :=
  match s with
  | EmptyString => [EmptyString]
  | String c r =>
      if Ascii.eqb c CR then
        match r with
        | String c2 r2 =>
            if Ascii.eqb c2 LF then EmptyString :: split_crlf r2
            else cons_head c (split_crlf r)
        | EmptyString => cons_head c (split_crlf r)
        end
      else cons_head c (split_crlf r)
  end.

(** ["\r\n".join(pieces)]. *)
Fixpoint join_crlf (l : list string) : string :=
  match l with
  | [] => EmptyString
  | [x] => x
  | x :: r => (x ++ String CR (String LF (join_crlf r)))%string
  end.

(** ["\r\n" in s]. *)
Fixpoint has_crlf (s : string) : bool :=
  match s with
  | EmptyString => false
  | String c r =>
      (Ascii.eqb c CR && match r with String c2 _ => Ascii.eqb c2 LF | EmptyString => false end)
      || has_crlf r
  end.

(** [s.replace(a, b)] for one-character [a] and [b]. *)
Fixpoint replace_char (a b : ascii) (s : string) : string :=
  match s with
  | EmptyString => EmptyString
  | String c r => String (if Ascii.eqb c a then b else c) (replace_char a b r)
  end.

(** [m.get(k, default)] on an [int]-keyed table of strings, for an [int]
    (or [bool], which hashes as [0]/[1]) key. *)
Definition int_map_get (m : list (Z * string)) (k : json) (default : string) : string :=
  match k with
  | JInt z => ExporterParams.map_get m z default
  | JBool b => ExporterParams.map_get m (Z.b2z b) default
  | _ => default
  end.

(** [str(v)] for an [int] or a [bool]. *)
Definition py_str_intlike (v : json) : string :=
  match v with
  | JInt z => py_str_int z
  | JBool true => "True"
  | JBool false => "False"
  | _ => EmptyString
  end.

(* ------------------------------------------------------------------ *)
(** ** The exporter of [src/utils/_exporter.py] ([RedmineExporter]) *)

Module Exporter.

Import Importer (level, LInfo, LWarn, LError).

(** [fetch_issues]: lines 136-165, up to the call of
    [fetch_data_with_pagination]; the query parameters, in insertion
    order.  [project_id] is an [int], [str] or [None]; [status] and
    [priority] an [int] or [None]. *)
Definition fetch_issues_params (redmine_api_key : string) (maximum_issues : Z)
    (project_id status priority : json) : exc + list (string * json) :=
  if negb (match project_id with JInt _ | JBool _ | JStr _ | JNull => true | _ => false end)
  then inl ValueError else
  if negb (match status with JInt _ | JBool _ | JNull => true | _ => false end)
  then inl ValueError else
  if negb (match priority with JInt _ | JBool _ | JNull => true | _ => false end)
  then inl ValueError else
  let params := [("key", JStr redmine_api_key)] in
  let params :=
    if truthy project_id then assoc_set "project_id" (sanitize_input project_id) params
    else assoc_set "subproject_id" (JStr "!*") params in
  let params :=
    match status with
    | JNull => params
    | _ => let status := sanitize_input status in
           assoc_set "status_id"
             (JStr (int_map_get ExporterParams.status_map status (py_str_intlike status))) params
    end in
  let params :=
    if truthy priority then
      let priority := sanitize_input priority in
      assoc_set "priority_id"
        (JStr (int_map_get ExporterParams.priority_map priority (py_str_intlike priority))) params
    else params in
  inr (assoc_set "limit" (JInt maximum_issues) params).

(** [self.status_name_map]. *)
Definition status_name_map : list (Z * string) :=
  [(1, "New"); (2, "In-Progress"); (3, "Ready-for-Testing"); (4, "Feedback");
   (5, "Closed"); (6, "Rejected"); (7, "Approved"); (8, "Re-Opened");
   (9, "Wont-Fix"); (10, "On-Hold"); (11, "Resolved"); (12, "In View")].

(** [run], lines 376-382: the output and progress file names. *)
Definition run_file_names (project : string) (status_id : json) : string * string :=
  let status_name := replace_char " " "-" (int_map_get status_name_map status_id "any") in
  let project_name := replace_char " " "-" project in
  ((project_name ++ "_" ++ status_name ++ "_issues.json")%string,
   (project_name ++ "_" ++ status_name ++ "_progress.log")%string).

(** What the exporter consults outside: the issue endpoint
    [issues/<id>.json?include=<what>], attachment downloads, the directory
    [attachments_dir/<id>] ([None] when it does not exist, else its
    [os.listdir]), and whether opening files for writing succeeds. *)
Record env := mk_env {
  issue_endpoint : json -> string -> reply;
  download : json -> reply;
  attachments_listing : json -> option (list string);
  write_ok : bool }.

Inductive xevent :=
| XLog (l : level) (msg : string)
| XGetIssue (issue_id : json) (include : string)
| XDownload (content_url : json)
| XSave (issue_id : json) (filename : string)
| XWait.

(** Lines of the output file, contents of the progress file, events. *)
Record xst := mk_xst { out : list json; progress : option string; xtrace : list xevent }.

Abbreviation XM := (M xst).

Definition xemit (e : xevent) : XM unit :=
  fun s => (inr tt, mk_xst (out s) (progress s) (xtrace s ++ [e])).
Definition xlog (l : level) (msg : string) : XM unit := xemit (XLog l msg).
Definition xgetitem (v : json) (k : string) : XM json := lift (getitem_v v k).

(** [parse_journals([journal])[0]]: the entry built for one journal. *)
Definition parse_journal (journal : json) : exc + json :=
  let+ journal_id := dict_get_v journal "id" JNull in
  let+ user := dict_get_v journal "user" (JObj []) in
  let+ created_on := dict_get_v journal "created_on" JNull in
  let+ notes := dict_get_v journal "notes" JNull in
  let+ comments :=
    (if truthy notes then
       match notes with
       | JStr n => inr (JList (map JStr (split_crlf n)))
       | _ => inl AttributeError
       end
     else inr (JList [])) in
  let+ user_id := dict_get_v user "id" JNull in
  let+ user_name := dict_get_v user "name" JNull in
  let+ private_notes := dict_get_v journal "private_notes" JNull in
  inr (JObj [("id", journal_id);
             ("user", JObj [("id", user_id); ("name", user_name)]);
             ("created_on", created_on); ("notes", notes);
             ("private_notes", private_notes); ("comments", comments)]).

(** [parse_journals(journals)]. *)
Fixpoint parse_journals (journals : list json) : exc + list json :=
  match journals with
  | [] => inr []
  | journal :: rest =>
      let+ entry := parse_journal journal in
      let+ entries := parse_journals rest in
      inr (entry :: entries)
  end.

Section Exporter.

Variable E : env.

(** [fetch_data(endpoint, params)]: [None] (here [JNull], as is a JSON
    [null] body) after logging a [RequestException]. *)
Definition fetch_data (r : reply) : XM json :=
  match Pagination.fetch_data r with
  | None => xlog LError "Error connecting to the server" ;; ret JNull
  | Some data => ret data
  end.

(** The loop of [fetch_journals]; [acc] is [journals_data]. *)
Fixpoint journals_loop (journals acc : list json) : XM (list json) :=
  match journals with
  | [] => ret acc
  | journal :: rest =>
      xlog LInfo "Processing journal" ;;
      let* acc' :=
        try_except
          (let* parsed := lift (parse_journals [journal]) in
           let* parsed_journal :=
             (match parsed with p :: _ => ret p | [] => raise IndexError end) in
           xlog LInfo "Successfully fetched and processed journal" ;;
           ret (acc ++ [parsed_journal]))
          is_Exception
          (fun _ => xlog LError "Error processing journal" ;; ret acc) in
      journals_loop rest acc'
  end.

(** [fetch_journals(issue_id)]. *)
Definition fetch_journals (issue_id : json) : XM json :=
  xemit (XGetIssue issue_id "journals") ;;
  let* data := fetch_data (issue_endpoint E issue_id "journals") in
  let* has_issue := (match data with
                     | JNull => ret false
                     | _ => lift (py_contains_v "issue" data)
                     end) in
  if negb has_issue then ret JNull else
  let* issue := xgetitem data "issue" in
  let* journals := lift (dict_get_v issue "journals" (JList [])) in
  let* _total_journals := lift (py_len journals) in
  xlog LInfo "Total journals found" ;;
  let* items := lift (py_iter_items journals) in
  let* journals_data := journals_loop items [] in
  xlog LInfo "Journals processing completed" ;;
  ret (JList journals_data).

(** [fetch_attachment_content(...)]: [Some tt] stands for the response. *)
Definition fetch_attachment_content (attachment_url : json) : XM (option unit) :=
  xlog LInfo "Processing attachment" ;;
  xemit (XDownload attachment_url) ;;
  match download E attachment_url with
  | NetFail => xlog LError "Fetching attachment failed: Error Connecting" ;; ret None
  | Reply code _ =>
      match raise_for_status code with
      | Some _ => xlog LError "Fetching attachment failed: Http Error" ;; ret None
      | None => ret (Some tt)
      end
  end.

(** [save_attachment(...)]: every failure is caught and logged
    ([os.path.join] raises [TypeError] on a non-[str] file name). *)
Definition save_attachment (issue_id attachment_filename : json) : XM unit :=
  match attachment_filename with
  | JStr name =>
      if write_ok E then
        xemit (XSave issue_id name) ;;
        xlog LInfo "Successfully fetched and saved attachment"
      else xlog LError "I/O error while saving attachment"
  | _ => xlog LError "Unexpected error occurred while saving attachment"
  end.

(** [fetch_attachments(issue_id)]; its value is [None] on every path. *)
Definition fetch_attachments (issue_id : json) : XM json :=
  try_except
    (xemit (XGetIssue issue_id "attachments") ;;
     let* data := fetch_data (issue_endpoint E issue_id "attachments") in
     let* ok := (match data with
                 | JNull => ret false
                 | _ =>
                     let* has_issue := lift (py_contains_v "issue" data) in
                     if has_issue then
                       let* issue := xgetitem data "issue" in
                       lift (py_contains_v "attachments" issue)
                     else ret false
                 end) in
     if negb ok then ret JNull else
     let* issue := xgetitem data "issue" in
     let* attachments := xgetitem issue "attachments" in
     let* _total_attachments := lift (py_len attachments) in
     xlog LInfo "Total attachments found" ;;
     let* items := lift (py_iter_items attachments) in
     for_each items (fun attachment =>
       let* attachment_url := xgetitem attachment "content_url" in
       let* attachment_filename := xgetitem attachment "filename" in
       let* content := fetch_attachment_content attachment_url in
       match content with
       | Some _ => save_attachment issue_id attachment_filename
       | None => ret tt
       end) ;;
     xlog LInfo "Attachment processing completed" ;;
     ret JNull)
    is_RequestException
    (fun _ => xlog LError "Error while fetching issue" ;; ret JNull).

(** [prepare_issue_data(issue, journals, attachments)]. *)
Definition prepare_issue_data (issue journals attachments : json) : XM json :=
  let* has_id := lift (py_contains_v "id" issue) in
  if negb has_id then xlog LError "Issue does not contain 'id' key" ;; ret JNull
  else ret (JObj [("issue", issue); ("attachments", attachments); ("journals", journals)]).

(** The f-string argument [data['issue']['id']]. *)
Definition fmt_data_id (data : json) : XM unit :=
  let* issue := xgetitem data "issue" in xgetitem issue "id" ;; ret tt.

(** [export_data(data, output_file)]: one JSON line appended. *)
Definition export_data (data : json) : XM unit :=
  try_except
    (if write_ok E then
       (fun s => (inr tt, mk_xst (out s ++ [data]) (progress s) (xtrace s))) ;;
       fmt_data_id data ;;
       xlog LInfo "Successfully exported data"
     else raise IOError)
    is_Exception
    (fun _ => fmt_data_id data ;; xlog LError "Error while trying to export data").

(** [except KeyboardInterrupt] next to [except Exception]. *)
Definition exception_or_kbi (e : exc) : bool :=
  match e with KeyboardInterrupt => true | _ => is_Exception e end.

(** [process_issue(issue, output_file)]; [ret None] is a [return] from
    one of the inner [try] blocks. *)
Definition process_issue (issue : json) : XM unit :=
  try_except
    (let* j := try_except
                 (let* id := xgetitem issue "id" in
                  let* journals := fetch_journals id in
                  ret (Some journals))
                 is_Exception
                 (fun _ => xgetitem issue "id" ;; xlog LError "Error fetching journals" ;;
                           ret None) in
     match j with
     | None => ret tt
     | Some journals =>
     let* a := try_except
                 (let* id := xgetitem issue "id" in
                  let* attachments := fetch_attachments id in
                  ret (Some attachments))
                 is_Exception
                 (fun _ => xgetitem issue "id" ;; xlog LError "Error fetching attachments" ;;
                           ret None) in
     match a with
     | None => ret tt
     | Some attachments =>
     let* id := xgetitem issue "id" in
     let attachments := match attachments_listing E id with
                        | Some names => JList (map JStr names)
                        | None => attachments
                        end in
     let* p := try_except
                 (let* d := prepare_issue_data issue journals attachments in ret (Some d))
                 is_Exception
                 (fun _ => xgetitem issue "id" ;; xlog LError "Error preparing data" ;;
                           ret None) in
     match p with
     | None => ret tt
     | Some JNull => xgetitem issue "id" ;; xlog LError "Failed to prepare data"
     | Some issue_data => export_data issue_data
     end
     end
     end)
    exception_or_kbi
    (fun e => match e with
              | RedmineAuthenticationError | RedminePermissionError | RedmineNotFoundError =>
                  xlog LWarn "Redmine error"
              | KeyboardInterrupt =>
                  xlog LInfo "Script interrupted by user." ;; raise KeyboardInterrupt
              | _ => xgetitem issue "id" ;; xlog LError "Error processing issue"
              end).

(** [save_progress(i, progress_file)]. *)
Definition save_progress (i : Z) : XM unit :=
  if write_ok E then fun s => (inr tt, mk_xst (out s) (Some (py_str_int i)) (xtrace s))
  else raise IOError.

(** The body of the [for] loop of [run], lines 423-427. *)
Fixpoint run_from (i : Z) (issues : list json) : XM unit :=
  match issues with
  | [] => ret tt
  | issue :: rest =>
      xgetitem issue "id" ;;
      xlog LInfo "Processing issue" ;;
      process_issue issue ;;
      xemit XWait ;;
      save_progress i ;;
      run_from (i + 1) rest
  end.

(** Lines 422-436 of [run]: the loop from [current_issue_index], its
    handlers, and the closing log line. *)
Definition run_loop (current_issue_index : nat) (issues : list json) : XM unit :=
  try_except (run_from (Z.of_nat current_issue_index + 1) (skipn current_issue_index issues))
    exception_or_kbi
    (fun e => match e with
              | KeyboardInterrupt => raise SystemExit
              | RedmineAuthenticationError | RedminePermissionError | RedmineNotFoundError =>
                  xlog LWarn "Redmine error"
              | _ => xlog LError "Error"
              end) ;;
  xlog LInfo "Issue export completed.".

End Exporter.

(** Neither the output file nor the progress file changed. *)
Definition files_kept (s s' : xst) : Prop := out s' = out s /\ progress s' = progress s.

(** An issue [run] can process: a dictionary with an ["id"] key. *)
Definition has_id (issue : json) : Prop :=
  exists kvs id, issue = JObj kvs /\ assoc "id" kvs = Some id.

End Exporter.


(* ------------------------------------------------------------------ *)
(** ** Observations on importer traces *)

(** For every issue-creation request in a trace, the value of field [k]
    of the posted [fields] ([None]: the payload has no such field). *)
Definition created_field (k : string) (tr : list Importer.event) : list (option json) :=
  flat_map (fun ev =>
    match ev with
    | Importer.ECreate p =>
        match getitem_v p "fields" with
        | inr (JObj fs) => [assoc k fs]
        | _ => []
        end
    | _ => []
    end) tr.

Definition is_log_event (ev : Importer.event) : bool :=
  match ev with Importer.ELog _ _ => true | _ => false end.

Definition is_log_or_upload (ev : Importer.event) : bool :=
  match ev with Importer.ELog _ _ | Importer.EUpload _ _ => true | _ => false end.

(** The trace of [s'] extends that of [s] by events satisfying [P]. *)
Definition trace_ext_by (P : Importer.event -> bool) (s s' : Importer.st) : Prop :=
  exists evs, Importer.trace s' = (Importer.trace s ++ evs)%list /\ forallb P evs = true.

(** One line of the import loop: the [try]/[except Exception] around
    [json.loads] and [issues_setup]. *)
Definition line_body cfg jira (line : option json) : Importer.IM unit :=
  try_except
    (match line with
     | None => raise JSONDecodeError
     | Some issue_data => Importer.issues_setup cfg jira issue_data
     end)
    is_Exception
    (fun _ => Importer.log Importer.LError "An error occurred during issue import" ;;
              Importer.log Importer.LError "Skipping issue data").


(** The local checks of one attachment in [handle_attachments]: [true]
    when the file is missing, too large or of a disallowed type. *)
Definition locally_rejected (cfg : Importer.config) (iid : json) (name : string) : bool :=
  match Importer.attachment_file_size cfg iid name with
  | None => true
  | Some size =>
      match py_int (Importer.maximum_file_size cfg) with
      | inr max_size => (max_size <? size) || negb (Importer.is_allowed_file_type cfg name)
      | inl _ => false
      end
  end.

(** The attachment passes the local checks, so its upload is attempted. *)
Definition upload_attempted (cfg : Importer.config) (iid : json) (name : string) : bool :=
  match Importer.attachment_file_size cfg iid name with
  | None => false
  | Some size =>
      match py_int (Importer.maximum_file_size cfg) with
      | inr max_size => negb (max_size <? size) && Importer.is_allowed_file_type cfg name
      | inl _ => false
      end
  end.

(** The upload request fails: transport error or an error status. *)
Definition upload_fails (r : reply) : bool :=
  match r with
  | NetFail => true
  | Reply code _ => match raise_for_status code with Some _ => true | None => false end
  end.

(* ------------------------------------------------------------------ *)
(** ** Concrete inputs *)

Module Samples.

Definition cfg0 : Importer.config :=
  Importer.mk_config "PRJ" "1000" ["png"]
    (fun _ n => if String.eqb n "missing.png" then None else Some 10)
    (fun _ => Some "png").

(** A Jira that answers every request with status [code]. *)
Definition api_all (code : Z) : Importer.jira_api :=
  Importer.mk_api
    (fun _ => Reply code None)
    (fun _ => Reply code (Some (JObj [("key", JStr "PRJ-1")])))
    (fun _ _ => Reply code None)
    (fun _ _ => Reply code None)
    (fun _ => Reply code (Some (JObj [("transitions",
                 JList [JObj [("id", JStr "31"); ("to", JObj [("name", JStr "new")])]])])))
    (fun _ _ => Reply code None).

(** A Jira that accepts everything except attachment uploads ([500]). *)
Definition api_upload_500 : Importer.jira_api :=
  Importer.mk_api (Importer.user_search (api_all 200)) (Importer.create_issue (api_all 200))
    (fun _ _ => Reply 500 None)
    (Importer.add_comment (api_all 200)) (Importer.get_transitions (api_all 200))
    (Importer.post_transition (api_all 200)).

(** A Redmine issue record as exported: subject with markup, an unmapped
    priority, two attachments and one journal. *)
Definition item (i : Z) : json :=
  JObj [("issue", JObj [("id", JInt i); ("subject", JStr "<script>");
                        ("description", JStr "d");
                        ("tracker", JObj [("name", JStr "Bug")]);
                        ("status", JObj [("name", JStr "New")]);
                        ("priority", JObj [("name", JStr "Blocker")])]);
        ("attachments", JList [JStr "a.png"; JStr "b.png"]);
        ("journals", JList [JObj [("notes", JStr "hi")]])].

(** A Jira that accepts the upload of [ok.png] only ([500] for the others). *)
Definition api_upload_some : Importer.jira_api :=
  Importer.mk_api (Importer.user_search (api_all 200)) (Importer.create_issue (api_all 200))
    (fun _ n => if String.eqb n "ok.png" then Reply 200 None else Reply 500 None)
    (Importer.add_comment (api_all 200)) (Importer.get_transitions (api_all 200))
    (Importer.post_transition (api_all 200)).

(** The sample issue with a missing attachment and an accepted one before
    [a.png] and [b.png]. *)
Definition item_c5 : json :=
  JObj [("issue", JObj [("id", JInt 1); ("subject", JStr "<script>");
                        ("description", JStr "d");
                        ("tracker", JObj [("name", JStr "Bug")]);
                        ("status", JObj [("name", JStr "New")]);
                        ("priority", JObj [("name", JStr "Blocker")])]);
        ("attachments", JList [JStr "missing.png"; JStr "ok.png"; JStr "a.png"; JStr "b.png"]);
        ("journals", JList [JObj [("notes", JStr "hi")]])].

Definition st0 : Importer.st := Importer.mk_st [] [] None None.

(** A list endpoint whose pages hold [a], then [b], then nothing, while its
    [total_count] says 1 — at the offsets the main.py loop requests (0, 100,
    200) and at those the exporter requests (0, 1, 2). *)
Definition page (items : list json) : reply :=
  Reply 200 (Some (JObj [("issues", JList items); ("total_count", JInt 1)])).

Definition stale_server (offset : Z) : reply :=
  if (offset =? 0) then page [JStr "a"]
  else if (offset =? 1) || (offset =? 100) then page [JStr "b"]
  else page [].

(** An endpoint that serves one page and then fails. *)
Definition flaky_server (offset : Z) : reply :=
  if offset =? 0 then page [JStr "a"] else NetFail.

(** The comments endpoint of main.py answering [204 No Content]. *)
Definition env_204 : MainScript.env :=
  MainScript.mk_env true (fun _ => false) (fun _ => Reply 204 None).

Definition issue_with_comments : json := JObj [("id", JInt 1); ("comments", JList [])].

End Samples.

(* ================================================================== *)
(** * Properties *)

(* ------------------------------------------------------------------ *)
(** ** Decimal text round trip *)

Lemma srev_app_involutive (s acc : string) :
  srev_app (srev_app s acc) EmptyString = srev_app acc s.
Proof.
  revert acc; induction s as [|c r IH]; intros acc; simpl; [reflexivity|].
  rewrite IH. reflexivity.
Qed.

Lemma all_chars_srev_app (p : ascii -> bool) (s acc : string) :
  all_chars p (srev_app s acc) = all_chars p s && all_chars p acc.
Proof.
  revert acc; induction s as [|c r IH]; intros acc; simpl; [reflexivity|].
  rewrite IH. simpl. destruct (p c), (all_chars p r), (all_chars p acc); reflexivity.
Qed.

Lemma lstrip_no_space (s : string) :
  all_chars not_space s = true -> lstrip s = s.
Proof.
  destruct s as [|c r]; simpl; [reflexivity|].
  unfold not_space. destruct (is_space c); simpl; [discriminate|reflexivity].
Qed.

Lemma strip_no_space (s : string) :
  all_chars not_space s = true -> strip s = s.
Proof.
  intros H. unfold strip. rewrite (lstrip_no_space s H).
  rewrite lstrip_no_space.
  - rewrite srev_app_involutive. reflexivity.
  - rewrite all_chars_srev_app, H. reflexivity.
Qed.

Lemma uint_str_no_space (u : Decimal.uint) : all_chars not_space (uint_str u) = true.
Proof. induction u; simpl; auto. Qed.

Lemma parse_uint_str (u : Decimal.uint) : parse_uint (uint_str u) = Some u.
Proof. induction u; simpl; try rewrite IHu; reflexivity. Qed.

Lemma parse_body_str (u : Decimal.uint) :
  u <> Decimal.Nil -> parse_body (uint_str u) = Some u.
Proof.
  intros Hu. destruct u; simpl; try (rewrite parse_uint_str; reflexivity).
  congruence.
Qed.

Lemma to_int_not_nil (i : Z) :
  Z.to_int i <> Decimal.Pos Decimal.Nil /\ Z.to_int i <> Decimal.Neg Decimal.Nil.
Proof.
  split; intros E; pose proof (DecimalZ.of_to i) as H; rewrite E in H;
    simpl in H; subst i; discriminate E.
Qed.

Lemma py_int_py_str_int (i : Z) : py_int (py_str_int i) = inr i.
Proof.
  unfold py_int, py_str_int.
  destruct (to_int_not_nil i) as [Hp Hn].
  pose proof (DecimalZ.of_to i) as Hof.
  destruct (Z.to_int i) as [u|u] eqn:E.
  - rewrite strip_no_space by apply uint_str_no_space.
    assert (u <> Decimal.Nil) as Hu by congruence.
    pose proof (parse_body_str u Hu) as Hb.
    destruct u; simpl in Hb |- *; try congruence;
      rewrite Hb; simpl; f_equal; exact Hof.
  - rewrite strip_no_space by (simpl; apply uint_str_no_space).
    assert (u <> Decimal.Nil) as Hu by congruence.
    rewrite (parse_body_str u Hu). simpl. f_equal. exact Hof.
Qed.

(** C7. Checkpoint round trip: after [save_progress(i, path)],
    [load_progress(path)] returns [i], for every integer [i] (in particular
    every non-negative one); with no file at [path] it returns [0]. *)
Theorem checkpoint_roundtrip :
  (forall (fs : gmap string string) (path : string) (i : Z),
      Checkpoint.load_progress path (Checkpoint.save_progress i path fs) = inr i) /\
  (forall (fs : gmap string string) (path : string),
      Checkpoint.load_progress path (delete path fs) = inr 0).
Proof.
  split.
  - intros fs path i. unfold Checkpoint.load_progress, Checkpoint.save_progress.
    rewrite lookup_insert_eq. apply py_int_py_str_int.
  - intros fs path. unfold Checkpoint.load_progress.
    rewrite lookup_delete_eq. reflexivity.
Qed.

(* ------------------------------------------------------------------ *)
(** ** Rate limiter *)

Lemma wait_delay (rl : RateLimiter.limiter) (n o a : Z) :
  RateLimiter.delay (RateLimiter.wait rl n o a) = RateLimiter.delay rl.
Proof. reflexivity. Qed.

Lemma wait_advances (rl : RateLimiter.limiter) (n o a : Z) :
  0 <= o -> 0 <= a ->
  RateLimiter.last_request_time rl + RateLimiter.delay rl <=
  RateLimiter.last_request_time (RateLimiter.wait rl n o a).
Proof.
  intros Ho Ha. unfold RateLimiter.wait; simpl.
  destruct (n - RateLimiter.last_request_time rl <? RateLimiter.delay rl) eqn:E.
  - lia.
  - apply Z.ltb_ge in E. lia.
Qed.

Lemma acquisitions_spaced (rl : RateLimiter.limiter) (rs : list RateLimiter.reading) :
  Forall RateLimiter.reading_ok rs ->
  RateLimiter.spaced (RateLimiter.delay rl)
    (RateLimiter.last_request_time rl :: RateLimiter.acquisitions rl rs).
Proof.
  revert rl; induction rs as [|[[n o] a] rs IH]; intros rl Hok; simpl; [exact I|].
  inversion Hok as [|? ? Hx Hrest]; subst.
  destruct Hx as [Ho Ha].
  split.
  - apply wait_advances; assumption.
  - specialize (IH (RateLimiter.wait rl n o a) Hrest).
    rewrite wait_delay in IH. exact IH.
Qed.

Lemma last_cons (x : Z) (l : list Z) (d : Z) : List.last (x :: l) d = List.last l x.
Proof.
  revert x d; induction l as [|y l IH]; intros x d; [reflexivity|].
  change (List.last (y :: l) d = List.last (y :: l) x).
  rewrite !IH. reflexivity.
Qed.

Lemma spaced_span (d t : Z) (ts : list Z) :
  RateLimiter.spaced d (t :: ts) -> t + Z.of_nat (List.length ts) * d <= List.last ts t.
Proof.
  revert t; induction ts as [|t2 ts IH]; intros t H.
  - simpl. lia.
  - destruct H as [H12 Hr]. specialize (IH t2 Hr).
    cbn [List.length]. rewrite Nat2Z.inj_succ, Z.mul_succ_l.
    replace (List.last (t2 :: ts) t) with (List.last ts t2)
      by (symmetry; apply last_cons).
    lia.
Qed.

(** C9. Every [wait()] records a window start at least [delay] after the
    previous one (the first one at least [delay] after construction), so
    over N completed acquisitions the span from the first recorded start
    to the last is at least [(N-1) * delay].  Clock readings are free
    except that [time.sleep] never returns early and no reading precedes
    the end of the sleep. *)
Theorem rate_limiter_spacing (rl : RateLimiter.limiter) (rs : list RateLimiter.reading)
    (Hok : Forall RateLimiter.reading_ok rs) :
  RateLimiter.spaced (RateLimiter.delay rl)
    (RateLimiter.last_request_time rl :: RateLimiter.acquisitions rl rs) /\
  (forall t1 : Z,
     hd_error (RateLimiter.acquisitions rl rs) = Some t1 ->
     (Z.of_nat (List.length (RateLimiter.acquisitions rl rs)) - 1) * RateLimiter.delay rl
       <= List.last (RateLimiter.acquisitions rl rs) t1 - t1).
Proof.
  pose proof (acquisitions_spaced rl rs Hok) as Hs.
  split; [exact Hs|].
  intros t1 Hhd.
  destruct (RateLimiter.acquisitions rl rs) as [|t ts] eqn:E; [discriminate|].
  injection Hhd as <-. simpl in Hs. destruct Hs as [_ Hs].
  pose proof (spaced_span _ _ _ Hs) as Hspan.
  cbn [List.length]. rewrite Nat2Z.inj_succ.
  replace (Z.succ (Z.of_nat (List.length ts)) - 1) with (Z.of_nat (List.length ts)) by lia.
  replace (List.last (t :: ts) t) with (List.last ts t)
    by (symmetry; apply last_cons).
  lia.
Qed.

(* ------------------------------------------------------------------ *)
(** ** The [with rate_limiter:] block *)

(** C10. [with rate_limiter: body]: when the body raises [e], the block
    ends normally, with the body's effects kept, unless [e] is
    [KeyboardInterrupt], which propagates. *)
Theorem rate_limiter_with_swallows {S : Type} (enter body : M S unit) (s s1 s2 : S)
    (e : exc) (Henter : enter s = (inr tt, s1)) (Hbody : body s1 = (inl e, s2)) :
  with_rate_limiter enter body s =
    match e with KeyboardInterrupt => (inl e, s2) | _ => (inr tt, s2) end.
Proof.
  unfold with_rate_limiter, with_stmt. rewrite Henter, Hbody.
  destruct e; reflexivity.
Qed.

(* ------------------------------------------------------------------ *)
(** ** No importer step raises [KeyboardInterrupt] *)

Create HintDb nokbi.

Lemma nokbi_ret {S A} (a : A) : @nokbi S A (ret a).
Proof. intros s e s' H. discriminate H. Qed.

Lemma nokbi_raise {S A} (e : exc) : e <> KeyboardInterrupt -> @nokbi S A (raise e).
Proof. intros H s e' s' E. injection E as <- _. exact H. Qed.

Lemma nokbi_bind {S A B} (m : M S A) (k : A -> M S B) :
  nokbi m -> (forall a, nokbi (k a)) -> nokbi (bind m k).
Proof.
  intros Hm Hk s e s' E. unfold bind in E.
  destruct (m s) as [[e0|a] s0] eqn:Em.
  - injection E as <- _. exact (Hm _ _ _ Em).
  - exact (Hk a _ _ _ E).
Qed.

Lemma nokbi_try {S A} (m : M S A) (p : exc -> bool) (h : exc -> M S A) :
  nokbi m -> (forall e, e <> KeyboardInterrupt -> nokbi (h e)) -> nokbi (try_except m p h).
Proof.
  intros Hm Hh s e s' E. unfold try_except in E.
  destruct (m s) as [[e0|a] s0] eqn:Em.
  - destruct (p e0).
    + exact (Hh e0 (Hm _ _ _ Em) _ _ _ E).
    + injection E as <- _. exact (Hm _ _ _ Em).
  - discriminate E.
Qed.

Lemma nokbi_lift {S A} (r : exc + A) : r <> inl KeyboardInterrupt -> @nokbi S A (lift r).
Proof.
  intros H s e s' E. destruct r as [e0|a]; simpl in E; [|discriminate E].
  injection E as <- _. intros ->. exact (H eq_refl).
Qed.

Lemma nokbi_for_each {S A} (l : list A) (f : A -> M S unit) :
  (forall x, nokbi (f x)) -> nokbi (for_each l f).
Proof.
  intros Hf. induction l as [|x r IH]; simpl.
  - apply nokbi_ret.
  - apply nokbi_bind; [apply Hf | intros _; exact IH].
Qed.

Lemma nokbi_with {S} (enter : M S unit) (ex : option exc -> bool) (body : M S unit) :
  nokbi enter -> nokbi body -> nokbi (with_stmt enter ex body).
Proof.
  intros He Hb s e s' E. unfold with_stmt in E.
  destruct (enter s) as [[e0|[]] s1] eqn:Ee.
  - injection E as <- _. exact (He _ _ _ Ee).
  - destruct (body s1) as [[e1|[]] s2] eqn:Eb; [|discriminate E].
    destruct (ex (Some e1)); [discriminate E|].
    injection E as <- _. exact (Hb _ _ _ Eb).
Qed.

Lemma getitem_v_nokbi v k : getitem_v v k <> inl KeyboardInterrupt.
Proof. destruct v; simpl; try discriminate. destruct (assoc k kvs); discriminate. Qed.
Lemma dict_get_v_nokbi v k d : dict_get_v v k d <> inl KeyboardInterrupt.
Proof. destruct v; simpl; discriminate. Qed.
Lemma py_iter_items_nokbi v : py_iter_items v <> inl KeyboardInterrupt.
Proof. destruct v; simpl; discriminate. Qed.
Lemma py_contains_v_nokbi k v : py_contains_v k v <> inl KeyboardInterrupt.
Proof. destruct v; simpl; discriminate. Qed.
Lemma index0_v_nokbi v : index0_v v <> inl KeyboardInterrupt.
Proof. destruct v as [| | | [|]| [|]|]; simpl; discriminate. Qed.
Lemma py_int_nokbi s : py_int s <> inl KeyboardInterrupt.
Proof.
  unfold py_int. intros E.
  repeat match type of E with
         | context [match ?x with _ => _ end] => destruct x
         end; discriminate E.
Qed.

#[local] Hint Resolve nokbi_ret getitem_v_nokbi dict_get_v_nokbi py_iter_items_nokbi
  py_contains_v_nokbi index0_v_nokbi py_int_nokbi : nokbi.

Ltac nokbi_solve :=
  repeat (cbv beta;
    match goal with
    | |- nokbi (bind _ _) => apply nokbi_bind; [|intros ?]
    | |- nokbi (try_except _ _ _) => apply nokbi_try; [|intros ? ?]
    | |- nokbi (for_each _ _) => apply nokbi_for_each; intros ?
    | |- nokbi (with_stmt _ _ _) => apply nokbi_with
    | |- nokbi (raise _) => apply nokbi_raise; first [discriminate | assumption]
    | |- nokbi (lift _) => apply nokbi_lift; auto with nokbi
    | |- nokbi (if ?b then _ else _) => destruct b
    | |- nokbi (match ?x with _ => _ end) => destruct x
    | |- nokbi _ => solve [auto with nokbi]
    end).

Import Importer.

Ltac nokbi_state := intros ? ? ? ?E; discriminate E.

Lemma nokbi_emit (ev : event) : nokbi (emit ev).
Proof. nokbi_state. Qed.
Lemma nokbi_log (l : level) (msg : string) : nokbi (log l msg).
Proof. nokbi_state. Qed.
Lemma nokbi_set_fields fs : nokbi (set_fields fs).
Proof. nokbi_state. Qed.
Lemma nokbi_set_key k : nokbi (set_key k).
Proof. nokbi_state. Qed.
Lemma nokbi_write_checkpoint c : nokbi (write_checkpoint c).
Proof. nokbi_state. Qed.
Lemma nokbi_get_fields : nokbi get_fields.
Proof. nokbi_state. Qed.
Lemma nokbi_get_key : nokbi get_key.
Proof. nokbi_state. Qed.
Lemma nokbi_getitem v k : nokbi (getitem v k).
Proof. apply nokbi_lift, getitem_v_nokbi. Qed.
Lemma nokbi_dict_get v k : nokbi (dict_get v k).
Proof. apply nokbi_lift, dict_get_v_nokbi. Qed.

#[local] Hint Resolve nokbi_emit nokbi_log nokbi_set_fields nokbi_set_key
  nokbi_write_checkpoint nokbi_get_fields nokbi_get_key nokbi_getitem nokbi_dict_get : nokbi.

Lemma nokbi_set_field k v : nokbi (set_field k v).
Proof. unfold set_field. nokbi_solve. Qed.
#[local] Hint Resolve nokbi_set_field : nokbi.

Lemma nokbi_handle_http_error {A} (code : Z) : nokbi (@handle_http_error A code).
Proof. unfold handle_http_error. nokbi_solve. Qed.
Lemma nokbi_check_status (code : Z) : nokbi (check_status code).
Proof.
  unfold check_status, raise_for_status.
  destruct ((400 <=? code) && (code <? 600)); nokbi_solve.
Qed.
Lemma nokbi_set_field_value n v t : nokbi (set_field_value n v t).
Proof. unfold set_field_value. nokbi_solve. Qed.
Lemma nokbi_fmt_issue_id d : nokbi (fmt_issue_id d).
Proof. unfold fmt_issue_id. nokbi_solve. Qed.
#[local] Hint Resolve nokbi_handle_http_error nokbi_check_status nokbi_set_field_value
  nokbi_fmt_issue_id : nokbi.

Lemma nokbi_log_id d l m : nokbi (log_id d l m).
Proof. unfold log_id. nokbi_solve. Qed.
#[local] Hint Resolve nokbi_log_id : nokbi.

Lemma nokbi_get_user jira u : nokbi (get_user jira u).
Proof. unfold get_user. nokbi_solve. Qed.
#[local] Hint Resolve nokbi_get_user : nokbi.

Lemma nokbi_handle_user_field jira a b f d : nokbi (handle_user_field jira a b f d).
Proof. unfold handle_user_field. nokbi_solve. Qed.
#[local] Hint Resolve nokbi_handle_user_field : nokbi.

Lemma nokbi_handle_priority d : nokbi (handle_priority d).
Proof. unfold handle_priority, priority_lookup. nokbi_solve. Qed.
Lemma nokbi_handle_category d : nokbi (handle_category d).
Proof. unfold handle_category. nokbi_solve. Qed.
Lemma nokbi_handle_plain_field n d : nokbi (handle_plain_field n d).
Proof. unfold handle_plain_field. nokbi_solve. Qed.
#[local] Hint Resolve nokbi_handle_priority nokbi_handle_category nokbi_handle_plain_field : nokbi.

Lemma nokbi_attachment_step cfg jira k d a : nokbi (attachment_step cfg jira k d a).
Proof. unfold attachment_step, try_http_or_exception. nokbi_solve. Qed.
Lemma nokbi_handle_journals jira j k : nokbi (handle_journals jira j k).
Proof. unfold handle_journals, try_http_or_exception. nokbi_solve. Qed.
#[local] Hint Resolve nokbi_attachment_step nokbi_handle_journals : nokbi.

Lemma nokbi_handle_attachments cfg jira k d : nokbi (handle_attachments cfg jira k d).
Proof. unfold handle_attachments. nokbi_solve. Qed.

Lemma nokbi_find_transition t ts : nokbi (find_transition t ts).
Proof. induction ts as [|x r IH]; simpl; nokbi_solve. Qed.
#[local] Hint Resolve nokbi_handle_attachments nokbi_find_transition : nokbi.

Lemma nokbi_get_transition_id jira k t : nokbi (get_transition_id jira k t).
Proof. unfold get_transition_id. nokbi_solve. Qed.
#[local] Hint Resolve nokbi_get_transition_id : nokbi.

Lemma nokbi_transition_status jira d k : nokbi (transition_status jira d k).
Proof. unfold transition_status. nokbi_solve. Qed.
#[local] Hint Resolve nokbi_transition_status : nokbi.

Lemma nokbi_process_created cfg jira d k : nokbi (process_created cfg jira d k).
Proof. unfold process_created. nokbi_solve. Qed.
#[local] Hint Resolve nokbi_process_created : nokbi.

Lemma nokbi_issues_setup cfg jira d : nokbi (issues_setup cfg jira d).
Proof.
  unfold issues_setup, with_rate_limiter, handle_reporter, handle_assignee,
    handle_dates, handle_estimated_hours, try_http_or_exception.
  nokbi_solve.
Qed.

(** [issues_setup] always returns normally: its body never raises
    [KeyboardInterrupt], and the rate limiter swallows everything else. *)
Lemma issues_setup_returns cfg jira d s :
  exists s', issues_setup cfg jira d s = (inr tt, s').
Proof.
  pose proof (nokbi_issues_setup cfg jira d s) as Hn.
  destruct (issues_setup cfg jira d s) as [[e|[]] s'] eqn:E; [|eauto].
  exfalso. apply (Hn e s' eq_refl).
  unfold issues_setup, with_rate_limiter, with_stmt in E.
  simpl in E.
  match type of E with
  | match ?b with _ => _ end = _ => destruct b as [[e1|[]] s2]
  end; [|discriminate E].
  destruct e1; simpl in E; try discriminate E; injection E as <- _; reflexivity.
Qed.

Lemma line_body_returns cfg jira line s :
  exists s', line_body cfg jira line s = (inr tt, s').
Proof.
  unfold line_body, try_except. destruct line as [d|].
  - destruct (issues_setup_returns cfg jira d s) as [s' ->]. eauto.
  - simpl. unfold bind, log, emit. simpl. eauto.
Qed.

Lemma import_lines_from_start cfg jira (lines : list (option json)) :
  forall (cid ln : Z) (s : st), exists s',
    import_lines cfg jira false cid ln lines s = (inr tt, s') /\
    checkpoint_file s' =
      match lines with
      | [] => checkpoint_file s
      | _ => Some (py_str_int (ln + Z.of_nat (List.length lines) - 1))
      end.
Proof.
  induction lines as [|line rest IH]; intros cid ln s.
  - exists s. split; reflexivity.
  - simpl import_lines. fold (line_body cfg jira line).
    destruct (line_body_returns cfg jira line s) as [s1 E1].
    unfold bind at 1. rewrite E1.
    destruct (IH ln (ln + 1)
                (mk_st (trace s1 ++ [ECheckpoint (py_str_int ln)]) (fields s1)
                       (jira_issue_key s1) (Some (py_str_int ln))))
      as [s2 [E2 C2]].
    exists s2. split.
    + unfold bind, write_checkpoint. exact E2.
    + rewrite C2. destruct rest as [|x r]; simpl; [f_equal; f_equal; lia|].
      f_equal. f_equal. lia.
Qed.

(** C1. A failing destination call, a 401 among them, never ends the
    import run: started without a checkpoint file, [import_issues] returns
    normally after every line of a non-empty input has been handled, and the
    checkpoint holds the number of the last line. *)
Theorem import_run_continues cfg jira (uc : choice) (lines : list (option json)) (s : st)
    (Hcf : checkpoint_file s = None) (Hne : lines <> []) :
  exists s', import_issues cfg jira uc lines s = (inr tt, s') /\
             checkpoint_file s' = Some (py_str_int (Z.of_nat (List.length lines))).
Proof.
  unfold import_issues, bind at 1, get_checkpoint_file. rewrite Hcf.
  unfold run_lines, try_except.
  destruct (import_lines_from_start cfg jira lines 0 1 s) as [s' [E C]].
  rewrite E. exists s'. split; [reflexivity|].
  rewrite C. destruct lines as [|l r]; [congruence|].
  f_equal. f_equal. lia.
Qed.

Lemma import_run_continues_witness :
  checkpoint_file Samples.st0 = None /\ [Some (Samples.item 1)] <> [] /\
  exists s', import_issues Samples.cfg0 (Samples.api_all 401) Choice1
               [Some (Samples.item 1)] Samples.st0 = (inr tt, s') /\
             checkpoint_file s' = Some (py_str_int (Z.of_nat (List.length [Some (Samples.item 1)]))).
Proof.
  split; [reflexivity|]. split; [discriminate|].
  apply (import_run_continues Samples.cfg0 (Samples.api_all 401) Choice1
           [Some (Samples.item 1)] Samples.st0); [reflexivity|discriminate].
Defined.

(** C1 counterexample: every Jira call answers 401.  Both input lines are
    still submitted for creation, the run returns normally and the
    checkpoint reaches line 2. *)
Lemma import_401_counterexample :
  let r := import_issues Samples.cfg0 (Samples.api_all 401) Choice1
             [Some (Samples.item 1); Some (Samples.item 2)] Samples.st0 in
  fst r = inr tt /\
  created_field "summary" (trace (snd r)) = [Some (JStr "<script>"); Some (JStr "<script>")] /\
  checkpoint_file (snd r) = Some "2"%string.
Proof. vm_compute. repeat split; reflexivity. Qed.

(** C2. The sanitize flag of the [subject] mapping is set, and escaping
    [<script>] gives [&lt;script&gt;], yet the summary that [issues_setup]
    posts for an issue whose subject is [<script>] is the raw [<script>]:
    the payload is built from the unsanitized record. *)
Theorem summary_not_sanitized :
  lookup_fmap "subject" fields_mappings = Some (mk_fmap "summary" TStr true) /\
  lookup_fmap "description" fields_mappings = Some (mk_fmap "description" TStr true) /\
  html_escape "<script>" = "&lt;script&gt;"%string /\
  created_field "summary"
    (trace (snd (issues_setup Samples.cfg0 (Samples.api_all 200) (Samples.item 1) Samples.st0)))
  = [Some (JStr "<script>")].
Proof. vm_compute. repeat split; reflexivity. Qed.

(** C8. An unmapped value never raises.  The exporter sends any status or
    priority filter as [str(value)] (both tables map a key to its own
    text), with no warning.  In the importer, a priority name that
    [priority_mappings] lacks leaves the state untouched: no priority field
    is set and nothing is logged. *)
Theorem unmapped_values (kvs ikvs pkvs : list (string * json)) (n : string) (s : st)
    (Hissue : assoc "issue" kvs = Some (JObj ikvs))
    (Hprio : assoc "priority" ikvs = Some (JObj pkvs))
    (Hname : assoc "name" pkvs = Some (JStr n))
    (Hne : n <> EmptyString)
    (Hunmapped : lookup_fmap n priority_mappings = None) :
  (forall z, ExporterParams.status_param z = py_str_int z /\
             ExporterParams.priority_param z = py_str_int z) /\
  handle_priority (JObj kvs) s = (inr tt, s).
Proof.
  split.
  - intro z. unfold ExporterParams.status_param, ExporterParams.priority_param.
    split; cbn [ExporterParams.status_map ExporterParams.priority_map ExporterParams.map_get];
      repeat match goal with
             | |- context [Z.eqb z ?c] => destruct (Z.eqb_spec z c) as [->|]; [reflexivity|]
             end; reflexivity.
  - unfold handle_priority, getitem, dict_get, bind, lift, ret, raise.
    assert (Hlen : Nat.eqb (List.length pkvs) 0 = false)
      by (destruct pkvs; [discriminate Hname|reflexivity]).
    simpl. rewrite Hissue. simpl. rewrite Hprio. simpl. rewrite Hlen. simpl.
    rewrite Hname. simpl.
    destruct (String.eqb_spec n EmptyString) as [|_]; [contradiction|].
    simpl in Hunmapped |- *.
    repeat match goal with
           | H : context [String.eqb n ?c] |- _ =>
               destruct (String.eqb n c); [discriminate H|]
           end.
    reflexivity.
Qed.

Lemma unmapped_values_witness :
  assoc "issue" [("issue", JObj [("priority", JObj [("name", JStr "Blocker")])])]
    = Some (JObj [("priority", JObj [("name", JStr "Blocker")])]) /\
  assoc "priority" [("priority", JObj [("name", JStr "Blocker")])]
    = Some (JObj [("name", JStr "Blocker")]) /\
  assoc "name" [("name", JStr "Blocker")] = Some (JStr "Blocker") /\
  "Blocker"%string <> EmptyString /\
  lookup_fmap "Blocker" priority_mappings = None /\
  ((forall z, ExporterParams.status_param z = py_str_int z /\
              ExporterParams.priority_param z = py_str_int z) /\
   handle_priority (JObj [("issue", JObj [("priority", JObj [("name", JStr "Blocker")])])])
     Samples.st0 = (inr tt, Samples.st0)).
Proof.
  do 2 (split; [reflexivity|]). split; [reflexivity|]. split; [discriminate|].
  split; [reflexivity|].
  apply (unmapped_values [("issue", JObj [("priority", JObj [("name", JStr "Blocker")])])]
           [("priority", JObj [("name", JStr "Blocker")])] [("name", JStr "Blocker")]
           "Blocker" Samples.st0); [reflexivity|reflexivity|reflexivity|discriminate|reflexivity].
Defined.

(** C8 counterexample: the sample issue's priority [Blocker] is not in
    [priority_mappings]; the payload posted for it has no priority field,
    and no log line mentions it. *)
Lemma unmapped_priority_counterexample :
  lookup_fmap "Blocker" priority_mappings = None /\
  created_field "priority"
    (trace (snd (issues_setup Samples.cfg0 (Samples.api_all 200) (Samples.item 1) Samples.st0)))
  = [None] /\
  handle_priority (Samples.item 1) Samples.st0 = (inr tt, Samples.st0).
Proof. vm_compute. repeat split; reflexivity. Qed.

(* ------------------------------------------------------------------ *)
(** ** Pagination *)

Import Pagination.

Lemma fetch_step (srv : server) (fuel : nat) (offset : Z) (data items : list json) :
  serves srv offset items ->
  fetch_data_with_pagination srv (S fuel) offset data =
    if Nat.eqb (List.length items) 0 then (Some (inr (data ++ items)), [offset])
    else let '(r, offs) := fetch_data_with_pagination srv fuel
                             (offset + Z.of_nat (List.length items)) (data ++ items) in
         (r, offset :: offs).
Proof.
  intros (code & kvs & Hsrv & Hok & Hissues).
  cbn [fetch_data_with_pagination]. rewrite Hsrv. unfold fetch_data. rewrite Hok.
  cbn [py_contains_v getitem_v]. rewrite Hissues. reflexivity.
Qed.

Lemma pagination_pages_then_empty (srv : server) (offset : Z) (ps : list (list json))
    (H : pages_then_empty srv offset ps) :
  forall fuel data, (List.length ps < fuel)%nat ->
    fst (fetch_data_with_pagination srv fuel offset data) = Some (inr (data ++ concat ps)) /\
    List.length (snd (fetch_data_with_pagination srv fuel offset data)) = S (List.length ps).
Proof.
  induction H as [offset Hs | offset p ps Hp Hs Hrest IH]; intros fuel data Hf;
    (destruct fuel as [|fuel]; [cbn in Hf; lia|]); rewrite (fetch_step _ _ _ _ _ Hs).
  - cbn. rewrite app_nil_r. split; reflexivity.
  - destruct (Nat.eqb_spec (List.length p) 0) as [E|_].
    + destruct p; [congruence|discriminate E].
    + cbn [List.length] in Hf.
      destruct (IH fuel (data ++ p) ltac:(lia)) as [IH1 IH2].
      destruct (fetch_data_with_pagination srv fuel (offset + Z.of_nat (List.length p)) (data ++ p))
        as [r offs].
      cbn in IH1, IH2 |- *. rewrite IH1, app_assoc. split; [reflexivity|]. lia.
Qed.

Lemma pagination_pages_then_failure (srv : server) (offset : Z) (ps : list (list json))
    (H : pages_then_failure srv offset ps) :
  forall fuel data, (List.length ps < fuel)%nat ->
    fst (fetch_data_with_pagination srv fuel offset data) = Some (inr (data ++ concat ps)).
Proof.
  induction H as [offset Hf0 | offset p ps Hp Hs Hrest IH]; intros fuel data Hf;
    (destruct fuel as [|fuel]; [cbn in Hf; lia|]).
  - cbn [fetch_data_with_pagination]. rewrite Hf0. cbn. rewrite app_nil_r. reflexivity.
  - rewrite (fetch_step _ _ _ _ _ Hs).
    destruct (Nat.eqb_spec (List.length p) 0) as [E|_].
    + destruct p; [congruence|discriminate E].
    + cbn [List.length] in Hf.
      pose proof (IH fuel (data ++ p) ltac:(lia)) as IH1.
      destruct (fetch_data_with_pagination srv fuel (offset + Z.of_nat (List.length p)) (data ++ p))
        as [r offs].
      cbn in IH1 |- *. rewrite IH1, app_assoc. reflexivity.
Qed.

(** C3. The exporter's [fetch_data_with_pagination], over an endpoint that
    serves the non-empty pages [ps] and then an empty page (whatever the
    replies' other keys, [total_count] among them, say), returns the
    concatenation of [ps] in order, after exactly [length ps + 1] requests:
    it stops at the first empty page. *)
Theorem exporter_pagination_concat (srv : server) (ps : list (list json)) (fuel : nat)
    (Hpages : pages_then_empty srv 0 ps) (Hfuel : (List.length ps < fuel)%nat) :
  fst (fetch_data_with_pagination srv fuel 0 []) = Some (inr (concat ps)) /\
  List.length (snd (fetch_data_with_pagination srv fuel 0 [])) = S (List.length ps).
Proof.
  exact (pagination_pages_then_empty srv 0 ps Hpages fuel [] Hfuel).
Qed.

Lemma exporter_pagination_concat_witness :
  pages_then_empty Samples.stale_server 0 [[JStr "a"]; [JStr "b"]] /\
  (List.length [[JStr "a"]; [JStr "b"]] < 5)%nat /\
  (fst (fetch_data_with_pagination Samples.stale_server 5 0 []) =
     Some (inr (concat [[JStr "a"]; [JStr "b"]])) /\
   List.length (snd (fetch_data_with_pagination Samples.stale_server 5 0 [])) =
     S (List.length [[JStr "a"]; [JStr "b"]])).
Proof.
  assert (Hp : pages_then_empty Samples.stale_server 0 [[JStr "a"]; [JStr "b"]]).
  { apply pte_cons; [discriminate| |].
    { do 2 eexists. split; [reflexivity|]. split; reflexivity. }
    apply pte_cons; [discriminate| |].
    { do 2 eexists. split; [reflexivity|]. split; reflexivity. }
    apply pte_last. do 2 eexists. split; [reflexivity|]. split; reflexivity. }
  split; [exact Hp|]. split; [cbn; lia|].
  apply (exporter_pagination_concat Samples.stale_server [[JStr "a"]; [JStr "b"]] 5 Hp).
  cbn; lia.
Defined.

(** C3 counterexample: the main.py [fetch_issues] over an endpoint whose
    [total_count] is a stale 1 while the page at offset 100 still holds an
    item: it stops after the first page, before any empty page, and returns
    [a] only. *)
Lemma main_pagination_counterexample :
  serves Samples.stale_server 100 [JStr "b"] /\
  main_fetch_issues Samples.stale_server 10 0 [] = (Some (inr [JStr "a"]), [0]).
Proof.
  split; [|reflexivity].
  do 2 eexists. split; [reflexivity|]. split; reflexivity.
Qed.

(** C4. A transport failure during pagination does not abort the
    exporter's fetch: [fetch_data_with_pagination] returns the items of the
    pages served before the failing request.  The main.py [fetch_issues]
    instead ends the process ([SystemExit]) at a failing request. *)
Theorem pagination_failure_outcome (srv : server) (ps : list (list json)) (fuel : nat)
    (Hpages : pages_then_failure srv 0 ps) (Hfuel : (List.length ps < fuel)%nat) :
  fst (fetch_data_with_pagination srv fuel 0 []) = Some (inr (concat ps)) /\
  (forall msrv mfuel offset issues, msrv offset = NetFail ->
     main_fetch_issues msrv (S mfuel) offset issues = (Some (inl SystemExit), [offset])).
Proof.
  split.
  - exact (pagination_pages_then_failure srv 0 ps Hpages fuel [] Hfuel).
  - intros msrv mfuel offset issues Hn. cbn [main_fetch_issues]. rewrite Hn. reflexivity.
Qed.

Lemma pagination_failure_outcome_witness :
  pages_then_failure Samples.flaky_server 0 [[JStr "a"]] /\
  (List.length [[JStr "a"]] < 3)%nat /\
  (fst (fetch_data_with_pagination Samples.flaky_server 3 0 []) = Some (inr (concat [[JStr "a"]])) /\
   (forall msrv mfuel offset issues, msrv offset = NetFail ->
      main_fetch_issues msrv (S mfuel) offset issues = (Some (inl SystemExit), [offset]))).
Proof.
  assert (Hp : pages_then_failure Samples.flaky_server 0 [[JStr "a"]]).
  { apply ptf_cons; [discriminate| |].
    { do 2 eexists. split; [reflexivity|]. split; reflexivity. }
    apply ptf_last. reflexivity. }
  split; [exact Hp|]. split; [cbn; lia|].
  apply (pagination_failure_outcome Samples.flaky_server [[JStr "a"]] 3 Hp). cbn; lia.
Defined.

(** C4 counterexample: the first page holds [a], the request for the
    second fails; the exporter's fetch returns [[a]] to its caller. *)
Lemma pagination_failure_counterexample :
  Samples.flaky_server 1 = NetFail /\
  fetch_data_with_pagination Samples.flaky_server 10 0 [] = (Some (inr [JStr "a"]), [0; 1]).
Proof. split; reflexivity. Qed.

(* ------------------------------------------------------------------ *)
(** ** Attachment uploads *)

Lemma handle_http_error_trace (code : Z) (s : st) :
  exists e s' logs, @handle_http_error unit code s = (inl e, s') /\
    trace s' = (trace s ++ logs)%list /\ forallb is_log_event logs = true.
Proof.
  unfold handle_http_error.
  repeat match goal with
         | |- context [if ?b then _ else _] => destruct b
         end;
  try (do 3 eexists; split; [reflexivity|]; split; [symmetry; apply app_nil_r|reflexivity]).
  do 3 eexists. split; [reflexivity|]. cbn.
  split; [rewrite <- app_assoc; reflexivity|reflexivity].
Qed.

Lemma attachment_step_upload_fails cfg jira key kvs ikvs iid name s :
  assoc "issue" kvs = Some (JObj ikvs) -> assoc "id" ikvs = Some iid ->
  upload_attempted cfg iid name = true ->
  upload_fails (upload_attachment jira key (html_escape name)) = true ->
  exists e s' logs, attachment_step cfg jira key (JObj kvs) (JStr name) s = (inl e, s') /\
    trace s' = (trace s ++ EUpload key (html_escape name) :: logs)%list /\
    forallb is_log_event logs = true.
Proof.
  intros Hissue Hid Hup Hfail.
  unfold upload_attempted in Hup.
  destruct (attachment_file_size cfg iid name) as [size|] eqn:Hsize; [|discriminate].
  destruct (py_int (maximum_file_size cfg)) as [|max] eqn:Hmax; [discriminate|].
  apply andb_prop in Hup as [Hle Hallowed]. apply Bool.negb_true_iff in Hle.
  unfold attachment_step, getitem, bind, lift, ret, raise. simpl.
  rewrite Hissue. simpl. rewrite Hid, Hsize, Hmax, Hle, Hallowed. simpl.
  unfold try_http_or_exception, try_except, emit.
  destruct (upload_attachment jira key (html_escape name)) as [code body|] eqn:Hu.
  - simpl in Hfail. unfold check_status.
    destruct (raise_for_status code) as [e|] eqn:Hr; [|discriminate].
    unfold raise_for_status in Hr.
    destruct ((400 <=? code) && (code <? 600))%bool; [|discriminate]. injection Hr as <-.
    simpl.
    destruct (handle_http_error_trace code
      (mk_st (trace s ++ [EUpload key (html_escape name)]) (fields s) (jira_issue_key s)
             (checkpoint_file s))) as (e & s' & logs & E & T & L).
    rewrite E. exists e, s', logs. split; [reflexivity|]. split; [|exact L].
    rewrite T. cbn. rewrite <- app_assoc. reflexivity.
  - simpl. unfold fmt_issue_id, getitem, bind, lift, ret, raise, log, emit. simpl.
    rewrite Hissue. simpl. rewrite Hid. simpl.
    do 3 eexists. split; [reflexivity|]. cbn.
    split; [rewrite <- app_assoc; reflexivity|reflexivity].
Qed.

Lemma attachment_step_rejected cfg jira key kvs ikvs iid name s :
  assoc "issue" kvs = Some (JObj ikvs) -> assoc "id" ikvs = Some iid ->
  locally_rejected cfg iid name = true ->
  exists l msg, attachment_step cfg jira key (JObj kvs) (JStr name) s =
    (inr tt, mk_st (trace s ++ [ELog l msg]) (fields s) (jira_issue_key s) (checkpoint_file s)).
Proof.
  intros Hissue Hid Hrej.
  unfold locally_rejected in Hrej.
  unfold attachment_step, getitem, bind, lift, ret, raise. simpl.
  rewrite Hissue. simpl. rewrite Hid.
  destruct (attachment_file_size cfg iid name) as [size|]; [|eauto].
  destruct (py_int (maximum_file_size cfg)) as [|max]; [discriminate|].
  simpl. destruct (max <? size); [eauto|].
  destruct (is_allowed_file_type cfg name); [discriminate|]. eauto.
Qed.

(** C5 counterexample: the sample issue has attachments [a.png] and
    [b.png] and a journal comment; every upload answers 500.  After the
    failed upload of [a.png], neither [b.png], nor the comment, nor the
    transition is requested; the run still returns normally. *)
Lemma attachment_failure_counterexample :
  let r := issues_setup Samples.cfg0 Samples.api_upload_500 (Samples.item 1) Samples.st0 in
  fst r = inr tt /\
  List.filter (fun ev => match ev with
                    | EUpload _ _ | EComment _ _ | EGetTransitions _ => true
                    | _ => false
                    end) (trace (snd r)) = [EUpload (JStr "PRJ-1") "a.png"].
Proof. vm_compute. split; reflexivity. Qed.

(* ------------------------------------------------------------------ *)
(** ** The export loop of main.py *)

(** C6 (main.py, lines 210-227).  The progress file is written inside the
    [try]: for an issue whose comments request answers [204], the issue is
    written to the output file, [RedmineExportError] is logged, and the
    progress file is never written, so a resumed run exports the issue
    again.  (The importer's loop, see [import_lines_from_start], writes its
    checkpoint after every line.) *)
Theorem main_loop_skips_progress :
  let r := MainScript.export_loop Samples.env_204 0 [Samples.issue_with_comments]
             (MainScript.mk_mst [] None []) in
  fst r = inr tt /\
  MainScript.out (snd r) = [Samples.issue_with_comments] /\
  MainScript.progress (snd r) = None /\
  In (MainScript.MLog LError "Error processing issue") (MainScript.mtrace (snd r)).
Proof. vm_compute. split; [reflexivity|]. split; [reflexivity|]. split; [reflexivity|]. simpl; tauto. Qed.

Lemma rate_limiter_spacing_witness :
  Forall RateLimiter.reading_ok [(0, 1, 0); (3, 0, 1); (20, 0, 0)] /\
  (RateLimiter.spaced 5
     (0 :: RateLimiter.acquisitions (RateLimiter.mk_limiter 5 0) [(0, 1, 0); (3, 0, 1); (20, 0, 0)]) /\
   (forall t1 : Z,
      hd_error (RateLimiter.acquisitions (RateLimiter.mk_limiter 5 0) [(0, 1, 0); (3, 0, 1); (20, 0, 0)])
        = Some t1 ->
      (Z.of_nat (List.length (RateLimiter.acquisitions (RateLimiter.mk_limiter 5 0)
                                [(0, 1, 0); (3, 0, 1); (20, 0, 0)])) - 1) * 5
        <= List.last (RateLimiter.acquisitions (RateLimiter.mk_limiter 5 0)
                        [(0, 1, 0); (3, 0, 1); (20, 0, 0)]) t1 - t1)).
Proof.
  assert (Hok : Forall RateLimiter.reading_ok [(0, 1, 0); (3, 0, 1); (20, 0, 0)]).
  { repeat constructor; cbn; lia. }
  split; [exact Hok|].
  apply (rate_limiter_spacing (RateLimiter.mk_limiter 5 0) [(0, 1, 0); (3, 0, 1); (20, 0, 0)] Hok).
Defined.

Lemma rate_limiter_with_swallows_witness :
  (@ret unit unit tt) tt = (inr tt, tt) /\
  (@raise unit unit JiraAuthenticationError) tt = (inl JiraAuthenticationError, tt) /\
  with_rate_limiter (ret tt) (raise JiraAuthenticationError) tt = (inr tt, tt).
Proof.
  split; [reflexivity|]. split; [reflexivity|].
  exact (rate_limiter_with_swallows (ret tt) (raise JiraAuthenticationError) tt tt tt
           JiraAuthenticationError eq_refl eq_refl).
Defined.

(* ================================================================== *)
(** * Further properties of the code *)

(* ------------------------------------------------------------------ *)
(** ** [html.escape] *)

Lemma all_chars_app (p : ascii -> bool) (a b : string) :
  all_chars p (a ++ b) = all_chars p a && all_chars p b.
Proof.
  induction a as [|c r IH]; simpl; [reflexivity|]. rewrite IH. apply andb_assoc.
Qed.

(** [html.escape] leaves no [<], [>], double or single quote in its
    output, whatever the input. *)
Theorem html_escape_no_markup (s : string) :
  all_chars (fun c => negb (markup_char c)) (html_escape s) = true.
Proof.
  induction s as [|c r IH]; cbn [html_escape]; [reflexivity|].
  destruct (Ascii.eqb c "&") eqn:E1;
    [rewrite all_chars_app, IH; reflexivity|].
  destruct (Ascii.eqb c "<") eqn:E2;
    [rewrite all_chars_app, IH; reflexivity|].
  destruct (Ascii.eqb c ">") eqn:E3;
    [rewrite all_chars_app, IH; reflexivity|].
  destruct (Ascii.eqb c "034"%char) eqn:E4;
    [rewrite all_chars_app, IH; reflexivity|].
  destruct (Ascii.eqb c "'") eqn:E5;
    [rewrite all_chars_app, IH; reflexivity|].
  cbn [all_chars]. rewrite IH. unfold markup_char. rewrite E2, E3, E4, E5. reflexivity.
Qed.

(** A text without [&], [<], [>] or quotes goes through [html.escape]
    unchanged. *)
Theorem html_escape_plain (s : string) :
  all_chars (fun c => negb (html_special c)) s = true -> html_escape s = s.
Proof.
  induction s as [|c r IH]; simpl; [reflexivity|].
  unfold html_special. intros H.
  destruct (Ascii.eqb c "&"); [discriminate H|].
  destruct (Ascii.eqb c "<"); [discriminate H|].
  destruct (Ascii.eqb c ">"); [discriminate H|].
  destruct (Ascii.eqb c "034"%char); [discriminate H|].
  destruct (Ascii.eqb c "'"); [discriminate H|].
  simpl in H. rewrite IH by exact H. reflexivity.
Qed.

Lemma html_escape_plain_witness :
  all_chars (fun c => negb (html_special c)) "Release 1.2 notes" = true /\
  html_escape "Release 1.2 notes" = "Release 1.2 notes"%string.
Proof.
  split; [reflexivity|]. apply html_escape_plain. reflexivity.
Defined.

(* ------------------------------------------------------------------ *)
(** ** [str.split("\r\n")] *)

Lemma split_crlf_not_nil (s : string) : split_crlf s <> [].
Proof.
  destruct s as [|c r]; simpl; [discriminate|].
  unfold cons_head.
  destruct (Ascii.eqb c CR); [destruct r as [|c2 r2]; [|destruct (Ascii.eqb c2 LF)]|];
    try discriminate;
    match goal with |- match ?l with _ => _ end <> [] => destruct l; discriminate end.
Qed.

Lemma join_crlf_cons (x : string) (l : list string) :
  l <> [] -> join_crlf (x :: l) = (x ++ String CR (String LF (join_crlf l)))%string.
Proof. destruct l; [congruence|reflexivity]. Qed.

Lemma join_crlf_cons_head (c : ascii) (l : list string) :
  l <> [] -> join_crlf (cons_head c l) = String c (join_crlf l).
Proof.
  destruct l as [|x r]; [congruence|]. intros _. simpl.
  destruct r; reflexivity.
Qed.

Lemma join_split_crlf_aux (n : nat) :
  forall s, (String.length s <= n)%nat -> join_crlf (split_crlf s) = s.
Proof.
  induction n as [|n IH]; intros s Hl.
  - destruct s; [reflexivity|simpl in Hl; lia].
  - destruct s as [|c r]; [reflexivity|]. simpl in Hl. simpl split_crlf.
    assert (Hr : join_crlf (split_crlf r) = r) by (apply IH; lia).
    destruct (Ascii.eqb c CR) eqn:Ec.
    + destruct r as [|c2 r2].
      * rewrite join_crlf_cons_head by apply split_crlf_not_nil. rewrite Hr. reflexivity.
      * destruct (Ascii.eqb c2 LF) eqn:E2.
        -- rewrite join_crlf_cons by apply split_crlf_not_nil.
           apply Ascii.eqb_eq in Ec. apply Ascii.eqb_eq in E2. subst.
           simpl in Hl. rewrite (IH r2) by lia. reflexivity.
        -- rewrite join_crlf_cons_head by apply split_crlf_not_nil. rewrite Hr. reflexivity.
    + rewrite join_crlf_cons_head by apply split_crlf_not_nil. rewrite Hr. reflexivity.
Qed.

Lemma join_split_crlf (s : string) : join_crlf (split_crlf s) = s.
Proof. exact (join_split_crlf_aux (String.length s) s (le_n _)). Qed.

Lemma split_crlf_pieces_aux (n : nat) :
  forall s, (String.length s <= n)%nat ->
    Forall (fun p => has_crlf p = false) (split_crlf s) /\
    exists x rest t, split_crlf s = x :: rest /\ s = (x ++ t)%string.
Proof.
  induction n as [|n IH]; intros s Hl.
  - destruct s; [|simpl in Hl; lia].
    split; [repeat constructor|]. exists EmptyString, [], EmptyString. split; reflexivity.
  - destruct s as [|c r].
    + split; [repeat constructor|]. exists EmptyString, [], EmptyString. split; reflexivity.
    + simpl in Hl.
      assert (Hcons : c <> CR \/ (match r with String c2 _ => Ascii.eqb c2 LF | EmptyString => false end) = false ->
                split_crlf (String c r) = cons_head c (split_crlf r) ->
                Forall (fun p => has_crlf p = false) (split_crlf (String c r)) /\
                exists x rest t, split_crlf (String c r) = x :: rest /\ String c r = (x ++ t)%string).
      { intros Hc Hs. rewrite Hs.
        destruct (IH r ltac:(lia)) as [Hf [x [rest [t [Hsr Hr]]]]].
        rewrite Hsr in Hf |- *. cbn [cons_head].
        apply Forall_cons in Hf as [Hx Hrest].
        split.
        - constructor; [|exact Hrest]. cbn [has_crlf]. rewrite Hx, orb_false_r.
          destruct Hc as [Hc|Hc].
          + destruct (Ascii.eqb_spec c CR); [congruence|reflexivity].
          + destruct x as [|c2 x2]; [apply andb_false_r|].
            rewrite Hr in Hc. simpl in Hc. simpl. rewrite Hc. apply andb_false_r.
        - exists (String c x), rest, t. split; [reflexivity|]. rewrite Hr. reflexivity. }
      destruct (Ascii.eqb_spec c CR) as [->|Hc].
      * destruct r as [|c2 r2].
        -- apply Hcons; [right; reflexivity|reflexivity].
        -- destruct (Ascii.eqb c2 LF) eqn:E2.
           ++ cbn [split_crlf]. rewrite Ascii.eqb_refl, E2. simpl in Hl.
              destruct (IH r2 ltac:(lia)) as [Hf _].
              split; [constructor; [reflexivity|exact Hf]|].
              exists EmptyString, (split_crlf r2), (String CR (String c2 r2)). split; reflexivity.
           ++ apply Hcons; [right; first [reflexivity|exact E2]|]. cbn [split_crlf]. rewrite Ascii.eqb_refl, E2. reflexivity.
      * apply Hcons; [left; exact Hc|]. cbn [split_crlf].
        destruct (Ascii.eqb_spec c CR); [congruence|reflexivity].
Qed.

Lemma split_crlf_no_crlf (s : string) : Forall (fun p => has_crlf p = false) (split_crlf s).
Proof. exact (proj1 (split_crlf_pieces_aux (String.length s) s (le_n _))). Qed.

(** [parse_journals] on a journal with a non-empty string [notes] keeps
    the notes and sets its [comments] to [notes.split("\r\n")]: pieces
    that contain no CR LF and that, joined with CR LF, give the notes back. *)
Theorem parse_journal_comments (kvs : list (string * json)) (n : string)
    (Hnotes : assoc "notes" kvs = Some (JStr n)) (Hne : n <> EmptyString)
    (Huser : match assoc "user" kvs with None | Some (JObj _) => true | _ => false end = true) :
  exists entry, Exporter.parse_journal (JObj kvs) = inr (JObj entry) /\
    assoc "notes" entry = Some (JStr n) /\
    assoc "comments" entry = Some (JList (map JStr (split_crlf n))) /\
    join_crlf (split_crlf n) = n /\
    Forall (fun p => has_crlf p = false) (split_crlf n).
Proof.
  unfold Exporter.parse_journal, sbind. cbn [dict_get_v]. rewrite Hnotes.
  assert (Ht : truthy (JStr n) = true).
  { simpl. destruct (String.eqb_spec n EmptyString); [contradiction|reflexivity]. }
  rewrite Ht.
  destruct (assoc "user" kvs) as [[| | | | |ukvs]|]; try discriminate Huser;
    cbn [dict_get_v]; eexists; (split; [reflexivity|]); cbn;
    (split; [reflexivity|]); (split; [reflexivity|]);
    (split; [apply join_split_crlf|apply split_crlf_no_crlf]).
Qed.

Lemma parse_journal_comments_witness :
  let kvs := [("id", JInt 3); ("notes", JStr (String "a" (String CR (String LF "b"))))] in
  exists entry, Exporter.parse_journal (JObj kvs) = inr (JObj entry) /\
    assoc "notes" entry = Some (JStr (String "a" (String CR (String LF "b")))) /\
    assoc "comments" entry = Some (JList (map JStr (split_crlf (String "a" (String CR (String LF "b")))))) /\
    join_crlf (split_crlf (String "a" (String CR (String LF "b")))) = String "a" (String CR (String LF "b")) /\
    Forall (fun p => has_crlf p = false) (split_crlf (String "a" (String CR (String LF "b")))).
Proof.
  intro kvs.
  apply parse_journal_comments; [reflexivity|discriminate|reflexivity].
Defined.

(* ------------------------------------------------------------------ *)
(** ** Reasoning about state and exceptions of monadic code *)

Section Reasoning.

Context {S : Type}.

Lemma keeps_ret (R : S -> S -> Prop) {A} (a : A) :
  (forall s, R s s) -> keeps R (ret a).
Proof. intros Hr s r s' E. injection E as _ <-. apply Hr. Qed.

Lemma keeps_raise (R : S -> S -> Prop) {A} (e : exc) :
  (forall s, R s s) -> keeps R (@raise S A e).
Proof. intros Hr s r s' E. injection E as _ <-. apply Hr. Qed.

Lemma keeps_bind (R : S -> S -> Prop) {A B} (m : M S A) (k : A -> M S B) :
  (forall s1 s2 s3, R s1 s2 -> R s2 s3 -> R s1 s3) ->
  keeps R m -> (forall a, keeps R (k a)) -> keeps R (bind m k).
Proof.
  intros Ht Hm Hk s r s' E. unfold bind in E.
  destruct (m s) as [[e0|a] s0] eqn:Em.
  - injection E as _ <-. exact (Hm _ _ _ Em).
  - exact (Ht _ _ _ (Hm _ _ _ Em) (Hk a _ _ _ E)).
Qed.

Lemma keeps_try (R : S -> S -> Prop) {A} (m : M S A) (p : exc -> bool) (h : exc -> M S A) :
  (forall s1 s2 s3, R s1 s2 -> R s2 s3 -> R s1 s3) ->
  keeps R m -> (forall e, keeps R (h e)) -> keeps R (try_except m p h).
Proof.
  intros Ht Hm Hh s r s' E. unfold try_except in E.
  destruct (m s) as [[e0|a] s0] eqn:Em.
  - destruct (p e0).
    + exact (Ht _ _ _ (Hm _ _ _ Em) (Hh e0 _ _ _ E)).
    + injection E as _ <-. exact (Hm _ _ _ Em).
  - injection E as _ <-. exact (Hm _ _ _ Em).
Qed.

Lemma keeps_lift (R : S -> S -> Prop) {A} (r : exc + A) :
  (forall s, R s s) -> keeps R (lift r).
Proof. intros Hr. destruct r; [apply keeps_raise | apply keeps_ret]; exact Hr. Qed.

Lemma keeps_for_each (R : S -> S -> Prop) {A} (l : list A) (f : A -> M S unit) :
  (forall s, R s s) -> (forall s1 s2 s3, R s1 s2 -> R s2 s3 -> R s1 s3) ->
  (forall x, keeps R (f x)) -> keeps R (for_each l f).
Proof.
  intros Hr Ht Hf. induction l as [|x r IH]; simpl.
  - apply keeps_ret, Hr.
  - apply keeps_bind; [exact Ht | apply Hf | intros _; exact IH].
Qed.

Lemma raises_only_ret (P : exc -> bool) {A} (a : A) : @raises_only S A P (ret a).
Proof. intros s e s' E. discriminate E. Qed.

Lemma raises_only_raise (P : exc -> bool) {A} (e : exc) :
  P e = true -> @raises_only S A P (raise e).
Proof. intros H s e' s' E. injection E as <- _. exact H. Qed.

Lemma raises_only_bind (P : exc -> bool) {A B} (m : M S A) (k : A -> M S B) :
  raises_only P m -> (forall a, raises_only P (k a)) -> raises_only P (bind m k).
Proof.
  intros Hm Hk s e s' E. unfold bind in E.
  destruct (m s) as [[e0|a] s0] eqn:Em.
  - injection E as <- _. exact (Hm _ _ _ Em).
  - exact (Hk a _ _ _ E).
Qed.

Lemma raises_only_try (P : exc -> bool) {A} (m : M S A) (p : exc -> bool) (h : exc -> M S A) :
  raises_only P m -> (forall e, raises_only P (h e)) -> raises_only P (try_except m p h).
Proof.
  intros Hm Hh s e s' E. unfold try_except in E.
  destruct (m s) as [[e0|a] s0] eqn:Em.
  - destruct (p e0).
    + exact (Hh e0 _ _ _ E).
    + injection E as <- _. exact (Hm _ _ _ Em).
  - discriminate E.
Qed.

Lemma raises_only_lift (P : exc -> bool) {A} (r : exc + A) :
  (forall e, r = inl e -> P e = true) -> @raises_only S A P (lift r).
Proof.
  intros H. destruct r as [e|a]; [apply raises_only_raise, H; reflexivity|apply raises_only_ret].
Qed.

Lemma raises_only_for_each (P : exc -> bool) {A} (l : list A) (f : A -> M S unit) :
  (forall x, raises_only P (f x)) -> raises_only P (for_each l f).
Proof.
  intros Hf. induction l as [|x r IH]; simpl.
  - apply raises_only_ret.
  - apply raises_only_bind; [apply Hf | intros _; exact IH].
Qed.

Lemma bind_step {A B} (m : M S A) (k : A -> M S B) s a s1 :
  m s = (inr a, s1) -> bind m k s = k a s1.
Proof. unfold bind; intros H; rewrite H; reflexivity. Qed.

Lemma bind_ret_l {A B} (a : A) (k : A -> M S B) : bind (ret a) k = k a.
Proof. reflexivity. Qed.

Lemma bind_ext {A B} (m : M S A) (k k' : A -> M S B) s :
  (forall a s1, k a s1 = k' a s1) -> bind m k s = bind m k' s.
Proof. intros H; unfold bind; destruct (m s) as [[e|a] s1]; [reflexivity|apply H]. Qed.

End Reasoning.

Lemma getitem_v_exception v k e : getitem_v v k = inl e -> is_Exception e = true.
Proof. destruct v; simpl; try (intros H; injection H as <-; reflexivity).
  destruct (assoc k kvs); intros H; [discriminate H|injection H as <-; reflexivity]. Qed.
Lemma dict_get_v_exception v k d e : dict_get_v v k d = inl e -> is_Exception e = true.
Proof. destruct v; simpl; intros H; try discriminate H; injection H as <-; reflexivity. Qed.
Lemma py_iter_items_exception v e : py_iter_items v = inl e -> is_Exception e = true.
Proof. destruct v; simpl; intros H; try discriminate H; injection H as <-; reflexivity. Qed.
Lemma py_contains_v_exception k v e : py_contains_v k v = inl e -> is_Exception e = true.
Proof. destruct v; simpl; intros H; try discriminate H; injection H as <-; reflexivity. Qed.
Lemma py_len_exception v e : py_len v = inl e -> is_Exception e = true.
Proof. destruct v; simpl; intros H; try discriminate H; injection H as <-; reflexivity. Qed.

Lemma sbind_exception {A B} (r : exc + A) (k : A -> exc + B) :
  (forall e, r = inl e -> is_Exception e = true) ->
  (forall a e, k a = inl e -> is_Exception e = true) ->
  forall e, sbind r k = inl e -> is_Exception e = true.
Proof. intros Hr Hk e. destruct r as [e0|a]; simpl; [intros H; injection H as <-; apply Hr; reflexivity|apply Hk]. Qed.

Lemma parse_journal_exception j e : Exporter.parse_journal j = inl e -> is_Exception e = true.
Proof.
  unfold Exporter.parse_journal. revert e.
  repeat (apply sbind_exception; [try apply dict_get_v_exception|intros ?]).
  - destruct (truthy _); [|discriminate].
    destruct a2; intros e H; try discriminate H; injection H as <-; reflexivity.
  - discriminate.
Qed.

Lemma parse_journals_exception js e : Exporter.parse_journals js = inl e -> is_Exception e = true.
Proof.
  revert e. induction js as [|j r IH]; simpl; [discriminate|].
  apply sbind_exception; [apply parse_journal_exception|intros a].
  apply sbind_exception; [exact IH|discriminate].
Qed.

Lemma returns_ret {S A} (P : A -> Prop) (a : A) : P a -> @returns S A P (ret a).
Proof. intros H s a' s' E. injection E as <- _. exact H. Qed.
Lemma returns_raise {S A} (P : A -> Prop) (e : exc) : @returns S A P (raise e).
Proof. intros s a s' E. discriminate E. Qed.
Lemma returns_bind {S A B} (P : B -> Prop) (m : M S A) (k : A -> M S B) :
  (forall a, returns P (k a)) -> returns P (bind m k).
Proof.
  intros Hk s b s' E. unfold bind in E.
  destruct (m s) as [[e0|a] s0]; [discriminate E|exact (Hk a _ _ _ E)].
Qed.
Lemma returns_try {S A} (P : A -> Prop) (m : M S A) (p : exc -> bool) (h : exc -> M S A) :
  returns P m -> (forall e, returns P (h e)) -> returns P (try_except m p h).
Proof.
  intros Hm Hh s b s' E. unfold try_except in E.
  destruct (m s) as [[e0|a] s0] eqn:Em.
  - destruct (p e0); [exact (Hh e0 _ _ _ E)|discriminate E].
  - injection E as <- _. exact (Hm _ _ _ Em).
Qed.

Module ExporterFacts.

Import Exporter.

Lemma files_kept_refl s : files_kept s s.
Proof. split; reflexivity. Qed.
Lemma files_kept_trans s1 s2 s3 : files_kept s1 s2 -> files_kept s2 s3 -> files_kept s1 s3.
Proof. intros [H1 H2] [H3 H4]. split; congruence. Qed.
Lemma xemit_kept ev : keeps files_kept (xemit ev).
Proof. intros s r s' E. injection E as _ <-. split; reflexivity. Qed.
Lemma xemit_raises ev : raises_only is_Exception (xemit ev).
Proof. intros s e s' E. discriminate E. Qed.

Lemma lift_raises {A} (r : exc + A) :
  (forall e, r = inl e -> is_Exception e = true) -> @raises_only xst A is_Exception (lift r).
Proof. apply raises_only_lift. Qed.

Ltac kept_step :=
  match goal with
  | |- keeps _ (bind _ _) => apply keeps_bind; [exact files_kept_trans| |intros ?]
  | |- keeps _ (try_except _ _ _) => apply keeps_try; [exact files_kept_trans| |intros ?]
  | |- keeps _ (ret _) => apply keeps_ret, files_kept_refl
  | |- keeps _ (raise _) => apply keeps_raise, files_kept_refl
  | |- keeps _ (lift _) => apply keeps_lift, files_kept_refl
  | |- keeps _ (for_each _ _) =>
      apply keeps_for_each; [exact files_kept_refl|exact files_kept_trans|intros ?]
  | |- keeps _ (xemit _) => apply xemit_kept
  | |- keeps _ (xlog _ _) => apply xemit_kept
  | |- keeps _ (xgetitem _ _) => apply keeps_lift, files_kept_refl
  | |- keeps _ (fetch_data _) => unfold fetch_data
  | |- keeps _ (fetch_attachment_content _ _) => unfold fetch_attachment_content
  | |- keeps _ (save_attachment _ _ _) => unfold save_attachment
  | |- keeps _ (match ?x with _ => _ end) => destruct x
  end.

Ltac exc_solve :=
  first [ apply getitem_v_exception | apply dict_get_v_exception
        | apply py_contains_v_exception | apply py_len_exception
        | apply py_iter_items_exception | apply parse_journal_exception
        | apply parse_journals_exception
        | (apply sbind_exception; [exc_solve | intros ?; exc_solve])
        | (let e := fresh "e" in let H := fresh "H" in intros e H; discriminate H) ].

Ltac raises_step :=
  match goal with
  | |- raises_only _ (bind _ _) => apply raises_only_bind; [|intros ?]
  | |- raises_only _ (try_except _ _ _) => apply raises_only_try; [|intros ?]
  | |- raises_only _ (ret _) => apply raises_only_ret
  | |- raises_only _ (raise _) => apply raises_only_raise; reflexivity
  | |- raises_only _ (for_each _ _) => apply raises_only_for_each; intros ?
  | |- raises_only _ (xemit _) => apply xemit_raises
  | |- raises_only _ (xlog _ _) => apply xemit_raises
  | |- raises_only _ (xgetitem _ _) => apply lift_raises; apply getitem_v_exception
  | |- raises_only _ (lift _) => apply lift_raises; exc_solve
  | |- raises_only _ (fetch_data _) => unfold fetch_data
  | |- raises_only _ (fetch_attachment_content _ _) => unfold fetch_attachment_content
  | |- raises_only _ (save_attachment _ _ _) => unfold save_attachment
  | |- raises_only _ (match ?x with _ => _ end) => destruct x
  end.

Ltac returns_step :=
  match goal with
  | |- returns _ (bind _ _) => apply returns_bind; intros ?
  | |- returns _ (try_except _ _ _) => apply returns_try; [|intros ?]
  | |- returns _ (ret _) => apply returns_ret; reflexivity
  | |- returns _ (raise _) => apply returns_raise
  | |- returns _ (match ?x with _ => _ end) => destruct x
  end.

Lemma journals_loop_kept js acc : keeps files_kept (journals_loop js acc).
Proof. revert acc; induction js as [|j r IH]; intros acc; simpl; repeat kept_step; apply IH. Qed.

Lemma journals_loop_raises js acc : raises_only is_Exception (journals_loop js acc).
Proof. revert acc; induction js as [|j r IH]; intros acc; simpl; repeat raises_step; apply IH. Qed.

Lemma fetch_journals_kept E id : keeps files_kept (fetch_journals E id).
Proof. unfold fetch_journals; repeat (kept_step || apply journals_loop_kept). Qed.

Lemma fetch_journals_raises E id : raises_only is_Exception (fetch_journals E id).
Proof. unfold fetch_journals; repeat (raises_step || apply journals_loop_raises). Qed.

Lemma fetch_attachments_kept E id : keeps files_kept (fetch_attachments E id).
Proof. unfold fetch_attachments; repeat kept_step. Qed.

Lemma fetch_attachments_raises E id : raises_only is_Exception (fetch_attachments E id).
Proof. unfold fetch_attachments; repeat raises_step. Qed.

Lemma fetch_attachments_returns E id : returns (fun v => v = JNull) (fetch_attachments E id).
Proof. unfold fetch_attachments; repeat returns_step. Qed.


Lemma xgetitem_ok v k x : getitem_v v k = inr x -> xgetitem v k = ret x.
Proof. unfold xgetitem. intros H; rewrite H; reflexivity. Qed.

Lemma export_data_issue E kvs id a j s :
  assoc "id" kvs = Some id ->
  exists s', export_data E (JObj [("issue", JObj kvs); ("attachments", a); ("journals", j)]) s = (inr tt, s')
    /\ progress s' = progress s
    /\ out s' = (if write_ok E then out s ++ [JObj [("issue", JObj kvs); ("attachments", a); ("journals", j)]] else out s)%list.
Proof.
  intros Hid.
  assert (H1 : getitem_v (JObj [("issue", JObj kvs); ("attachments", a); ("journals", j)]) "issue"
               = inr (JObj kvs)) by reflexivity.
  assert (H2 : getitem_v (JObj kvs) "id" = inr id) by (simpl; rewrite Hid; reflexivity).
  unfold export_data, fmt_data_id.
  rewrite (xgetitem_ok _ _ _ H1), bind_ret_l, (xgetitem_ok _ _ _ H2).
  unfold try_except, bind, lift, xlog, xemit, ret, raise.
  destruct (write_ok E); cbn; eexists; (split; [reflexivity|split; reflexivity]).
Qed.

Lemma process_issue_outcome E kvs id s :
  assoc "id" kvs = Some id ->
  exists s', process_issue E (JObj kvs) s = (inr tt, s')
    /\ progress s' = progress s
    /\ (out s' = out s \/
        exists j s1, fetch_journals E id s = (inr j, s1) /\
          out s' = (out s ++ [JObj [("issue", JObj kvs);
                   ("attachments", match attachments_listing E id with
                                   | Some names => JList (map JStr names) | None => JNull end);
                   ("journals", j)]])%list).
Proof.
  intros Hid.
  assert (Hg : xgetitem (JObj kvs) "id" = ret id) by (apply xgetitem_ok; simpl; rewrite Hid; reflexivity).
  unfold process_issue. rewrite Hg.
  unfold prepare_issue_data, try_except, bind, ret, raise, xlog, xemit, lift.
  cbv beta iota.
  destruct (fetch_journals E id s) as [[e|j] s1] eqn:Ej; cbv beta iota.
  - rewrite (fetch_journals_raises E id s e s1 Ej). cbv beta iota.
    destruct (fetch_journals_kept E id s _ _ Ej) as [K1 K2].
    eexists; split; [reflexivity|]. simpl. split; [exact K2|left; exact K1].
  - destruct (fetch_journals_kept E id s _ _ Ej) as [K1 K2].
    match goal with |- context [fetch_attachments E id ?st] =>
      destruct (fetch_attachments E id st) as [[e2|a] s2] eqn:Ea;
      destruct (fetch_attachments_kept E id st _ _ Ea) as [K3 K4] end;
    cbv beta iota.
    + rewrite (fetch_attachments_raises E id _ _ _ Ea). cbv beta iota.
      eexists; split; [reflexivity|]. simpl in *. split; [congruence|left; congruence].
    + pose proof (fetch_attachments_returns E id _ _ _ Ea) as Ha. cbv beta in Ha. subst a.
      cbn [py_contains_v]. rewrite Hid. cbv beta iota.
      cbv beta iota delta [ret negb].
      destruct (export_data_issue E kvs id
                  (match attachments_listing E id with
                   | Some names => JList (map JStr names) | None => JNull end) j s2 Hid)
        as [s3 [E3 [P3 O3]]].
      rewrite E3. cbv beta iota. eexists; split; [reflexivity|]. split; [congruence|].
      destruct (write_ok E); [right; exists j, s1; split; [reflexivity|]|left]; congruence.
Qed.


Lemma run_from_stops E i l kvs rest s :
  assoc "id" kvs = None ->
  run_from E i (l ++ JObj kvs :: rest) s = run_from E i (l ++ [JObj kvs]) s.
Proof.
  intros Hn. revert i s; induction l as [|x l IH]; intros i s; cbn [run_from app].
  - unfold xgetitem, bind, lift, getitem_v. rewrite Hn. reflexivity.
  - do 5 (apply bind_ext; intros ? ?). apply IH.
Qed.

Lemma run_loop_stops E k l kvs rest s :
  assoc "id" kvs = None -> (k <= length l)%nat ->
  run_loop E k (l ++ JObj kvs :: rest) s = run_loop E k (l ++ [JObj kvs]) s.
Proof.
  intros Hn Hk. unfold run_loop.
  rewrite !skipn_app. replace (k - length l)%nat with 0%nat by lia. cbn [skipn].
  unfold bind, try_except. rewrite run_from_stops by exact Hn. reflexivity.
Qed.

Lemma run_from_all E i issues s :
  write_ok E = true -> Forall has_id issues ->
  exists s', run_from E i issues s = (inr tt, s')
    /\ progress s' = match issues with
                     | [] => progress s
                     | _ => Some (py_str_int (i + Z.of_nat (length issues) - 1))
                     end
    /\ exists lines, out s' = (out s ++ lines)%list /\ (length lines <= length issues)%nat.
Proof.
  intros Hw Hall. revert i s; induction Hall as [|x r [kvs [id [-> Hid]]] Hr IH]; intros i s.
  - exists s. split; [reflexivity|]. split; [reflexivity|]. exists []. rewrite app_nil_r. split; [reflexivity|lia].
  - cbn [run_from].
    assert (Hg : xgetitem (JObj kvs) "id" = ret id) by (apply xgetitem_ok; simpl; rewrite Hid; reflexivity).
    rewrite Hg, bind_ret_l.
    erewrite bind_step by reflexivity.
    match goal with |- context [bind (process_issue E (JObj kvs)) _ ?st] =>
      destruct (process_issue_outcome E kvs id st Hid) as [s2 [E2 [P2 O2]]] end.
    erewrite bind_step by exact E2.
    erewrite bind_step by reflexivity.
    unfold save_progress. rewrite Hw.
    erewrite bind_step by reflexivity.
    match goal with |- context [run_from E (i + 1) r ?st] =>
      destruct (IH (i + 1) st) as [s3 [E3 [P3 [lines [O3 L3]]]]] end.
    rewrite E3. exists s3. split; [reflexivity|]. split.
    + rewrite P3. destruct r; simpl; [f_equal; f_equal; lia|].
      f_equal; f_equal. simpl length. lia.
    + simpl in O3, O2. destruct O2 as [O2|[j O2]].
      * exists lines. split; [rewrite O3, O2; reflexivity|simpl; lia].
      * destruct O2 as [s1 [_ O2]].
        eexists (_ :: lines). split; [rewrite O3, O2, <- app_assoc; reflexivity|simpl; lia].
Qed.

Lemma run_loop_all E k issues s :
  write_ok E = true -> Forall has_id issues -> (k < length issues)%nat ->
  exists s', run_loop E k issues s = (inr tt, s')
    /\ progress s' = Some (py_str_int (Z.of_nat (length issues)))
    /\ exists lines, out s' = (out s ++ lines)%list /\ (length lines <= length issues - k)%nat.
Proof.
  intros Hw Hall Hk. unfold run_loop.
  destruct (run_from_all E (Z.of_nat k + 1) (skipn k issues) s Hw (Forall_drop _ _ _ Hall))
    as [s1 [E1 [P1 [lines [O1 L1]]]]].
  unfold try_except. erewrite bind_step by (rewrite E1; reflexivity).
  eexists. split; [reflexivity|]. split.
  - simpl. rewrite P1. rewrite length_skipn.
    destruct (skipn k issues) eqn:Hs.
    + apply (f_equal (@length json)) in Hs. rewrite length_skipn in Hs. simpl in Hs. lia.
    + f_equal; f_equal. lia.
  - exists lines. rewrite length_skipn in L1. split; [exact O1|lia].
Qed.

Lemma journals_loop_value js acc s :
  exists s', journals_loop js acc s =
             (inr (acc ++ flat_map (fun j => match parse_journal j with
                                             | inr entry => [entry] | inl _ => [] end) js)%list, s')
             /\ files_kept s s'.
Proof.
  revert acc s; induction js as [|j r IH]; intros acc s.
  - exists s. rewrite app_nil_r. split; [reflexivity|apply files_kept_refl].
  - cbn [journals_loop flat_map].
    unfold bind, xlog, xemit, try_except, lift, ret, raise.
    cbn [parse_journals sbind].
    destruct (parse_journal j) as [e|entry] eqn:Hp; cbv beta iota delta [sbind].
    + rewrite (parse_journal_exception j e Hp).
      edestruct IH as [s' [E1 K]]. rewrite E1. exists s'. split; [reflexivity|].
      destruct K as [K1 K2]; split; simpl in *; congruence.
    + edestruct IH as [s' [E1 K]]. rewrite E1. exists s'. split; [rewrite <- app_assoc; reflexivity|].
      destruct K as [K1 K2]; split; simpl in *; congruence.
Qed.

Lemma fetch_journals_parsed_ok E id s dkvs ikvs js :
  Pagination.fetch_data (issue_endpoint E id "journals") = Some (JObj dkvs) ->
  assoc "issue" dkvs = Some (JObj ikvs) ->
  dict_get_v (JObj ikvs) "journals" (JList []) = inr (JList js) ->
  exists s', fetch_journals E id s =
             (inr (JList (flat_map (fun j => match parse_journal j with
                                             | inr entry => [entry] | inl _ => [] end) js)), s')
             /\ files_kept s s'.
Proof.
  intros Hf Hi Hj.
  unfold fetch_journals, Exporter.fetch_data. rewrite Hf.
  unfold bind, xemit, xlog, xgetitem, lift, ret, raise.
  cbn [py_contains_v getitem_v]. rewrite Hi. cbn [negb]. rewrite Hj.
  cbn [py_len py_iter_items].
  unfold xemit at 1. cbv beta iota.
  match goal with |- context [journals_loop js [] ?st] =>
    destruct (journals_loop_value js [] st) as [s1 [E1 [K1 K2]]] end.
  rewrite E1. unfold xemit. eexists. split; [reflexivity|]. split; simpl in *; congruence.
Qed.

Lemma fetch_journals_none E id s :
  Pagination.fetch_data (issue_endpoint E id "journals") = None \/
  (exists dkvs, Pagination.fetch_data (issue_endpoint E id "journals") = Some (JObj dkvs)
                /\ assoc "issue" dkvs = None) ->
  exists s', fetch_journals E id s = (inr JNull, s') /\ files_kept s s'.
Proof.
  intros [H|[dkvs [H Hi]]]; unfold fetch_journals, Exporter.fetch_data; rewrite H;
    unfold bind, xemit, xlog, ret, lift; cbn [py_contains_v]; [|rewrite Hi]; cbv beta iota delta [negb];
    eexists; (split; [reflexivity|split; reflexivity]).
Qed.

End ExporterFacts.

Module ExporterRun.

Import Exporter ExporterFacts.

(** [fetch_journals] ([_exporter.py] lines 167-193): when the request
    succeeds with a dictionary whose ["issue"] is a dictionary with
    [issue.get("journals", [])] a list [js], the result is the list of the
    entries of the journals of [js] that parse, in order (a journal whose
    parsing raises is skipped), and no file is written. *)
Theorem fetch_journals_parsed E id s dkvs ikvs js :
  Pagination.fetch_data (issue_endpoint E id "journals") = Some (JObj dkvs) ->
  assoc "issue" dkvs = Some (JObj ikvs) ->
  dict_get_v (JObj ikvs) "journals" (JList []) = inr (JList js) ->
  exists s', fetch_journals E id s =
             (inr (JList (flat_map (fun j => match parse_journal j with
                                             | inr entry => [entry] | inl _ => [] end) js)), s')
             /\ files_kept s s'.
Proof. apply fetch_journals_parsed_ok. Qed.

Lemma fetch_journals_parsed_witness :
  let E := mk_env (fun _ _ => Reply 200 (Some (JObj [("issue", JObj [("journals",
                     JList [JObj [("id", JInt 7); ("notes", JStr "hi")]; JInt 3])])])))
                  (fun _ => NetFail) (fun _ => None) true in
  exists s', fetch_journals E (JInt 1) (mk_xst [] None []) =
    (inr (JList (flat_map (fun j => match parse_journal j with
                                    | inr entry => [entry] | inl _ => [] end)
                 [JObj [("id", JInt 7); ("notes", JStr "hi")]; JInt 3])), s')
    /\ files_kept (mk_xst [] None []) s'.
Proof.
  intros E.
  apply (fetch_journals_parsed E (JInt 1) (mk_xst [] None [])
           [("issue", JObj [("journals", JList [JObj [("id", JInt 7); ("notes", JStr "hi")]; JInt 3])])]
           [("journals", JList [JObj [("id", JInt 7); ("notes", JStr "hi")]; JInt 3])]
           [JObj [("id", JInt 7); ("notes", JStr "hi")]; JInt 3]); reflexivity.
Defined.

(** [fetch_journals] returns [None] without writing any file when the
    request fails or the reply has no ["issue"] key. *)
Theorem fetch_journals_missing E id s :
  Pagination.fetch_data (issue_endpoint E id "journals") = None \/
  (exists dkvs, Pagination.fetch_data (issue_endpoint E id "journals") = Some (JObj dkvs)
                /\ assoc "issue" dkvs = None) ->
  exists s', fetch_journals E id s = (inr JNull, s') /\ files_kept s s'.
Proof. apply fetch_journals_none. Qed.

Lemma fetch_journals_missing_witness :
  let E := mk_env (fun _ _ => Reply 404 None) (fun _ => NetFail) (fun _ => None) true in
  exists s', fetch_journals E (JInt 1) (mk_xst [] None []) = (inr JNull, s')
             /\ files_kept (mk_xst [] None []) s'.
Proof. intros E. apply fetch_journals_missing. left. reflexivity. Defined.

(** [process_issue] ([_exporter.py] lines 302-337) on a dictionary with an
    ["id"] returns normally, leaves the progress file alone, and appends at
    most one line to the output file: the dictionary with the issue, the
    attachments ([os.listdir] of the attachment directory when it exists,
    [None] otherwise) and the journals, the value [fetch_journals(issue["id"])]
    returned. *)
Theorem process_issue_one_line E kvs id s :
  assoc "id" kvs = Some id ->
  exists s', process_issue E (JObj kvs) s = (inr tt, s')
    /\ progress s' = progress s
    /\ (out s' = out s \/
        exists j s1, fetch_journals E id s = (inr j, s1) /\
          out s' = (out s ++ [JObj [("issue", JObj kvs);
                   ("attachments", match attachments_listing E id with
                                   | Some names => JList (map JStr names) | None => JNull end);
                   ("journals", j)]])%list).
Proof. apply process_issue_outcome. Qed.

Lemma process_issue_one_line_witness :
  let E := mk_env (fun _ _ => NetFail) (fun _ => NetFail) (fun _ => Some ["a.png"]) true in
  exists s', process_issue E (JObj [("id", JInt 5)]) (mk_xst [] None []) = (inr tt, s')
    /\ progress s' = progress (mk_xst [] None [])
    /\ (out s' = out (mk_xst [] None []) \/
        exists j s1, fetch_journals E (JInt 5) (mk_xst [] None []) = (inr j, s1) /\
          out s' = (out (mk_xst [] None []) ++ [JObj [("issue", JObj [("id", JInt 5)]);
                   ("attachments", match attachments_listing E (JInt 5) with
                                   | Some names => JList (map JStr names) | None => JNull end);
                   ("journals", j)]])%list).
Proof. intros E. apply process_issue_one_line. reflexivity. Defined.

(** The export loop of [run] ([_exporter.py] lines 422-436) stops at the
    first issue without an ["id"] key: the issues after it make no
    difference, whatever they are. *)
Theorem run_loop_stops_at_missing_id E k l kvs rest s :
  assoc "id" kvs = None -> (k <= length l)%nat ->
  run_loop E k (l ++ JObj kvs :: rest) s = run_loop E k (l ++ [JObj kvs]) s.
Proof.
  intros Hn Hk. unfold run_loop.
  rewrite !skipn_app. replace (k - length l)%nat with 0%nat by lia. cbn [skipn].
  unfold bind, try_except. rewrite run_from_stops by exact Hn. reflexivity.
Qed.

Lemma run_loop_stops_at_missing_id_witness :
  let E := mk_env (fun _ _ => NetFail) (fun _ => NetFail) (fun _ => None) true in
  run_loop E 0 ([JObj [("id", JInt 1)]] ++ JObj [("subject", JStr "x")] :: [JObj [("id", JInt 3)]])
    (mk_xst [] None []) =
  run_loop E 0 ([JObj [("id", JInt 1)]] ++ [JObj [("subject", JStr "x")]]) (mk_xst [] None []).
Proof. intros E. apply run_loop_stops_at_missing_id; [reflexivity|simpl; lia]. Defined.

(** When every issue has an ["id"] and the files can be written, the
    export loop started at index [k < len(issues)] returns normally, leaves
    [str(len(issues))] in the progress file, and appends at most one output
    line per issue from index [k] on. *)
Theorem run_loop_completes E k issues s :
  write_ok E = true -> Forall has_id issues -> (k < length issues)%nat ->
  exists s', run_loop E k issues s = (inr tt, s')
    /\ progress s' = Some (py_str_int (Z.of_nat (length issues)))
    /\ exists lines, out s' = (out s ++ lines)%list /\ (length lines <= length issues - k)%nat.
Proof. apply run_loop_all. Qed.

Lemma run_loop_completes_witness :
  let E := mk_env (fun _ _ => NetFail) (fun _ => NetFail) (fun _ => None) true in
  exists s', run_loop E 1 [JObj [("id", JInt 1)]; JObj [("id", JInt 2)]] (mk_xst [] None []) = (inr tt, s')
    /\ progress s' = Some (py_str_int 2)
    /\ exists lines, out s' = (out (mk_xst [] None []) ++ lines)%list /\ (length lines <= 2 - 1)%nat.
Proof.
  intros E. apply (run_loop_completes E 1 [JObj [("id", JInt 1)]; JObj [("id", JInt 2)]]).
  - reflexivity.
  - repeat constructor; (eexists _, _; split; reflexivity).
  - simpl; lia.
Defined.

End ExporterRun.

(* ------------------------------------------------------------------ *)
(** ** The exporter's query parameters and file names *)

Module ExporterParamsFacts.

Lemma status_map_identity z :
  ExporterParams.map_get ExporterParams.status_map z (py_str_int z) = py_str_int z.
Proof.
  cbn [ExporterParams.map_get ExporterParams.status_map].
  repeat match goal with |- context [Z.eqb z ?n] => destruct (Z.eqb_spec z n) as [->|?] end;
  reflexivity.
Qed.

Lemma priority_map_identity z :
  ExporterParams.map_get ExporterParams.priority_map z (py_str_int z) = py_str_int z.
Proof.
  cbn [ExporterParams.map_get ExporterParams.priority_map].
  repeat match goal with |- context [Z.eqb z ?n] => destruct (Z.eqb_spec z n) as [->|?] end;
  reflexivity.
Qed.

Lemma replace_char_no_space a s :
  Ascii.eqb a " " = false ->
  all_chars (fun c => negb (Ascii.eqb c " ")) (replace_char " " a s) = true.
Proof.
  intros Ha. induction s as [|c r IH]; [reflexivity|]. cbn [replace_char all_chars].
  rewrite IH, andb_true_r. destruct (Ascii.eqb c " ") eqn:Hc; [rewrite Ha|rewrite Hc]; reflexivity.
Qed.

Lemma string_app_inj_l (a x y : string) : (a ++ x)%string = (a ++ y)%string -> x = y.
Proof. induction a as [|c r IH]; simpl; [auto|]. intros H; injection H; auto. Qed.

(** [fetch_issues] ([_exporter.py] lines 136-165) for a non-empty project
    name and integer [status] and [priority]: the query holds the API key,
    the HTML-escaped project, [str(status)] as [status_id] (also for a
    status of [0]), [str(priority)] as [priority_id] only for a non-zero
    priority, and the page size, in this order. *)
Theorem fetch_issues_params_project_query key max p st q :
  p <> EmptyString ->
  Exporter.fetch_issues_params key max (JStr p) (JInt st) (JInt q) =
  inr ([("key", JStr key); ("project_id", JStr (html_escape p));
        ("status_id", JStr (py_str_int st))]
       ++ (if (q =? 0)%Z then [] else [("priority_id", JStr (py_str_int q))])
       ++ [("limit", JInt max)])%list.
Proof.
  intros Hp. unfold Exporter.fetch_issues_params. cbn [negb truthy].
  destruct (String.eqb_spec p EmptyString) as [->|_]; [congruence|]. cbn [negb].
  unfold int_map_get, sanitize_input, py_str_intlike. rewrite status_map_identity.
  destruct (q =? 0)%Z eqn:Hq; cbn [negb]; [reflexivity|].
  rewrite priority_map_identity. reflexivity.
Qed.

Lemma fetch_issues_params_project_query_witness :
  "a<b" <> EmptyString /\
  Exporter.fetch_issues_params "k" 100 (JStr "a<b") (JInt 0) (JInt 0) =
  inr ([("key", JStr "k"); ("project_id", JStr (html_escape "a<b"));
        ("status_id", JStr (py_str_int 0))]
       ++ (if (0 =? 0)%Z then [] else [("priority_id", JStr (py_str_int 0))])
       ++ [("limit", JInt 100)])%list.
Proof. split; [discriminate|]. apply fetch_issues_params_project_query. discriminate. Defined.

(** The output and progress file names built by [run] ([_exporter.py]
    lines 376-382) contain no space, and they differ. *)
Theorem run_file_names_distinct project status_id :
  let '(output_file, progress_file) := Exporter.run_file_names project status_id in
  all_chars (fun c => negb (Ascii.eqb c " ")) output_file = true /\
  all_chars (fun c => negb (Ascii.eqb c " ")) progress_file = true /\
  output_file <> progress_file.
Proof.
  unfold Exporter.run_file_names.
  split; [|split].
  - rewrite !all_chars_app, !replace_char_no_space by reflexivity. reflexivity.
  - rewrite !all_chars_app, !replace_char_no_space by reflexivity. reflexivity.
  - intros H. apply string_app_inj_l in H. injection H as H. apply string_app_inj_l in H.
    apply string_app_inj_l in H. discriminate H.
Qed.

End ExporterParamsFacts.

(* ------------------------------------------------------------------ *)
(** ** Further properties of the importer *)

Module ImporterFacts.

Import Importer.

Lemma assoc_assoc_set_eq k v kvs : assoc k (assoc_set k v kvs) = Some v.
Proof.
  induction kvs as [|[k' v'] r IH]; simpl.
  - rewrite String.eqb_refl. reflexivity.
  - destruct (String.eqb_spec k k') as [->|Hne]; simpl.
    + rewrite String.eqb_refl. reflexivity.
    + destruct (String.eqb_spec k k'); [congruence|exact IH].
Qed.

Lemma assoc_assoc_set_neq k k2 v kvs :
  k2 <> k -> assoc k2 (assoc_set k v kvs) = assoc k2 kvs.
Proof.
  intros Hk. induction kvs as [|[k' v'] r IH]; simpl.
  - destruct (String.eqb_spec k2 k); [congruence|reflexivity].
  - destruct (String.eqb_spec k k') as [->|Hne]; simpl.
    + destruct (String.eqb_spec k2 k'); [congruence|reflexivity].
    + destruct (String.eqb_spec k2 k'); [reflexivity|exact IH].
Qed.

Lemma set_field_value_sets field_name value tbl m s :
  lookup_fmap field_name tbl = Some m ->
  exists s', set_field_value field_name value tbl s = (inr tt, s')
    /\ if validate_input value (ftype m)
       then assoc (mapping m) (fields s') =
              Some (if sanitize m then sanitize_input value else value)
            /\ (forall k, k <> mapping m -> assoc k (fields s') = assoc k (fields s))
       else fields s' = fields s.
Proof.
  intros Hl. unfold set_field_value. rewrite Hl.
  destruct (validate_input value (ftype m)); cbn [negb].
  - unfold set_field, bind, get_fields, set_fields. eexists. split; [reflexivity|].
    cbn [fields]. split; [apply assoc_assoc_set_eq|].
    intros k Hk. apply assoc_assoc_set_neq, Hk.
  - eexists. split; reflexivity.
Qed.

Lemma replace_spaces_no_space t :
  all_chars (fun c => negb (Ascii.eqb c " ")) (replace_spaces t) = true.
Proof.
  induction t as [|c r IH]; [reflexivity|]. cbn [replace_spaces all_chars].
  rewrite IH, andb_true_r. destruct (Ascii.eqb c " ") eqn:Hc; [reflexivity|rewrite Hc; reflexivity].
Qed.

Lemma import_lines_past cfg jira c c' l lines s :
  c < l ->
  import_lines cfg jira true c l lines s = import_lines cfg jira false c' l lines s.
Proof.
  revert c c' l s; induction lines as [|x r IH]; intros c c' l s Hl; [reflexivity|].
  cbn [import_lines]. replace (l <=? c)%Z with false by lia. cbn [andb].
  unfold bind. destruct (try_except _ _ _ s) as [[e|u] s1]; [reflexivity|].
  destruct (write_checkpoint (py_str_int l) s1) as [[e|u'] s2]; [reflexivity|].
  apply IH. lia.
Qed.

Lemma import_lines_resume cfg jira n m lines s :
  (m <= n)%nat ->
  import_lines cfg jira true (Z.of_nat n) (Z.of_nat m + 1) lines s =
  import_lines cfg jira false 0 (Z.of_nat n + 1) (skipn (n - m) lines) s.
Proof.
  revert m s; induction lines as [|x r IH]; intros m s Hm.
  - rewrite skipn_nil. reflexivity.
  - destruct (Nat.eq_dec m n) as [->|Hne].
    + rewrite Nat.sub_diag. cbn [skipn]. apply import_lines_past. lia.
    + cbn [import_lines]. replace (Z.of_nat m + 1 <=? Z.of_nat n)%Z with true by lia. cbn [andb].
      replace (n - m)%nat with (S (n - S m)) by lia. cbn [skipn].
      replace (Z.of_nat m + 1 + 1) with (Z.of_nat (S m) + 1) by lia.
      apply IH. lia.
Qed.

Lemma trace_ext_refl s : trace_ext s s.
Proof. exists []. rewrite app_nil_r. reflexivity. Qed.

Lemma trace_ext_trans s1 s2 s3 : trace_ext s1 s2 -> trace_ext s2 s3 -> trace_ext s1 s3.
Proof. intros [a Ha] [b Hb]. exists (a ++ b)%list. rewrite Hb, Ha, app_assoc. reflexivity. Qed.

Lemma emit_ext ev : keeps trace_ext (emit ev).
Proof. intros s r s' E. injection E as _ <-. exists [ev]. reflexivity. Qed.

Ltac ext_step :=
  match goal with
  | |- keeps _ (bind _ _) => apply keeps_bind; [exact trace_ext_trans| |intros ?]
  | |- keeps _ (try_except _ _ _) => apply keeps_try; [exact trace_ext_trans| |intros ?]
  | |- keeps _ (ret _) => apply keeps_ret, trace_ext_refl
  | |- keeps _ (raise _) => apply keeps_raise, trace_ext_refl
  | |- keeps _ (lift _) => apply keeps_lift, trace_ext_refl
  | |- keeps _ (emit _) => apply emit_ext
  | |- keeps _ (log _ _) => apply emit_ext
  | |- keeps _ (check_status _) => unfold check_status
  | |- keeps _ (handle_http_error _) => unfold handle_http_error
  | |- keeps _ (match ?x with _ => _ end) => destruct x
  end.

Lemma try_emit_first {A} ev (rest : IM A) p h s :
  keeps trace_ext rest -> (forall e, keeps trace_ext (h e)) ->
  exists r s' evs, try_except (emit ev ;; rest) p h s = (r, s')
    /\ trace s' = (trace s ++ ev :: evs)%list.
Proof.
  intros Hr Hh. unfold try_except, bind at 1, emit at 1.
  set (s1 := mk_st (trace s ++ [ev]) (fields s) (jira_issue_key s) (checkpoint_file s)).
  destruct (rest s1) as [r1 s2] eqn:E1.
  destruct (Hr _ _ _ E1) as [evs1 H1].
  destruct r1 as [e|a].
  - destruct (p e).
    + destruct (h e s2) as [r3 s3] eqn:E3. destruct (Hh e _ _ _ E3) as [evs3 H3].
      exists r3, s3, (evs1 ++ evs3)%list. split; [reflexivity|].
      rewrite H3, H1. simpl. rewrite <- !app_assoc. reflexivity.
    + exists (inl e), s2, evs1. split; [reflexivity|]. rewrite H1. simpl. rewrite <- app_assoc. reflexivity.
  - exists (inr a), s2, evs1. split; [reflexivity|]. rewrite H1. simpl. rewrite <- app_assoc. reflexivity.
Qed.

End ImporterFacts.

(* ------------------------------------------------------------------ *)
(** ** Attachment uploads inside [issues_setup] *)

Lemma bind_raise_step {S A B} (m : M S A) (k : A -> M S B) s e s1 :
  m s = (inl e, s1) -> bind m k s = (inl e, s1).
Proof. unfold bind; intros H; rewrite H; reflexivity. Qed.

Lemma getitem_step v k x s : getitem_v v k = inr x -> getitem v k s = (inr x, s).
Proof. unfold getitem, lift; intros ->; reflexivity. Qed.

Lemma dict_get_step v k x s : dict_get_v v k JNull = inr x -> dict_get v k s = (inr x, s).
Proof. unfold dict_get, lift; intros ->; reflexivity. Qed.

Lemma for_each_app_ok {S A} (l1 l2 : list A) (f : A -> M S unit) s s1 :
  for_each l1 f s = (inr tt, s1) -> for_each (l1 ++ l2) f s = for_each l2 f s1.
Proof.
  revert s; induction l1 as [|x r IH]; intros s H; simpl in *.
  - injection H as <-. reflexivity.
  - unfold bind in *. destruct (f x s) as [[e|[]] s0]; [discriminate H|]. apply IH, H.
Qed.

Lemma ext_by_refl P s : trace_ext_by P s s.
Proof. exists []. rewrite app_nil_r. split; reflexivity. Qed.

Lemma ext_by_trans P s1 s2 s3 : trace_ext_by P s1 s2 -> trace_ext_by P s2 s3 -> trace_ext_by P s1 s3.
Proof.
  intros [a [Ha Pa]] [b [Hb Pb]]. exists (a ++ b)%list. rewrite Hb, Ha, app_assoc.
  split; [reflexivity|]. rewrite forallb_app, Pa, Pb. reflexivity.
Qed.

Lemma log_ext_by l msg : keeps (trace_ext_by is_log_event) (log l msg).
Proof. intros s r s' E. injection E as _ <-. exists [ELog l msg]. split; reflexivity. Qed.

Lemma get_key_ext_by P : keeps (trace_ext_by P) get_key.
Proof. intros s r s' E. injection E as _ <-. apply ext_by_refl. Qed.

Ltac log_step :=
  match goal with
  | |- keeps _ (bind _ _) => apply keeps_bind; [exact (ext_by_trans _)| |intros ?]
  | |- keeps _ (ret _) => apply keeps_ret, ext_by_refl
  | |- keeps _ (raise _) => apply keeps_raise, ext_by_refl
  | |- keeps _ (lift _) => apply keeps_lift, ext_by_refl
  | |- keeps _ (getitem _ _) => apply keeps_lift, ext_by_refl
  | |- keeps _ (log _ _) => apply log_ext_by
  | |- keeps _ get_key => apply get_key_ext_by
  | |- keeps _ (fmt_issue_id _) => unfold fmt_issue_id
  | |- keeps _ (handle_http_error _) => unfold handle_http_error
  | |- keeps _ (if ?b then _ else _) => destruct b
  | |- keeps _ (match ?x with _ => _ end) => destruct x
  end.

Lemma attachment_step_upload_ok cfg jira key kvs ikvs iid name s :
  assoc "issue" kvs = Some (JObj ikvs) -> assoc "id" ikvs = Some iid ->
  upload_attempted cfg iid name = true ->
  upload_fails (upload_attachment jira key (html_escape name)) = false ->
  attachment_step cfg jira key (JObj kvs) (JStr name) s =
    (inr tt, mk_st (trace s ++ [EUpload key (html_escape name)]) (fields s) (jira_issue_key s)
                   (checkpoint_file s)).
Proof.
  intros Hissue Hid Hup Hok.
  unfold upload_attempted in Hup.
  destruct (attachment_file_size cfg iid name) as [size|] eqn:Hsize; [|discriminate].
  destruct (py_int (maximum_file_size cfg)) as [|max] eqn:Hmax; [discriminate|].
  apply andb_prop in Hup as [Hle Hallowed]. apply Bool.negb_true_iff in Hle.
  unfold attachment_step, getitem, bind, lift, ret, raise. simpl.
  rewrite Hissue. simpl. rewrite Hid, Hsize, Hmax, Hle, Hallowed. simpl.
  unfold try_http_or_exception, try_except, emit.
  destruct (upload_attachment jira key (html_escape name)) as [code body|]; [|discriminate Hok].
  simpl in Hok. unfold check_status. destruct (raise_for_status code); [discriminate Hok|reflexivity].
Qed.

Lemma attachments_prefix_ok cfg jira key kvs ikvs iid prefix s :
  assoc "issue" kvs = Some (JObj ikvs) -> assoc "id" ikvs = Some iid ->
  Forall (fun a => exists n, a = JStr n /\
            (locally_rejected cfg iid n = true \/
             (upload_attempted cfg iid n = true /\
              upload_fails (upload_attachment jira key (html_escape n)) = false))) prefix ->
  exists s1, for_each prefix (attachment_step cfg jira key (JObj kvs)) s = (inr tt, s1)
    /\ trace_ext_by is_log_or_upload s s1.
Proof.
  intros Hissue Hid Hp. revert s. induction Hp as [|a r Ha Hr IH]; intros s.
  - exists s. split; [reflexivity|apply ext_by_refl].
  - destruct Ha as [n [-> [Hrej|[Hup Hok]]]].
    + destruct (attachment_step_rejected cfg jira key kvs ikvs iid n s Hissue Hid Hrej) as [l [msg E]].
      destruct (IH (mk_st (trace s ++ [ELog l msg]) (fields s) (jira_issue_key s) (checkpoint_file s)))
        as [s1 [E1 X1]].
      exists s1. cbn [for_each]. rewrite (bind_step _ _ _ _ _ E). split; [exact E1|].
      eapply ext_by_trans; [|exact X1]. exists [ELog l msg]. split; reflexivity.
    + pose proof (attachment_step_upload_ok cfg jira key kvs ikvs iid n s Hissue Hid Hup Hok) as E.
      destruct (IH (mk_st (trace s ++ [EUpload key (html_escape n)]) (fields s) (jira_issue_key s)
                          (checkpoint_file s))) as [s1 [E1 X1]].
      exists s1. cbn [for_each]. rewrite (bind_step _ _ _ _ _ E). split; [exact E1|].
      eapply ext_by_trans; [|exact X1]. exists [EUpload key (html_escape n)]. split; reflexivity.
Qed.

Lemma process_created_upload_fails cfg jira key kvs ikvs iid prefix name rest s :
  assoc "attachments" kvs = Some (JList (prefix ++ JStr name :: rest)) ->
  assoc "issue" kvs = Some (JObj ikvs) -> assoc "id" ikvs = Some iid ->
  Forall (fun a => exists n, a = JStr n /\
            (locally_rejected cfg iid n = true \/
             (upload_attempted cfg iid n = true /\
              upload_fails (upload_attachment jira key (html_escape n)) = false))) prefix ->
  upload_attempted cfg iid name = true ->
  upload_fails (upload_attachment jira key (html_escape name)) = true ->
  exists e s' evs logs, process_created cfg jira (JObj kvs) key s = (inl e, s') /\
    trace s' = (trace s ++ evs ++ EUpload key (html_escape name) :: logs)%list /\
    forallb is_log_or_upload evs = true /\ forallb is_log_event logs = true.
Proof.
  intros Hatt Hissue Hid Hp Hup Hfail.
  destruct (attachments_prefix_ok cfg jira key kvs ikvs iid prefix s Hissue Hid Hp) as [s1 [E1 [evs [T1 P1]]]].
  destruct (attachment_step_upload_fails cfg jira key kvs ikvs iid name s1 Hissue Hid Hup Hfail)
    as (e & s' & logs & E & T & L).
  exists e, s', evs, logs. split; [|split; [|split; assumption]].
  - unfold process_created, handle_attachments.
    rewrite (bind_step _ _ _ _ _ (dict_get_step (JObj kvs) "attachments" _ s
                                   ltac:(cbn [dict_get_v]; rewrite Hatt; reflexivity))).
    unfold truthy. rewrite length_app. cbn [List.length]. rewrite Nat.add_succ_r. cbn [Nat.eqb negb].
    apply bind_raise_step.
    rewrite (bind_step _ _ _ _ _ (getitem_step (JObj kvs) "attachments" _ s
                                   ltac:(cbn [getitem_v]; rewrite Hatt; reflexivity))).
    rewrite (for_each_app_ok _ _ _ _ _ E1). cbn [for_each]. apply bind_raise_step. exact E.
  - rewrite T, T1, <- app_assoc. reflexivity.
Qed.

Lemma issues_setup_upload_fails cfg jira key kvs ikvs iid prefix name rest tkvs c j s :
  assoc "attachments" kvs = Some (JList (prefix ++ JStr name :: rest)) ->
  assoc "issue" kvs = Some (JObj ikvs) -> assoc "id" ikvs = Some iid ->
  Forall (fun a => exists n, a = JStr n /\
            (locally_rejected cfg iid n = true \/
             (upload_attempted cfg iid n = true /\
              upload_fails (upload_attachment jira key (html_escape n)) = false))) prefix ->
  upload_attempted cfg iid name = true ->
  upload_fails (upload_attachment jira key (html_escape name)) = true ->
  assoc "subject" ikvs <> None -> assoc "description" ikvs <> None ->
  assoc "tracker" ikvs = Some (JObj tkvs) -> assoc "name" tkvs <> None ->
  Forall (fun h : IM unit => forall s0, exists s1, h s0 = (inr tt, s1))
    [handle_reporter jira (JObj kvs); handle_assignee jira (JObj kvs); handle_dates (JObj kvs);
     handle_priority (JObj kvs); handle_category (JObj kvs); handle_estimated_hours (JObj kvs)] ->
  (forall payload, create_issue jira payload = Reply c (Some j)) -> raise_for_status c = None ->
  getitem_v j "key" = inr key ->
  exists s' pre logs, issues_setup cfg jira (JObj kvs) s = (inr tt, s') /\
    trace s' = (pre ++ EUpload key (html_escape name) :: logs)%list /\
    forallb is_log_event logs = true.
Proof.
  intros Hatt Hissue Hid Hp Hup Hfail Hsub Hdesc Htr Htn Hh Hcreate Hc Hk.
  destruct (assoc "subject" ikvs) as [vs|] eqn:Hs1; [clear Hsub|congruence].
  destruct (assoc "description" ikvs) as [vd|] eqn:Hs2; [clear Hdesc|congruence].
  destruct (assoc "name" tkvs) as [vn|] eqn:Hs3; [clear Htn|congruence].
  apply Forall_cons in Hh as [H1 Hh]. apply Forall_cons in Hh as [H2 Hh].
  apply Forall_cons in Hh as [H3 Hh]. apply Forall_cons in Hh as [H4 Hh].
  apply Forall_cons in Hh as [H5 Hh]. apply Forall_cons in Hh as [H6 _].
  destruct (issues_setup_returns cfg jira (JObj kvs) s) as [sf Ef]. exists sf.
  pose proof Ef as Ef0.
  unfold issues_setup, with_rate_limiter, with_stmt in Ef.
  change (emit ERateWait s) with
    (@inr exc unit tt, mk_st (trace s ++ [ERateWait]) (fields s) (jira_issue_key s) (checkpoint_file s)) in Ef.
  cbv beta iota in Ef.
  erewrite bind_step in Ef by reflexivity.
  repeat match type of Ef with
    | context [bind (getitem ?v ?k) ?f ?st] =>
        let H := fresh in
        assert (H : getitem v k st = (inr _, st))
          by (apply getitem_step; cbn [getitem_v];
              match goal with Ha : assoc _ _ = Some _ |- _ => rewrite Ha; reflexivity end);
        rewrite (bind_step _ f _ _ _ H) in Ef; clear H
    end.
  erewrite bind_step in Ef by reflexivity.
  repeat match type of Ef with
    | context [bind ?h ?f ?st] =>
        match goal with H : forall s0, exists s1, h s0 = _ |- _ =>
          let E := fresh in destruct (H st) as [? E]; rewrite (bind_step _ f _ _ _ E) in Ef; clear H E
        end
    end.
  unfold try_http_or_exception, try_except in Ef. cbv beta in Ef.
  erewrite bind_step in Ef by reflexivity.
  erewrite bind_step in Ef by reflexivity.
  rewrite Hcreate in Ef. cbv beta iota in Ef. unfold check_status in Ef. rewrite Hc in Ef.
  erewrite bind_step in Ef by reflexivity. cbv beta iota in Ef.
  rewrite (bind_step _ _ _ _ _ (getitem_step j "key" _ _ Hk)) in Ef.
  erewrite bind_step in Ef by reflexivity.
  match type of Ef with context [process_created cfg jira (JObj kvs) key ?st] =>
    destruct (process_created_upload_fails cfg jira key kvs ikvs iid prefix name rest st
                Hatt Hissue Hid Hp Hup Hfail) as (e & s' & evs & logs & E & T & P & L);
    rewrite E in Ef;
    assert (Tpre : trace s' = ((trace st ++ evs) ++ EUpload key (html_escape name) :: logs)%list)
      by (rewrite T, app_assoc; reflexivity);
    generalize dependent (trace st ++ evs)%list; intros pre Tpre
  end.
  revert Ef; destruct (is_Exception e); intros Ef; cbv iota in Ef.
  - match type of Ef with context [match ?h s' with _ => _ end] =>
      assert (Kh : keeps (trace_ext_by is_log_event) h) by (destruct e; repeat log_step);
      destruct (h s') as [r2 s2] eqn:E2
    end.
    destruct (Kh _ _ _ E2) as [l2 [T2 L2]].
    assert (Hsf : sf = s2) by (destruct r2 as [e2|]; [destruct (RateLimiter.exit_suppresses (Some e2))|];
                               congruence).
    subst sf. exists pre, (logs ++ l2)%list. split; [exact Ef0|].
    rewrite T2, Tpre, <- !app_assoc. split; [reflexivity|]. rewrite forallb_app, L, L2. reflexivity.
  - assert (Hsf : sf = s') by (destruct (RateLimiter.exit_suppresses (Some e)); congruence).
    subst sf. exists pre, logs. split; [exact Ef0|]. split; [exact Tpre|exact L].
Qed.

(** C5. Once the issue exists under [key], an attachment rejected by the
    local checks (missing file, too large, disallowed type) is only logged
    and the loop goes on.  A failing upload (transport error or an error
    status), after any number of attachments that were rejected or uploaded,
    raises out of [handle_attachments] and ends [process_created]: after the
    failed upload the trace holds only log lines, so no later attachment,
    journal comment or status transition is attempted.  In [issues_setup]
    (for an issue whose field handlers return normally and whose creation
    succeeds), the [except Exception] handler only logs and re-raises, and
    the rate limiter suppresses the exception: [issues_setup] returns
    normally and its trace ends with the failed upload and log lines. *)
Theorem attachment_failure_stops_issue cfg jira key kvs ikvs iid prefix name rest tkvs c j s
    (Hatt : assoc "attachments" kvs = Some (JList (prefix ++ JStr name :: rest)))
    (Hissue : assoc "issue" kvs = Some (JObj ikvs)) (Hid : assoc "id" ikvs = Some iid)
    (Hprefix : Forall (fun a => exists n, a = JStr n /\
                 (locally_rejected cfg iid n = true \/
                  (upload_attempted cfg iid n = true /\
                   upload_fails (upload_attachment jira key (html_escape n)) = false))) prefix)
    (Hup : upload_attempted cfg iid name = true)
    (Hfail : upload_fails (upload_attachment jira key (html_escape name)) = true)
    (Hsub : assoc "subject" ikvs <> None) (Hdesc : assoc "description" ikvs <> None)
    (Htr : assoc "tracker" ikvs = Some (JObj tkvs)) (Htn : assoc "name" tkvs <> None)
    (Hhandlers : Forall (fun h : IM unit => forall s0, exists s1, h s0 = (inr tt, s1))
       [handle_reporter jira (JObj kvs); handle_assignee jira (JObj kvs); handle_dates (JObj kvs);
        handle_priority (JObj kvs); handle_category (JObj kvs); handle_estimated_hours (JObj kvs)])
    (Hcreate : forall payload, create_issue jira payload = Reply c (Some j))
    (Hc : raise_for_status c = None) (Hkey : getitem_v j "key" = inr key) :
  (forall name' s0, locally_rejected cfg iid name' = true ->
     exists l msg, attachment_step cfg jira key (JObj kvs) (JStr name') s0 =
       (inr tt, mk_st (trace s0 ++ [ELog l msg]) (fields s0) (jira_issue_key s0)
                      (checkpoint_file s0))) /\
  (exists e s' evs logs, process_created cfg jira (JObj kvs) key s = (inl e, s') /\
     trace s' = (trace s ++ evs ++ EUpload key (html_escape name) :: logs)%list /\
     forallb is_log_or_upload evs = true /\ forallb is_log_event logs = true) /\
  (exists s' pre logs, issues_setup cfg jira (JObj kvs) s = (inr tt, s') /\
     trace s' = (pre ++ EUpload key (html_escape name) :: logs)%list /\
     forallb is_log_event logs = true).
Proof.
  split; [|split].
  - intros name' s0 Hrej. exact (attachment_step_rejected cfg jira key kvs ikvs iid name' s0 Hissue Hid Hrej).
  - exact (process_created_upload_fails cfg jira key kvs ikvs iid prefix name rest s
             Hatt Hissue Hid Hprefix Hup Hfail).
  - exact (issues_setup_upload_fails cfg jira key kvs ikvs iid prefix name rest tkvs c j s
             Hatt Hissue Hid Hprefix Hup Hfail Hsub Hdesc Htr Htn Hhandlers Hcreate Hc Hkey).
Qed.

Lemma attachment_failure_stops_issue_witness :
  let kvs := match Samples.item_c5 with JObj kvs => kvs | _ => [] end in
  let ikvs := [("id", JInt 1); ("subject", JStr "<script>"); ("description", JStr "d");
               ("tracker", JObj [("name", JStr "Bug")]); ("status", JObj [("name", JStr "New")]);
               ("priority", JObj [("name", JStr "Blocker")])] in
  (forall name' s0, locally_rejected Samples.cfg0 (JInt 1) name' = true ->
     exists l msg, attachment_step Samples.cfg0 Samples.api_upload_some (JStr "PRJ-1")
                     (JObj kvs) (JStr name') s0 =
       (inr tt, mk_st (trace s0 ++ [ELog l msg]) (fields s0) (jira_issue_key s0)
                      (checkpoint_file s0))) /\
  (exists e s' evs logs, process_created Samples.cfg0 Samples.api_upload_some (JObj kvs)
                           (JStr "PRJ-1") Samples.st0 = (inl e, s') /\
     trace s' = (trace Samples.st0 ++ evs ++ EUpload (JStr "PRJ-1") (html_escape "a.png") :: logs)%list /\
     forallb is_log_or_upload evs = true /\ forallb is_log_event logs = true) /\
  (exists s' pre logs, issues_setup Samples.cfg0 Samples.api_upload_some (JObj kvs) Samples.st0
                         = (inr tt, s') /\
     trace s' = (pre ++ EUpload (JStr "PRJ-1") (html_escape "a.png") :: logs)%list /\
     forallb is_log_event logs = true).
Proof.
  intros kvs ikvs.
  apply (attachment_failure_stops_issue Samples.cfg0 Samples.api_upload_some (JStr "PRJ-1") kvs ikvs
           (JInt 1) [JStr "missing.png"; JStr "ok.png"] "a.png" [JStr "b.png"]
           [("name", JStr "Bug")] 200 (JObj [("key", JStr "PRJ-1")]) Samples.st0).
  - reflexivity.
  - reflexivity.
  - reflexivity.
  - constructor; [exists "missing.png"; split; [reflexivity|left; reflexivity]|].
    constructor; [exists "ok.png"; split; [reflexivity|right; split; reflexivity]|].
    constructor.
  - reflexivity.
  - reflexivity.
  - discriminate.
  - discriminate.
  - reflexivity.
  - discriminate.
  - constructor; [intros s0; eexists; cbv; reflexivity|].
    constructor; [intros s0; eexists; cbv; reflexivity|].
    constructor; [intros s0; eexists; cbv; reflexivity|].
    constructor; [intros s0; eexists; cbv; reflexivity|].
    constructor; [intros s0; eexists; cbv; reflexivity|].
    constructor; [intros s0; eexists; cbv; reflexivity|].
    constructor.
  - intros payload. reflexivity.
  - reflexivity.
  - reflexivity.
Defined.

Module ImporterRun.

Import Importer ImporterFacts.

(** [handle_category] ([_importer.py] lines 327-339): with no category the
    [labels] field is set to [[]]; with a category dictionary whose name is
    the string [n] it is set to the one label [n.strip().replace(" ", "_")],
    which contains no space.  No other field changes. *)
Theorem handle_category_labels dkvs ikvs labels s :
  assoc "issue" dkvs = Some (JObj ikvs) ->
  (assoc "category" ikvs = None /\ labels = []) \/
  (exists ckvs n, assoc "category" ikvs = Some (JObj ckvs) /\ assoc "name" ckvs = Some (JStr n)
                  /\ labels = [JStr (replace_spaces (strip n))]) ->
  exists s', handle_category (JObj dkvs) s = (inr tt, s')
    /\ assoc "labels" (fields s') = Some (JList labels)
    /\ (forall k, k <> "labels" -> assoc k (fields s') = assoc k (fields s))
    /\ Forall (fun l => exists t, l = JStr t /\ all_chars (fun c => negb (Ascii.eqb c " ")) t = true) labels.
Proof.
  intros Hi Hc.
  assert (Hl : lookup_fmap "labels" fields_mappings = Some (mk_fmap "labels" TList true)) by reflexivity.
  unfold handle_category, getitem, dict_get, bind, lift, ret.
  cbn [getitem_v dict_get_v]. rewrite Hi. cbn [dict_get_v].
  destruct Hc as [[Hc ->]|[ckvs [n [Hc [Hn ->]]]]]; rewrite Hc; cbn [truthy negb].
  - destruct (set_field_value_sets "labels" (JList []) fields_mappings _ s Hl) as [s' [E [H1 H2]]].
    rewrite E. exists s'. split; [reflexivity|]. split; [exact H1|]. split; [exact H2|constructor].
  - destruct ckvs as [|kv ckvs]; [discriminate Hn|]. cbn [length Nat.eqb negb py_contains_v getitem_v].
    rewrite Hn.
    match goal with |- context [set_field_value "labels" ?v fields_mappings ?st] =>
      destruct (set_field_value_sets "labels" v fields_mappings _ st Hl) as [s' [E [H1 H2]]] end.
    rewrite E. exists s'. split; [reflexivity|]. split; [exact H1|]. split; [exact H2|].
    repeat constructor. eexists; split; [reflexivity|apply replace_spaces_no_space].
Qed.

Lemma handle_category_labels_witness :
  exists s', handle_category (JObj [("issue", JObj [("id", JInt 1);
                 ("category", JObj [("name", JStr " Web UI ")])])]) (mk_st [] [] None None) = (inr tt, s')
    /\ assoc "labels" (fields s') = Some (JList [JStr (replace_spaces (strip " Web UI "))])
    /\ (forall k, k <> "labels" -> assoc k (fields s') = assoc k (fields (mk_st [] [] None None)))
    /\ Forall (fun l => exists t, l = JStr t /\ all_chars (fun c => negb (Ascii.eqb c " ")) t = true)
         [JStr (replace_spaces (strip " Web UI "))].
Proof.
  apply (handle_category_labels _ [("id", JInt 1); ("category", JObj [("name", JStr " Web UI ")])]).
  - reflexivity.
  - right. exists [("name", JStr " Web UI ")], " Web UI ". split; [reflexivity|split; reflexivity].
Defined.

(** The transition search of [get_transition_id] ([_importer.py] lines
    204-212) compares names case-insensitively: two target statuses equal
    up to ASCII case give the same result. *)
Theorem find_transition_case_insensitive a b ts s :
  lower a = lower b ->
  find_transition (JStr a) ts s = find_transition (JStr b) ts s.
Proof.
  intros Hab. revert s; induction ts as [|t r IH]; intros s; [reflexivity|].
  cbn [find_transition]. unfold bind.
  destruct (getitem t "to" s) as [[e|to_] s1]; [reflexivity|].
  destruct (getitem to_ "name" s1) as [[e|nm] s2]; [reflexivity|].
  destruct nm; try reflexivity. rewrite Hab.
  destruct (String.eqb (lower s0) (lower b)); [reflexivity|apply IH].
Qed.

Lemma find_transition_case_insensitive_witness :
  lower "In Progress" = lower "in progress" /\
  find_transition (JStr "In Progress") [JObj [("id", JStr "21"); ("to", JObj [("name", JStr "IN PROGRESS")])]]
    (mk_st [] [] None None) =
  find_transition (JStr "in progress") [JObj [("id", JStr "21"); ("to", JObj [("name", JStr "IN PROGRESS")])]]
    (mk_st [] [] None None).
Proof. split; [reflexivity|]. apply find_transition_case_insensitive. reflexivity. Defined.

(** Resuming [import_issues] ([_importer.py] lines 527-580) from checkpoint
    [n] runs the loop exactly as a fresh run over the lines after line [n],
    numbered from [n + 1]. *)
Theorem import_lines_resume_checkpoint cfg jira n lines s :
  import_lines cfg jira true (Z.of_nat n) 1 lines s =
  import_lines cfg jira false 0 (Z.of_nat n + 1) (skipn n lines) s.
Proof.
  change 1 with (Z.of_nat 0 + 1). rewrite (import_lines_resume cfg jira n 0 lines s) by lia.
  rewrite Nat.sub_0_r. reflexivity.
Qed.

(** [handle_journals] ([_importer.py] lines 428-451) on a journal whose
    [notes] is a non-empty string [n]: the next request it makes is the
    comment [html.escape(n)] on the issue. *)
Theorem handle_journals_posts_escaped jira kvs n key s :
  assoc "notes" kvs = Some (JStr n) -> n <> EmptyString ->
  exists r s' evs, handle_journals jira (JObj kvs) key s = (r, s')
    /\ trace s' = (trace s ++ EComment key (JStr (html_escape n)) :: evs)%list.
Proof.
  intros Hn Hne. unfold handle_journals, getitem, bind at 1, lift, ret.
  cbn [getitem_v]. rewrite Hn. cbn [truthy sanitize_input].
  destruct (String.eqb_spec n EmptyString) as [|_]; [congruence|]. cbn [negb].
  unfold try_http_or_exception. apply try_emit_first.
  - repeat ext_step.
  - intros e. repeat ext_step.
Qed.

Lemma handle_journals_posts_escaped_witness :
  let jira := mk_api (fun _ => NetFail) (fun _ => NetFail) (fun _ _ => NetFail)
                     (fun _ _ => Reply 201 None) (fun _ => NetFail) (fun _ _ => NetFail) in
  exists r s' evs, handle_journals jira (JObj [("notes", JStr "<b>done</b>")]) (JStr "PRJ-1")
                     (mk_st [] [] None None) = (r, s')
    /\ trace s' = (trace (mk_st [] [] None None) ++
                   EComment (JStr "PRJ-1") (JStr (html_escape "<b>done</b>")) :: evs)%list.
Proof. intros jira. apply handle_journals_posts_escaped; [reflexivity|discriminate]. Defined.

(** [handle_reporter] and [handle_assignee] ([_importer.py] lines 246-304):
    when the issue has an [id] and the user's name is a non-empty string,
    but the Jira user search answers with a status other than 200 or with
    an empty list, the field is set to the fall-back value (the anonymous
    reporter, or [None] for the assignee), and no other field changes. *)
Theorem handle_user_field_default jira src dst fallback dkvs ikvs id ukvs u s :
  assoc "issue" dkvs = Some (JObj ikvs) -> assoc "id" ikvs = Some id ->
  assoc src ikvs = Some (JObj ukvs) -> assoc "name" ukvs = Some (JStr u) -> u <> EmptyString ->
  (exists code body, user_search jira (html_escape u) = Reply code body /\ code <> 200)
  \/ user_search jira (html_escape u) = Reply 200 (Some (JList [])) ->
  exists s', handle_user_field jira src dst fallback (JObj dkvs) s = (inr tt, s')
    /\ assoc dst (fields s') = Some fallback
    /\ (forall k, k <> dst -> assoc k (fields s') = assoc k (fields s)).
Proof.
  intros Hi Hid Hs Hn Hu Hq.
  assert (Hg1 : getitem (JObj dkvs) "issue" = ret (JObj ikvs))
    by (unfold getitem; cbn [getitem_v]; rewrite Hi; reflexivity).
  assert (Hg2 : getitem (JObj ikvs) "id" = ret id)
    by (unfold getitem; cbn [getitem_v]; rewrite Hid; reflexivity).
  assert (Hd1 : dict_get (JObj ikvs) src = ret (JObj ukvs))
    by (unfold dict_get; cbn [dict_get_v]; rewrite Hs; reflexivity).
  assert (Hd2 : dict_get (JObj ukvs) "name" = ret (JStr u))
    by (unfold dict_get; cbn [dict_get_v]; rewrite Hn; reflexivity).
  destruct ukvs as [|kv ukvs]; [discriminate Hn|].
  assert (Hgu : forall s0, exists s1, get_user jira (JStr u) s0 = (inr JNull, s1)
                                /\ fields s1 = fields s0).
  { intros s0. unfold get_user, bind, emit.
    destruct Hq as [[code [body [Hq Hc]]]|Hq]; rewrite Hq.
    - apply Z.eqb_neq in Hc. rewrite Hc. unfold log, emit, ret. eexists; split; reflexivity.
    - cbn [Z.eqb truthy length Nat.eqb negb]. unfold ret. eexists; split; reflexivity. }
  assert (Hf : fmt_issue_id (JObj dkvs) = ret tt)
    by (unfold fmt_issue_id; rewrite Hg1, bind_ret_l, Hg2; reflexivity).
  unfold handle_user_field, log_id. rewrite Hf.
  rewrite (bind_step (getitem (JObj dkvs) "issue")) with (a := JObj ikvs) (s1 := s)
    by (rewrite Hg1; reflexivity).
  rewrite Hd1, bind_ret_l. cbn [truthy length Nat.eqb negb].
  rewrite Hd2, bind_ret_l. cbn [truthy negb].
  destruct (String.eqb_spec u EmptyString) as [|_]; [congruence|]. cbn [negb].
  unfold try_except, bind at 1.
  destruct (Hgu s) as [s1 [E1 F1]]. rewrite E1. cbn [truthy negb].
  unfold bind, ret, log, emit, set_field, get_fields, set_fields.
  eexists. split; [reflexivity|]. cbn [fields]. split.
  - apply assoc_assoc_set_eq.
  - intros k Hk. rewrite assoc_assoc_set_neq by exact Hk. rewrite F1. reflexivity.
Qed.

Lemma handle_user_field_default_witness :
  let jira := mk_api (fun _ => Reply 500 None) (fun _ => NetFail) (fun _ _ => NetFail)
                     (fun _ _ => NetFail) (fun _ => NetFail) (fun _ _ => NetFail) in
  exists s', handle_reporter jira
               (JObj [("issue", JObj [("id", JInt 3); ("author", JObj [("name", JStr "Ann")])])])
               (mk_st [] [] None None) = (inr tt, s')
    /\ assoc "reporter" (fields s') =
       Some (JObj [("name", JStr "Anonymous"); ("id", JStr "63776502489de2f7f46267eb")])
    /\ (forall k, k <> "reporter" -> assoc k (fields s') = assoc k (fields (mk_st [] [] None None))).
Proof.
  intros jira. unfold handle_reporter.
  apply (handle_user_field_default jira "author" "reporter" _ _
           [("id", JInt 3); ("author", JObj [("name", JStr "Ann")])] (JInt 3) [("name", JStr "Ann")] "Ann");
    try reflexivity.
  - discriminate.
  - left. exists 500, None. split; [reflexivity|discriminate].
Defined.

End ImporterRun.

(* ------------------------------------------------------------------ *)
(** ** Further properties of [src/main.py] and of the pagination loops *)

Module MainFacts.

Lemma process_item_plain E i issue s :
  MainScript.write_ok E = true -> MainScript.plain_issue issue ->
  exists s', MainScript.process_item E i issue s = (inr tt, s')
    /\ MainScript.out s' = (MainScript.out s ++ [issue])%list
    /\ MainScript.progress s' = Some (py_str_int i).
Proof.
  intros Hw [kvs [id [-> [Hid [Ha Hc]]]]].
  unfold MainScript.process_item, MainScript.mgetitem, lift.
  cbn [getitem_v py_contains_v]. rewrite Hid, Ha, Hc.
  unfold try_except, bind, ret, MainScript.mlog, MainScript.memit, MainScript.export_data,
    MainScript.save_progress. rewrite Hw.
  eexists. split; [reflexivity|]. split; reflexivity.
Qed.

Lemma process_from_plain E i issues s :
  MainScript.write_ok E = true -> Forall MainScript.plain_issue issues ->
  exists s', MainScript.process_from E i issues s = (inr tt, s')
    /\ MainScript.out s' = (MainScript.out s ++ issues)%list
    /\ MainScript.progress s' = match issues with
                                | [] => MainScript.progress s
                                | _ => Some (py_str_int (i + Z.of_nat (length issues) - 1))
                                end.
Proof.
  intros Hw Hall. revert i s; induction Hall as [|x r Hx Hr IH]; intros i s.
  - exists s. rewrite app_nil_r. split; [reflexivity|split; reflexivity].
  - cbn [MainScript.process_from].
    destruct (process_item_plain E i x s Hw Hx) as [s1 [E1 [O1 P1]]].
    rewrite (bind_step _ _ _ _ _ E1).
    destruct (IH (i + 1) s1) as [s2 [E2 [O2 P2]]].
    rewrite E2. exists s2. split; [reflexivity|]. split.
    + rewrite O2, O1, <- app_assoc. reflexivity.
    + rewrite P2. destruct r; cbn [length]; [rewrite P1; f_equal; f_equal; lia|].
      f_equal; f_equal. cbn [length]. lia.
Qed.

End MainFacts.

Module MainRun.

Import MainFacts.

(** [fetch_comments] of [src/main.py] (lines 87-105) never raises
    [RedmineAuthenticationError], [RedminePermissionError] or
    [RedmineNotFoundError]: a 401, 403 or 404 reply is caught as a
    [RequestException] by [raise_for_status] first and ends the program. *)
Theorem fetch_comments_no_redmine_error E id s :
  match fst (MainScript.fetch_comments E id s) with
  | inl RedmineAuthenticationError | inl RedminePermissionError
  | inl RedmineNotFoundError => False
  | _ => True
  end.
Proof.
  unfold MainScript.fetch_comments, bind, MainScript.memit, MainScript.mlog, raise.
  destruct (MainScript.comments_endpoint E id) as [code body|]; cbn [fst]; [|exact I].
  unfold raise_for_status.
  destruct ((400 <=? code) && (code <? 600))%Z eqn:Hc; cbn [fst]; [exact I|].
  destruct (Z.eqb_spec code 200).
  - destruct body as [j|]; cbn [fst]; [|exact I].
    unfold MainScript.mgetitem, lift. destruct (getitem_v j "comments") as [ex|v] eqn:Hg;
      cbn [fst]; [|exact I].
    destruct j; cbn in Hg; try (injection Hg as <-; exact I).
    destruct (assoc "comments" kvs); [discriminate Hg|injection Hg as <-; exact I].
  - apply andb_false_iff in Hc.
    destruct (Z.eqb_spec code 401); [lia|]. destruct (Z.eqb_spec code 403); [lia|].
    destruct (Z.eqb_spec code 404); [lia|]. exact I.
Qed.

(** The offsets requested by [fetch_data_with_pagination] ([_exporter.py]
    lines 116-134) are strictly increasing and start at the initial one. *)
Theorem exporter_offsets_increasing srv fuel offset data :
  Forall (fun o => offset <= o) (snd (Pagination.fetch_data_with_pagination srv fuel offset data))
  /\ StronglySorted Z.lt (snd (Pagination.fetch_data_with_pagination srv fuel offset data)).
Proof.
  revert offset data; induction fuel as [|fuel IH]; intros offset data; cbn [Pagination.fetch_data_with_pagination].
  - split; constructor.
  - destruct (Pagination.fetch_data (srv offset)) as [rd|];
      [|split; repeat constructor; lia].
    destruct rd eqn:Hrd; [split; repeat constructor; lia|..]; rewrite <- Hrd; clear Hrd.
    all: destruct (py_contains_v "issues" rd) as [e|[|]];
      [split; repeat constructor; lia| |split; repeat constructor; lia];
      destruct (getitem_v rd "issues") as [e|cd]; [split; repeat constructor; lia|];
      destruct (py_iter_items cd) as [e|items]; [split; repeat constructor; lia|];
      destruct (Nat.eqb_spec (length items) 0); [split; repeat constructor; lia|];
      destruct (IH (offset + Z.of_nat (length items)) (data ++ items)%list) as [H1 H2];
      destruct (Pagination.fetch_data_with_pagination srv fuel (offset + Z.of_nat (length items))
                  (data ++ items)%list) as [r offs];
      cbn [snd] in *; split;
      [ constructor; [lia|]; eapply Forall_impl; [exact H1|]; intros o Ho; cbv beta in Ho; lia
      | constructor; [exact H2|]; eapply Forall_impl; [exact H1|]; intros o Ho; cbv beta in Ho; lia ].
Qed.

(** The offsets requested by [fetch_issues] of [src/main.py] (lines 65-85)
    are [offset], [offset + 100], [offset + 200], ... *)
Theorem main_offsets_step_100 srv fuel offset issues :
  let offs := snd (Pagination.main_fetch_issues srv fuel offset issues) in
  offs = map (fun i => offset + 100 * Z.of_nat i) (seq 0 (length offs)).
Proof.
  cbv zeta. revert offset issues; induction fuel as [|fuel IH]; intros offset issues;
    cbn [Pagination.main_fetch_issues].
  - reflexivity.
  - assert (Hone : [offset] = map (fun i => offset + 100 * Z.of_nat i) (seq 0 1))
      by (simpl; f_equal; lia).
    assert (Hcons : forall offs : list Z,
      offs = map (fun i => (offset + 100) + 100 * Z.of_nat i) (seq 0 (length offs)) ->
      offset :: offs = map (fun i => offset + 100 * Z.of_nat i) (seq 0 (length (offset :: offs)))).
    { intros offs Ho. cbn [length seq map]. rewrite <- seq_shift.
      rewrite map_map. f_equal; [lia|]. rewrite Ho at 1.
      apply map_ext. intros i. lia. }
    destruct (srv offset) as [code body|]; [|exact Hone].
    destruct (raise_for_status code), body as [data|]; try exact Hone.
    destruct (getitem_v data "issues") as [e|ci]; [exact Hone|].
    destruct (py_iter_items ci) as [e|items]; [exact Hone|].
    destruct (getitem_v data "total_count") as [e|[| b | tc | | |]]; try exact Hone.
    + destruct (Z.b2z b <=? _)%Z; [exact Hone|].
      specialize (IH (offset + 100) (issues ++ items)%list).
      destruct (Pagination.main_fetch_issues srv fuel (offset + 100) (issues ++ items)%list) as [r offs].
      cbn [snd] in *. apply Hcons, IH.
    + destruct (tc <=? _)%Z; [exact Hone|].
      specialize (IH (offset + 100) (issues ++ items)%list).
      destruct (Pagination.main_fetch_issues srv fuel (offset + 100) (issues ++ items)%list) as [r offs].
      cbn [snd] in *. apply Hcons, IH.
Qed.

(** The export loop of [src/main.py] (lines 210-227), started at index
    [k < len(issues)] over issues with an [id] and no [attachments] or
    [comments] key, with a writable output file, appends the issues from
    index [k] on, in order, and leaves [str(len(issues))] in the progress
    file. *)
Theorem export_loop_writes_issues E k issues s :
  MainScript.write_ok E = true -> Forall MainScript.plain_issue issues -> (k < length issues)%nat ->
  exists s', MainScript.export_loop E k issues s = (inr tt, s')
    /\ MainScript.out s' = (MainScript.out s ++ skipn k issues)%list
    /\ MainScript.progress s' = Some (py_str_int (Z.of_nat (length issues))).
Proof.
  intros Hw Hall Hk. unfold MainScript.export_loop.
  destruct (process_from_plain E (Z.of_nat k + 1) (skipn k issues) s Hw (Forall_drop _ _ _ Hall))
    as [s1 [E1 [O1 P1]]].
  rewrite (bind_step _ _ _ _ _ E1). unfold MainScript.mlog, MainScript.memit.
  eexists. split; [reflexivity|]. split; [exact O1|].
  cbn [MainScript.progress]. rewrite P1.
  destruct (skipn k issues) eqn:Hs.
  - apply (f_equal (@length json)) in Hs. rewrite length_skipn in Hs. simpl in Hs. lia.
  - rewrite <- Hs, length_skipn. f_equal; f_equal. lia.
Qed.

Lemma export_loop_writes_issues_witness :
  let E := MainScript.mk_env true (fun _ => false) (fun _ => NetFail) in
  exists s', MainScript.export_loop E 1 [JObj [("id", JInt 1)]; JObj [("id", JInt 2)]]
               (MainScript.mk_mst [] None []) = (inr tt, s')
    /\ MainScript.out s' = (MainScript.out (MainScript.mk_mst [] None []) ++
                            skipn 1 [JObj [("id", JInt 1)]; JObj [("id", JInt 2)]])%list
    /\ MainScript.progress s' = Some (py_str_int (Z.of_nat 2)).
Proof.
  intros E. apply (export_loop_writes_issues E 1 [JObj [("id", JInt 1)]; JObj [("id", JInt 2)]]).
  - reflexivity.
  - constructor; [|constructor; [|constructor]];
      (eexists _, _; split; [reflexivity|split; [reflexivity|split; reflexivity]]).
  - simpl; lia.
Defined.

End MainRun.
